(** * MeksTaskManager: session manager, auth forms and task submission flow

    A shallow embedding of the web client's decision logic:
    - [AuthProvider] (hooks/authContext): rehydration, [login], [logout];
    - the login and sign-up pages: [handleErrorSuccess], [handleSubmit];
    - the dashboard: [handleTaskSubmit], [clearTasksOnUnload], [loadData].

    JavaScript values are modelled by [jsval]; property reads can raise a
    [TypeError], so handlers live in a state-and-exception monad over the
    browser [world] (localStorage, React state, pending timers, the log of
    requests handed to the api client, navigation).  Console output is
    not modelled. *)

From Stdlib Require Import ZArith Ascii String List Bool Lia.
From Stdlib Require Import Decimal DecimalString DecimalZ DecimalN DecimalPos.
From stdpp Require Import base option list strings gmap.

Local Open Scope Z_scope.

(** ** JavaScript values *)

(** The values that flow through the program: JSON data received from the
    server, strings typed into forms, [Date.now()] readings, object
    literals.  Strings are sequences of code units below 256; numbers are
    the integers (status codes, timestamps, numeric identifiers).  An
    object is its list of own properties in enumeration order; the
    program's property names are never array indices, so that order is
    insertion order. *)
#[warnings="-register-all"]
Inductive jsval : Type :=
  | JUndefined
  | JNull
  | JBool (b : bool)
  | JNum (z : Z)
  | JStr (s : string)
  | JArr (elems : list jsval)
  | JObj (props : list (string * jsval)).

(** Outcome of evaluating an expression or awaiting a promise: a value, or
    a thrown exception / rejection carrying the thrown JavaScript value. *)
Inductive res (A : Type) : Type :=
  | Ok (a : A)
  | Throw (e : jsval).
Arguments Ok {A} a.
Arguments Throw {A} e.

(** The exception raised by reading a property of [undefined] or [null],
    or by spreading a non-iterable.  Only its [response] property (absent)
    is ever inspected. *)
Definition TypeError : jsval :=
  JObj [("name", JStr "TypeError")].

(** The exception raised by [JSON.parse] on malformed text. *)
Definition SyntaxError : jsval :=
  JObj [("name", JStr "SyntaxError")].

(** ToBoolean: the test performed by [if (v)], [!v], [a && b], [a || b]. *)
Definition truthy (v : jsval) : bool :=
  match v with
  | JUndefined | JNull => false
  | JBool b => b
  | JNum z => negb (z =? 0)
  | JStr s => negb (String.eqb s "")
  | JArr _ | JObj _ => true
  end.

(** [a || b] *)
Definition js_or (a b : jsval) : jsval := if truthy a then a else b.

Definition is_nullish (v : jsval) : bool :=
  match v with
  | JUndefined | JNull => true
  | _ => false
  end.

(** [v === n] for a number literal [n]. *)
Definition strict_eq_num (v : jsval) (n : Z) : bool :=
  match v with
  | JNum z => z =? n
  | _ => false
  end.

(** Own-property lookup in a property list. *)
Fixpoint assoc (k : string) (ps : list (string * jsval)) : option jsval :=
  match ps with
  | [] => None
  | (k', v) :: ps' => if String.eqb k k' then Some v else assoc k ps'
  end.

(** [obj[k] = v] on a property list: overwrite in place, or append. *)
Fixpoint assoc_set (k : string) (v : jsval) (ps : list (string * jsval))
  : list (string * jsval) :=
  match ps with
  | [] => [(k, v)]
  | (k', v') :: ps' =>
      if String.eqb k k' then (k, v) :: ps' else (k', v') :: assoc_set k v ps'
  end.

(** [v.k]: a TypeError on [undefined] and [null]; the property (or
    [undefined]) on an object; [undefined] on the other values, none of
    whose built-in properties the program reads. *)
Definition prop (v : jsval) (k : string) : res jsval :=
  match v with
  | JUndefined | JNull => Throw TypeError
  | JObj ps => Ok (default JUndefined (assoc k ps))
  | _ => Ok JUndefined
  end.

(** [v?.k] *)
Definition optprop (v : jsval) (k : string) : jsval :=
  match v with
  | JObj ps => default JUndefined (assoc k ps)
  | _ => JUndefined
  end.

(** [{ ...v }]: the own enumerable properties of an object; nothing for
    [null], [undefined], booleans and numbers.  (Strings and arrays would
    contribute index keys; the program never spreads one into an object.) *)
Definition obj_spread (v : jsval) : list (string * jsval) :=
  match v with
  | JObj ps => ps
  | _ => []
  end.

Arguments truthy !v : simpl nomatch.
Arguments js_or a b : simpl nomatch.
Arguments is_nullish !v : simpl nomatch.
Arguments strict_eq_num !v n : simpl nomatch.
Arguments prop !v k : simpl nomatch.
Arguments optprop !v k : simpl nomatch.
Arguments obj_spread !v : simpl nomatch.

(** Decimal rendering of an integer, as Number.prototype.toString does for
    integers in the exactly representable range; from 10^21 on JavaScript
    writes an exponent instead, which this function does not. *)
Definition string_of_Z (z : Z) : string :=
  NilZero.string_of_int (Z.to_int z).

Fixpoint join (sep : string) (l : list string) : string :=
  match l with
  | [] => ""
  | [s] => s
  | s :: l' => s +:+ sep +:+ join sep l'
  end.

(** ToString, as applied by [localStorage.setItem] to its value and by
    template literals. *)
Fixpoint to_String (v : jsval) : string :=
  match v with
  | JUndefined => "undefined"
  | JNull => "null"
  | JBool true => "true"
  | JBool false => "false"
  | JNum z => string_of_Z z
  | JStr s => s
  | JArr l =>
      join "," (map (fun x => if is_nullish x then ""%string else to_String x) l)
  | JObj _ => "[object Object]"
  end.

(** ** JSON.stringify *)

Definition hex_digit (n : N) : ascii :=
  match n with
  | 0 => "0" | 1 => "1" | 2 => "2" | 3 => "3" | 4 => "4" | 5 => "5"
  | 6 => "6" | 7 => "7" | 8 => "8" | 9 => "9" | 10 => "a" | 11 => "b"
  | 12 => "c" | 13 => "d" | 14 => "e" | _ => "f"
  end%N%char.

(** The double-quote character (code 34). *)
Definition dquote : ascii := "034"%char.

(** QuoteJSONString on one code unit: the two-character escapes, a
    [\u00xx] escape for the other control characters, the character itself
    otherwise. *)
Definition escape_char (c : ascii) : string :=
  let n := N_of_ascii c in
  if (n =? 8)%N then "\b"
  else if (n =? 9)%N then "\t"
  else if (n =? 10)%N then "\n"
  else if (n =? 12)%N then "\f"
  else if (n =? 13)%N then "\r"
  else if (n =? 34)%N then String "\" (String dquote "")
  else if (n =? 92)%N then "\\"
  else if (n <? 32)%N then
    "\u00" +:+ String (hex_digit (n / 16)) (String (hex_digit (n mod 16)) "")
  else String c "".

Fixpoint escape_string (s : string) : string :=
  match s with
  | EmptyString => ""
  | String c s' => escape_char c +:+ escape_string s'
  end.

Definition JSON_quote (s : string) : string :=
  String dquote (escape_string s +:+ String dquote "").

(** [JSON.stringify(v)] as a string, [None] where JavaScript returns
    [undefined].  Inside an array [undefined] is written [null]; inside an
    object a property whose value is [undefined] is left out. *)
Fixpoint stringify (v : jsval) : option string :=
  match v with
  | JUndefined => None
  | JNull => Some "null"%string
  | JBool true => Some "true"%string
  | JBool false => Some "false"%string
  | JNum z => Some (string_of_Z z)
  | JStr s => Some (JSON_quote s)
  | JArr l =>
      Some ("[" +:+ join "," (map (fun x => default "null"%string (stringify x)) l)
              +:+ "]")
  | JObj ps =>
      Some ("{" +:+
            join "," (omap (fun p => match p with
                                     | (k, x) =>
                                         match stringify x with
                                         | Some t => Some (JSON_quote k +:+ ":" +:+ t)
                                         | None => None
                                         end
                                     end) ps)
              +:+ "}")
  end.

(** [JSON.stringify(v)] as the JavaScript value it returns. *)
Definition JSON_stringify (v : jsval) : jsval :=
  match stringify v with
  | Some s => JStr s
  | None => JUndefined
  end.

(** ** JSON.parse *)

Definition backslash : ascii := "\"%char.

(** JSON whitespace: space, tab, line feed, carriage return. *)
Definition is_json_ws (c : ascii) : bool :=
  let n := N_of_ascii c in
  ((n =? 32) || (n =? 9) || (n =? 10) || (n =? 13))%N.

Fixpoint skip_ws (s : string) : string :=
  match s with
  | String c s' => if is_json_ws c then skip_ws s' else s
  | EmptyString => s
  end.

Definition hex_val (c : ascii) : option N :=
  let n := N_of_ascii c in
  if ((48 <=? n) && (n <=? 57))%N then Some (n - 48)%N
  else if ((97 <=? n) && (n <=? 102))%N then Some (n - 87)%N
  else if ((65 <=? n) && (n <=? 70))%N then Some (n - 55)%N
  else None.

(** The code unit written [\uh1h2h3h4]; [None] for a malformed escape and
    for a code unit of 256 or more, which [string] cannot hold. *)
Definition unicode_escape (h1 h2 h3 h4 : ascii) : option ascii :=
  match hex_val h1, hex_val h2, hex_val h3, hex_val h4 with
  | Some a, Some b, Some c, Some d =>
      let n := (((a * 16 + b) * 16 + c) * 16 + d)%N in
      if (n <? 256)%N then Some (ascii_of_N n) else None
  | _, _, _, _ => None
  end.

(** The character denoted by a two-character escape [\e]. *)
Definition simple_escape (e : ascii) : option ascii :=
  let n := N_of_ascii e in
  if (n =? 34)%N then Some dquote
  else if (n =? 92)%N then Some backslash
  else if (n =? 47)%N then Some "/"%char
  else if (n =? 98)%N then Some (ascii_of_N 8)
  else if (n =? 102)%N then Some (ascii_of_N 12)
  else if (n =? 110)%N then Some (ascii_of_N 10)
  else if (n =? 114)%N then Some (ascii_of_N 13)
  else if (n =? 116)%N then Some (ascii_of_N 9)
  else None.

Definition cons_char (c : ascii) (r : option (string * string))
  : option (string * string) :=
  match r with
  | Some (s, rest) => Some (String c s, rest)
  | None => None
  end.

(** The body of a string literal, read after its opening quote up to and
    including the closing quote: the decoded string and the remaining
    text.  Raw control characters are rejected. *)
Fixpoint parse_chars (s : string) : option (string * string) :=
  match s with
  | EmptyString => None
  | String c s1 =>
      if Ascii.eqb c dquote then Some (EmptyString, s1)
      else if Ascii.eqb c backslash then
        match s1 with
        | EmptyString => None
        | String e s2 =>
            if Ascii.eqb e "u"%char then
              match s2 with
              | String h1 (String h2 (String h3 (String h4 s3))) =>
                  match unicode_escape h1 h2 h3 h4 with
                  | Some u => cons_char u (parse_chars s3)
                  | None => None
                  end
              | _ => None
              end
            else
              match simple_escape e with
              | Some u => cons_char u (parse_chars s2)
              | None => None
              end
        end
      else if (N_of_ascii c <? 32)%N then None
      else cons_char c (parse_chars s1)
  end.

Definition digit_of_char (c : ascii) : option (uint -> uint) :=
  match c with
  | "0" => Some D0 | "1" => Some D1 | "2" => Some D2 | "3" => Some D3
  | "4" => Some D4 | "5" => Some D5 | "6" => Some D6 | "7" => Some D7
  | "8" => Some D8 | "9" => Some D9 | _ => None
  end%char.

(** The longest run of decimal digits at the head of the text. *)
Fixpoint parse_digits (s : string) : uint * string :=
  match s with
  | EmptyString => (Nil, s)
  | String c s' =>
      match digit_of_char c with
      | Some D => let (d, rest) := parse_digits s' in (D d, rest)
      | None => (Nil, s)
      end
  end.

(** A digit run that the JSON grammar accepts as an integer part: not
    empty, and no leading zero unless it is the single digit 0. *)
Definition int_part_ok (d : uint) : bool :=
  match d with
  | Nil => false
  | D0 Nil => true
  | D0 _ => false
  | _ => true
  end.

(** Whether the text goes on with a fraction or an exponent. *)
Definition starts_fraction (s : string) : bool :=
  match s with
  | String c _ =>
      Ascii.eqb c "."%char || Ascii.eqb c "e"%char || Ascii.eqb c "E"%char
  | EmptyString => false
  end.

(** An integer literal; [None] on malformed text and on a literal with a
    fraction or an exponent, which [JNum] cannot hold. *)
Definition parse_number (s : string) : option (jsval * string) :=
  let '(neg, s1) :=
    match s with
    | String c s' => if Ascii.eqb c "-"%char then (true, s') else (false, s)
    | EmptyString => (false, s)
    end in
  let (d, rest) := parse_digits s1 in
  if int_part_ok d && negb (starts_fraction rest)
  then Some (JNum (Z.of_int (if neg then Neg d else Pos d)), rest)
  else None.

(** [expect lit s]: the text after the literal [lit], if [s] starts with it. *)
Fixpoint expect (lit s : string) : option string :=
  match lit, s with
  | EmptyString, _ => Some s
  | String a lit', String b s' => if Ascii.eqb a b then expect lit' s' else None
  | String _ _, EmptyString => None
  end.

(** The elements of an array after the first one has been announced:
    [pv] reads one value, then a comma continues and a bracket ends. *)
Fixpoint parse_elems (pv : string -> option (jsval * string)) (n : nat)
    (s : string) : option (list jsval * string) :=
  match n with
  | O => None
  | S n' =>
      match pv s with
      | None => None
      | Some (v, rest) =>
          match skip_ws rest with
          | String c rest' =>
              if Ascii.eqb c ","%char then
                match parse_elems pv n' rest' with
                | Some (vs, rest'') => Some (v :: vs, rest'')
                | None => None
                end
              else if Ascii.eqb c "]"%char then Some ([v], rest')
              else None
          | EmptyString => None
          end
      end
  end.

(** The members of an object.  A repeated name keeps its first position
    and takes the later value, as property definition does. *)
Fixpoint parse_members (pv : string -> option (jsval * string)) (n : nat)
    (acc : list (string * jsval)) (s : string)
  : option (list (string * jsval) * string) :=
  match n with
  | O => None
  | S n' =>
      match skip_ws s with
      | String q s1 =>
          if Ascii.eqb q dquote then
            match parse_chars s1 with
            | None => None
            | Some (k, s2) =>
                match skip_ws s2 with
                | String c s3 =>
                    if Ascii.eqb c ":"%char then
                      match pv s3 with
                      | None => None
                      | Some (v, s4) =>
                          let acc' := assoc_set k v acc in
                          match skip_ws s4 with
                          | String c' s5 =>
                              if Ascii.eqb c' ","%char
                              then parse_members pv n' acc' s5
                              else if Ascii.eqb c' "}"%char then Some (acc', s5)
                              else None
                          | EmptyString => None
                          end
                      end
                    else None
                | EmptyString => None
                end
            end
          else None
      | EmptyString => None
      end
  end.

(** One JSON value at the head of the text, after optional whitespace.
    The fuel bounds the nesting depth and the number of elements of one
    array or object; the length of the text is always enough. *)
Fixpoint parse_value (fuel : nat) (s : string) : option (jsval * string) :=
  match fuel with
  | O => None
  | S f =>
      match skip_ws s with
      | EmptyString => None
      | String c s1 =>
          if Ascii.eqb c "n"%char then
            option_map (fun r => (JNull, r)) (expect "ull" s1)
          else if Ascii.eqb c "t"%char then
            option_map (fun r => (JBool true, r)) (expect "rue" s1)
          else if Ascii.eqb c "f"%char then
            option_map (fun r => (JBool false, r)) (expect "alse" s1)
          else if Ascii.eqb c dquote then
            option_map (fun '(t, r) => (JStr t, r)) (parse_chars s1)
          else if Ascii.eqb c "["%char then
            match skip_ws s1 with
            | String c' s2 =>
                if Ascii.eqb c' "]"%char then Some (JArr [], s2)
                else option_map (fun '(vs, r) => (JArr vs, r))
                       (parse_elems (parse_value f) f s1)
            | EmptyString => None
            end
          else if Ascii.eqb c "{"%char then
            match skip_ws s1 with
            | String c' s2 =>
                if Ascii.eqb c' "}"%char then Some (JObj [], s2)
                else option_map (fun '(ps, r) => (JObj ps, r))
                       (parse_members (parse_value f) f [] s1)
            | EmptyString => None
            end
          else parse_number (String c s1)
      end
  end.

(** [JSON.parse(text)] on text whose numbers are integer literals and
    whose escapes denote code units below 256: the value, or a
    SyntaxError.  Numbers with a fraction or an exponent and larger code
    units have no counterpart in [jsval]; on them this function answers
    with a SyntaxError as well, so a SyntaxError here says something
    about [JSON.parse] only for text without them. *)
Definition JSON_parse (text : string) : res jsval :=
  match parse_value (S (String.length text)) text with
  | Some (v, rest) =>
      match skip_ws rest with
      | EmptyString => Ok v
      | String _ _ => Throw SyntaxError
      end
  | None => Throw SyntaxError
  end.

(** *** Values that survive a round trip through JSON text *)

(** The text [JSON.stringify] writes for a value inside an array. *)
Definition jstr (v : jsval) : string := default "null"%string (stringify v).

(** The text of one object member. *)
Definition member_str (p : string * jsval) : string :=
  JSON_quote (fst p) +:+ ":" +:+ jstr (snd p).

Fixpoint nodup_keys (ks : list string) : bool :=
  match ks with
  | [] => true
  | k :: ks' => negb (existsb (String.eqb k) ks') && nodup_keys ks'
  end.

(** Values without [undefined] anywhere and without a repeated property
    name: the values [JSON.parse] can return. *)
Fixpoint json_clean (v : jsval) : bool :=
  match v with
  | JUndefined => false
  | JNull | JBool _ | JNum _ | JStr _ => true
  | JArr l => forallb json_clean l
  | JObj ps =>
      nodup_keys (map fst ps) && forallb (fun p => json_clean (snd p)) ps
  end.

(** Number of nodes of a value. *)
Fixpoint jsize (v : jsval) : nat :=
  match v with
  | JArr l => S (list_sum (map jsize l))
  | JObj ps => S (list_sum (map (fun p => jsize (snd p)) ps))
  | _ => 1%nat
  end.

(** Text that can follow a number: nothing, or a character that is
    neither a digit nor the start of a fraction or an exponent. *)
Definition delimited (s : string) : bool :=
  match s with
  | EmptyString => true
  | String c _ =>
      match digit_of_char c with
      | Some _ => false
      | None => negb (starts_fraction s)
      end
  end.

(** ** String.prototype.trim *)

(** White space and line terminators among the code units below 256. *)
Definition is_js_space (c : ascii) : bool :=
  let n := N_of_ascii c in
  (((9 <=? n) && (n <=? 13)) || (n =? 32) || (n =? 160))%N.

Fixpoint trim_start (s : string) : string :=
  match s with
  | String c s' => if is_js_space c then trim_start s' else s
  | EmptyString => s
  end.

Fixpoint trim_end (s : string) : string :=
  match s with
  | EmptyString => EmptyString
  | String c s' =>
      match trim_end s' with
      | EmptyString => if is_js_space c then EmptyString else String c EmptyString
      | r => String c r
      end
  end.

Definition trim (s : string) : string := trim_end (trim_start s).

(** [s.trim() === ""] *)
Definition blank (s : string) : bool := String.eqb (trim s) "".

(** A string made of white space only (the empty string included). *)
Fixpoint all_space (s : string) : bool :=
  match s with
  | EmptyString => true
  | String c s' => is_js_space c && all_space s'
  end.

(** ** The browser world *)

(** The closures handed to [setTimeout], one constructor per arrow
    function in the source; [run_callback] below gives their bodies. *)
Inductive callback : Type :=
  | LoginSuccessTimeout
  | LoginErrorTimeout
  | SignUpSuccessTimeout
  | SignUpErrorTimeout
  | TaskSubmittedTimeout
  | TaskFailedTimeout.

(** A request handed to the api client. *)
Inductive request : Type :=
  | POST (url : string) (body : jsval)
  | GET (url : string).

(** The api client (hooks/api) is an import of the modelled files: what a
    request resolves to, or rejects with, is a parameter of every handler. *)
Record api_client : Type := {
  api_post : string -> jsval -> res jsval;
  api_get : string -> res jsval
}.

(** AuthProvider's state: [useState(null)] and [useState('')]. *)
Record session : Type := {
  userId : jsval;
  token : jsval
}.

(** The three state variables shared by the login and the sign-up page. *)
Record form_status : Type := {
  isError : bool;
  isSuccess : bool;
  resultText : jsval
}.

(** The dashboard's [userData]. *)
Record user_data : Type := {
  username : jsval;
  memberSince : jsval;
  profileImage : jsval;
  tasks : jsval
}.

(** The dashboard's [message]. *)
Record status_message : Type := {
  text : string;
  msg_isError : bool
}.

Record dashboard : Type := {
  userData : user_data;
  isOpen : bool;
  message : status_message;
  (** an exception raised by a state updater, which React runs while
      rendering, outside the handler that queued it *)
  render_error : option jsval
}.

Record world : Type := {
  localStorage : gmap string string;
  auth : session;
  login_page : form_status;
  signup_page : form_status;
  dash : dashboard;
  timers : list (Z * callback);   (* setTimeout registrations, oldest first *)
  requests : list request;        (* requests issued, oldest first *)
  navigations : list string       (* navigate(...) calls, oldest first *)
}.

Definition with_localStorage (f : gmap string string -> gmap string string)
    (w : world) : world :=
  {| localStorage := f (localStorage w); auth := auth w;
     login_page := login_page w; signup_page := signup_page w; dash := dash w;
     timers := timers w; requests := requests w; navigations := navigations w |}.

Definition with_auth (f : session -> session) (w : world) : world :=
  {| localStorage := localStorage w; auth := f (auth w);
     login_page := login_page w; signup_page := signup_page w; dash := dash w;
     timers := timers w; requests := requests w; navigations := navigations w |}.

Definition with_login_page (f : form_status -> form_status) (w : world) : world :=
  {| localStorage := localStorage w; auth := auth w;
     login_page := f (login_page w); signup_page := signup_page w; dash := dash w;
     timers := timers w; requests := requests w; navigations := navigations w |}.

Definition with_signup_page (f : form_status -> form_status) (w : world) : world :=
  {| localStorage := localStorage w; auth := auth w;
     login_page := login_page w; signup_page := f (signup_page w); dash := dash w;
     timers := timers w; requests := requests w; navigations := navigations w |}.

Definition with_dash (f : dashboard -> dashboard) (w : world) : world :=
  {| localStorage := localStorage w; auth := auth w;
     login_page := login_page w; signup_page := signup_page w; dash := f (dash w);
     timers := timers w; requests := requests w; navigations := navigations w |}.

Definition with_timers (f : list (Z * callback) -> list (Z * callback))
    (w : world) : world :=
  {| localStorage := localStorage w; auth := auth w;
     login_page := login_page w; signup_page := signup_page w; dash := dash w;
     timers := f (timers w); requests := requests w; navigations := navigations w |}.

Definition with_requests (f : list request -> list request) (w : world) : world :=
  {| localStorage := localStorage w; auth := auth w;
     login_page := login_page w; signup_page := signup_page w; dash := dash w;
     timers := timers w; requests := f (requests w); navigations := navigations w |}.

Definition with_navigations (f : list string -> list string) (w : world) : world :=
  {| localStorage := localStorage w; auth := auth w;
     login_page := login_page w; signup_page := signup_page w; dash := dash w;
     timers := timers w; requests := requests w; navigations := f (navigations w) |}.

(** ** The handler monad: state plus exceptions *)

(** A computation runs in a world and ends with a value or a thrown
    exception; either way the effects performed so far stay. *)
Definition M (A : Type) : Type := world -> res A * world.

Definition ret {A} (a : A) : M A := fun w => (Ok a, w).

Definition bind {A B} (m : M A) (k : A -> M B) : M B :=
  fun w =>
    match m w with
    | (Ok a, w') => k a w'
    | (Throw e, w') => (Throw e, w')
    end.

(** [try { m } catch (err) { h err }] *)
Definition try_catch {A} (m : M A) (h : jsval -> M A) : M A :=
  fun w =>
    match m w with
    | (Ok a, w') => (Ok a, w')
    | (Throw e, w') => h e w'
    end.

(** Lift the evaluation of an expression. *)
Definition eval {A} (r : res A) : M A := fun w => (r, w).

(** Run an effect that cannot fail. *)
Definition effect (f : world -> world) : M unit := fun w => (Ok tt, f w).

#[global] Instance M_ret : MRet M := @ret.
#[global] Instance M_bind : MBind M := fun A B k m => bind m k.

(** *** Browser primitives *)

(** [localStorage.getItem(k)]: the stored string, or [null]. *)
Definition getItem (k : string) : M jsval :=
  fun w => (Ok (match localStorage w !! k with
                | Some s => JStr s
                | None => JNull
                end), w).

(** [localStorage.setItem(k, v)]: stores [String(v)]. *)
Definition setItem (k : string) (v : jsval) : M unit :=
  effect (with_localStorage (fun st => <[k := to_String v]> st)).

Definition removeItem (k : string) : M unit :=
  effect (with_localStorage (fun st => delete k st)).

Definition setTimeout (cb : callback) (delay : Z) : M unit :=
  effect (with_timers (fun ts => ts ++ [(delay, cb)])).

Definition navigate (path : string) : M unit :=
  effect (with_navigations (fun ns => ns ++ [path])).

(** [await api.post(url, body)] *)
Definition post (api : api_client) (url : string) (body : jsval) : M jsval :=
  fun w => (api_post api url body, with_requests (fun rs => rs ++ [POST url body]) w).

(** [await api.get(url)] *)
Definition get (api : api_client) (url : string) : M jsval :=
  fun w => (api_get api url, with_requests (fun rs => rs ++ [GET url]) w).

(** ** AuthProvider (hooks/authContext) *)

Module AuthProvider.
Section WithApi.
Variable api : api_client.

(** [useState(null)] and [useState('')] *)
Definition initial : session := {| userId := JNull; token := JStr "" |}.

Definition setUserId (v : jsval) : M unit :=
  effect (with_auth (fun s => {| userId := v; token := token s |})).

Definition setToken (v : jsval) : M unit :=
  effect (with_auth (fun s => {| userId := userId s; token := v |})).

(** The mount effect that rehydrates the session from localStorage. *)
Definition getData : M unit :=
  userId ← getItem "userId";
  token ← getItem "token";
  if truthy userId && truthy token then
    setUserId (JSON_stringify userId);;
    setToken token
  else ret tt.

Definition login (postData : jsval) : M jsval :=
  if negb (truthy postData) || is_nullish postData then
    ret (JObj [("status", JNum 404);
               ("message", JStr "ValueError: Invalid PostData Values")])
  else
    try_catch
      (response ← post api "/auth/login" postData;
       status ← eval (prop response "status");
       if strict_eq_num status 200 then
         data ← eval (prop response "data");
         userId ← eval (prop data "userId");
         token ← eval (prop data "token");
         message ← eval (prop data "message");
         setItem "userId" (JSON_stringify userId);;
         setItem "token" token;;
         setUserId userId;;
         setToken token;;
         ret (JObj [("status", status); ("message", message)])
       else
         data ← eval (prop response "data");
         message ← eval (prop data "message");
         ret (JObj [("status", status);
                    ("message", js_or message (JStr "Unknown response"))]))
      (fun err =>
         response ← eval (prop err "response");
         ret (JObj [("status", js_or (optprop response "status") (JNum 500));
                    ("message",
                      js_or (optprop (optprop response "data") "message")
                        (JStr "An error occurred during login"))])).

Definition logout : M jsval :=
  removeItem "userId";;
  removeItem "token";;
  setUserId JNull;;
  setToken (JStr "");;
  ret (JObj [("status", JNum 201);
             ("message", JStr "User Logged Out Successfully")]).

End WithApi.
End AuthProvider.

(** ** The login page (pages/auth/login) *)

Record login_data : Type := {
  login_username : string;
  login_password : string
}.

(** The [loginData] object: [handleChange] only ever rewrites these two
    properties in place. *)
Definition loginData_js (d : login_data) : jsval :=
  JObj [("username", JStr (login_username d));
        ("password", JStr (login_password d))].

Module Login.
Section WithApi.
Variable api : api_client.

Definition setResultText (v : jsval) : M unit :=
  effect (with_login_page (fun p =>
    {| isError := isError p; isSuccess := isSuccess p; resultText := v |})).

Definition setIsSuccess (b : bool) : M unit :=
  effect (with_login_page (fun p =>
    {| isError := isError p; isSuccess := b; resultText := resultText p |})).

Definition setIsError (b : bool) : M unit :=
  effect (with_login_page (fun p =>
    {| isError := b; isSuccess := isSuccess p; resultText := resultText p |})).

Definition handleErrorSuccess (message : jsval) (error : bool) : M unit :=
  if negb error then
    setResultText message;;
    setIsSuccess true;;
    setTimeout LoginSuccessTimeout 3000
  else
    setResultText message;;
    setIsError true;;
    setTimeout LoginErrorTimeout 5000.

Definition handleSubmit (loginData : login_data) : M unit :=
  if blank (login_username loginData) || blank (login_password loginData) then
    handleErrorSuccess (JStr "All Inputs Are Required!") true
  else
    try_catch
      (response ← AuthProvider.login api (loginData_js loginData);
       status ← eval (prop response "status");
       if strict_eq_num status 200 then
         data ← eval (prop response "data");
         message ← eval (prop data "message");
         handleErrorSuccess message false
       else if strict_eq_num status 500 then
         message ← eval (prop response "message");
         handleErrorSuccess message true
       else
         data ← eval (prop response "data");
         message ← eval (prop data "message");
         handleErrorSuccess message true)
      (fun err =>
         response ← eval (prop err "response");
         handleErrorSuccess
           (js_or (optprop (optprop response "data") "message")
              (JStr "An error occurred during signup"))
           true).

(** The closure run 3000 ms after a success. *)
Definition successTimeout : M unit :=
  setIsSuccess false;;
  setResultText (JStr "");;
  navigate "/".

(** The closure run 5000 ms after an error. *)
Definition errorTimeout : M unit :=
  setIsError false;;
  setResultText (JStr "").

End WithApi.
End Login.

(** ** The sign-up page (pages/auth/signUp) *)

Record signup_data : Type := {
  su_username : string;
  su_email : string;
  su_firstName : string;
  su_lastName : string;
  su_password : string;
  su_role : string;
  su_phoneNumber : string
}.

Definition newData_js (d : signup_data) : jsval :=
  JObj [("username", JStr (su_username d));
        ("email", JStr (su_email d));
        ("firstName", JStr (su_firstName d));
        ("lastName", JStr (su_lastName d));
        ("password", JStr (su_password d));
        ("role", JStr (su_role d));
        ("phoneNumber", JStr (su_phoneNumber d))].

Module SignUp.
Section WithApi.
Variable api : api_client.

Definition setResultText (v : jsval) : M unit :=
  effect (with_signup_page (fun p =>
    {| isError := isError p; isSuccess := isSuccess p; resultText := v |})).

Definition setIsSuccess (b : bool) : M unit :=
  effect (with_signup_page (fun p =>
    {| isError := isError p; isSuccess := b; resultText := resultText p |})).

Definition setIsError (b : bool) : M unit :=
  effect (with_signup_page (fun p =>
    {| isError := b; isSuccess := isSuccess p; resultText := resultText p |})).

Definition handleErrorSuccess (message : jsval) (error : bool) : M unit :=
  if negb error then
    setResultText message;;
    setIsSuccess true;;
    setTimeout SignUpSuccessTimeout 3000
  else
    setResultText message;;
    setIsError true;;
    setTimeout SignUpErrorTimeout 5000.

Definition handleSubmit (newData : signup_data) (confirmPassword : string)
  : M unit :=
  if blank (su_username newData) || blank (su_email newData)
     || blank (su_password newData) || blank confirmPassword then
    handleErrorSuccess (JStr "All Inputs Are Required!") true
  else if negb (String.eqb (su_password newData) confirmPassword) then
    handleErrorSuccess (JStr "Passwords Do Not Match!") true
  else
    try_catch
      (response ← post api "/auth/sign-up" (newData_js newData);
       status ← eval (prop response "status");
       if strict_eq_num status 200 then
         data ← eval (prop response "data");
         message ← eval (prop data "message");
         handleErrorSuccess message false
       else if strict_eq_num status 500 then
         message ← eval (prop response "message");
         handleErrorSuccess message true
       else
         data ← eval (prop response "data");
         message ← eval (prop data "message");
         handleErrorSuccess message true)
      (fun err =>
         response ← eval (prop err "response");
         handleErrorSuccess
           (js_or (optprop (optprop response "data") "message")
              (JStr "An error occurred during signup"))
           true).

Definition successTimeout : M unit :=
  setIsSuccess false;;
  setResultText (JStr "");;
  navigate "/auth/login".

Definition errorTimeout : M unit :=
  setIsError false;;
  setResultText (JStr "").

End WithApi.
End SignUp.

(** ** The dashboard (pages/dashboard) *)

(** The draft held by the NewTask form: its four inputs. *)
Record task_draft : Type := {
  title : string;
  description : string;
  dueDate : string;
  priority : string
}.

(** The [taskData] object the form submits. *)
Definition taskData_js (d : task_draft) : jsval :=
  JObj [("title", JStr (title d));
        ("description", JStr (description d));
        ("dueDate", JStr (dueDate d));
        ("priority", JStr (priority d))].

(** [[...v]]: the elements of an array, the characters of a string, a
    TypeError on anything else. *)
Definition array_spread (v : jsval) : res (list jsval) :=
  match v with
  | JArr l => Ok l
  | JStr s => Ok (map (fun c => JStr (String c EmptyString)) (list_ascii_of_string s))
  | _ => Throw TypeError
  end.

Arguments array_spread !v : simpl nomatch.

Module Dashboard.

Definition TEMP_TASKS_KEY : string := "temp_unsaved_tasks".

(** The imported image asset shown as the default profile icon. *)
Definition AppIcon : jsval := JStr "../assets/original_no_bg.png".

(** The initial [useState] values. *)
Definition initial : dashboard :=
  {| userData := {| username := JStr ""; memberSince := JStr "";
                    profileImage := JNull; tasks := JArr [] |};
     isOpen := false;
     message := {| text := ""; msg_isError := false |};
     render_error := None |}.

Definition setIsOpen (b : bool) : M unit :=
  effect (with_dash (fun d =>
    {| userData := userData d; isOpen := b; message := message d;
       render_error := render_error d |})).

Definition closeModal : M unit := setIsOpen false.

Definition setMessage (m : status_message) : M unit :=
  effect (with_dash (fun d =>
    {| userData := userData d; isOpen := isOpen d; message := m;
       render_error := render_error d |})).

(** [setUserData(prev => ...)]: the updater runs when React renders, not
    inside the handler; an exception it raises is the renderer's. *)
Definition setUserData (updater : user_data -> res user_data) : M unit :=
  effect (with_dash (fun d =>
    match updater (userData d) with
    | Ok u =>
        {| userData := u; isOpen := isOpen d; message := message d;
           render_error := render_error d |}
    | Throw e =>
        {| userData := userData d; isOpen := isOpen d; message := message d;
           render_error := Some e |}
    end)).

(** [{ ...prev, tasks: t }] *)
Definition with_tasks (prev : user_data) (t : jsval) : user_data :=
  {| username := username prev; memberSince := memberSince prev;
     profileImage := profileImage prev; tasks := t |}.

(** The profile shown when there is no session or the fetch failed. *)
Definition placeholder (prev : user_data) : user_data :=
  {| username := JStr "Unknown User"; memberSince := JStr "9999";
     profileImage := AppIcon; tasks := JArr [] |}.

Section WithApi.
Variable api : api_client.

(** [now] is the reading [Date.now()] returns during this call. *)
Definition handleTaskSubmit (now : Z) (taskData : jsval) : M unit :=
  if negb (truthy taskData) then closeModal
  else
    userId ← (fun w => (Ok (userId (auth w)), w));
    try_catch
      ((if truthy userId then
          response ← post api "/tasks"
                       (JObj (assoc_set "userId" userId (obj_spread taskData)));
          status ← eval (prop response "status");
          if strict_eq_num status 201 then
            setMessage {| text := "Task created successfully!";
                          msg_isError := false |};;
            setUserData (fun prev =>
              match array_spread (tasks prev) with
              | Throw e => Throw e
              | Ok old =>
                  match prop response "data" with
                  | Throw e => Throw e
                  | Ok data =>
                      match prop data "task" with
                      | Throw e => Throw e
                      | Ok task => Ok (with_tasks prev (JArr (old ++ [task])))
                      end
                  end
              end)
          else ret tt
        else
          let newTask := JObj (assoc_set "id" (JNum now) (obj_spread taskData)) in
          stored ← getItem TEMP_TASKS_KEY;
          parsed ← eval (JSON_parse (to_String stored));
          existingTasks ← eval (array_spread (js_or parsed (JArr [])));
          let updatedTasks := JArr (existingTasks ++ [newTask]) in
          setItem TEMP_TASKS_KEY (JSON_stringify updatedTasks);;
          setMessage {| text := "Task saved temporarily!";
                        msg_isError := false |};;
          setUserData (fun prev => Ok (with_tasks prev updatedTasks)));;
       setTimeout TaskSubmittedTimeout 3000)
      (fun err =>
         setMessage
           {| text := if truthy userId
                      then "Failed to create task. Please try again."
                      else "Failed to save task locally";
              msg_isError := true |};;
         setTimeout TaskFailedTimeout 3000).

(** The closure run 3000 ms after a submission went through. *)
Definition submittedTimeout : M unit :=
  closeModal;;
  setMessage {| text := ""; msg_isError := false |}.

(** The closure run 3000 ms after a submission failed. *)
Definition failedTimeout : M unit :=
  setMessage {| text := ""; msg_isError := false |}.

(** The [beforeunload] listener. *)
Definition clearTasksOnUnload : M unit :=
  removeItem TEMP_TASKS_KEY.

(** The effect run on mount and whenever [userId] changes. *)
Definition loadData : M unit :=
  userId ← (fun w => (Ok (userId (auth w)), w));
  if truthy userId then
    try_catch
      (response ← get api ("/users/me/" +:+ to_String userId);
       status ← eval (prop response "status");
       if strict_eq_num status 200 then
         data ← eval (prop response "data");
         user ← eval (prop data "user");
         username ← eval (prop user "username");
         memberSince ← eval (prop user "memberSince");
         profileIcon ← eval (prop user "profileIcon");
         savedTasks ← eval (prop user "savedTasks");
         setUserData (fun _ =>
           Ok {| username := username; memberSince := memberSince;
                 profileImage := profileIcon;
                 tasks := js_or savedTasks (JArr []) |})
       else ret tt)
      (fun err => setUserData (fun prev => Ok (placeholder prev)))
  else
    setUserData (fun prev => Ok (placeholder prev)).

End WithApi.
End Dashboard.

(** ** Timers *)

(** The body of each closure handed to [setTimeout]. *)
Definition run_callback (cb : callback) : M unit :=
  match cb with
  | LoginSuccessTimeout => Login.successTimeout
  | LoginErrorTimeout => Login.errorTimeout
  | SignUpSuccessTimeout => SignUp.successTimeout
  | SignUpErrorTimeout => SignUp.errorTimeout
  | TaskSubmittedTimeout => Dashboard.submittedTimeout
  | TaskFailedTimeout => Dashboard.failedTimeout
  end.

(** A freshly loaded page: empty component state, nothing pending. *)
Definition fresh_world (storage : gmap string string) : world :=
  {| localStorage := storage;
     auth := AuthProvider.initial;
     login_page := {| isError := false; isSuccess := false;
                      resultText := JStr "" |};
     signup_page := {| isError := false; isSuccess := false;
                       resultText := JStr "" |};
     dash := Dashboard.initial;
     timers := [];
     requests := [];
     navigations := [] |}.


(** ** The ephemeral task store *)

(** Reading the persisted list back, the way [handleTaskSubmit] does:
    [JSON.parse(localStorage.getItem(TEMP_TASKS_KEY)) || []]. *)
Definition persisted_tasks (st : gmap string string) : res jsval :=
  match JSON_parse (to_String (match st !! Dashboard.TEMP_TASKS_KEY with
                               | Some s => JStr s
                               | None => JNull
                               end)) with
  | Ok v => Ok (js_or v (JArr []))
  | Throw e => Throw e
  end.

(** The draft with the identifier [id] added: [{ ...taskData, id }]. *)
Definition ephemeral_task (id : Z) (d : task_draft) : jsval :=
  JObj [("title", JStr (title d));
        ("description", JStr (description d));
        ("dueDate", JStr (dueDate d));
        ("priority", JStr (priority d));
        ("id", JNum id)].

(** A run of submissions, each with the clock reading it sees. *)
Definition submit_all (api : api_client) (subs : list (Z * task_draft))
    (w : world) : world :=
  fold_left
    (fun w0 sub =>
       snd (Dashboard.handleTaskSubmit api (fst sub) (taskData_js (snd sub)) w0))
    subs w.

(** ** The session invariant *)

(** Presence is what the program itself tests: [if (userId)],
    [userId && token]. *)
Definition session_inv (s : session) : Prop :=
  truthy (userId s) = truthy (token s).

(** Whether [localStorage.getItem(k)] is truthy: the key is set, to a
    string that is not empty. *)
Definition stored_present (st : gmap string string) (k : string) : bool :=
  match st !! k with
  | Some s => negb (String.eqb s "")
  | None => false
  end.

Definition store_inv (st : gmap string string) : Prop :=
  stored_present st "userId" = stored_present st "token".

(** A login response body that carries a user id that is present and a
    token that is a non-empty string. *)
Definition well_formed_payload (data : jsval) : bool :=
  match prop data "userId", prop data "token" with
  | Ok u, Ok (JStr tk) => truthy u && negb (String.eqb tk "")
  | _, _ => false
  end.

(** ** Sample inputs *)

(** A response object as the api client resolves it. *)
Definition response_of (status : Z) (data : jsval) : jsval :=
  JObj [("status", JNum status); ("data", data)].

(** The body of a successful login response. *)
Definition login_payload (userId token message : jsval) : jsval :=
  JObj [("userId", userId); ("token", token); ("message", message)].

(** The rejection of a request that never reached the server. *)
Definition network_error : jsval :=
  JObj [("message", JStr "Network Error")].

(** A client whose every request has the same outcome. *)
Definition api_always (outcome : res jsval) : api_client :=
  {| api_post := fun _ _ => outcome; api_get := fun _ => outcome |}.

Definition alice : login_data :=
  {| login_username := "alice"; login_password := "pw" |}.

Definition bob : signup_data :=
  {| su_username := "bob"; su_email := "bob@example.org"; su_firstName := "";
     su_lastName := ""; su_password := "pw"; su_role := "user";
     su_phoneNumber := "" |}.

Definition buy_milk : task_draft :=
  {| title := "Buy milk"; description := ""; dueDate := "";
     priority := "medium" |}.

Definition buy_eggs : task_draft :=
  {| title := "Buy eggs"; description := "a dozen"; dueDate := "2024-01-01";
     priority := "low" |}.

(** A server that answers every request with status 200, a user id and
    an empty token. *)
Definition empty_token_api : api_client :=
  api_always (Ok (response_of 200
    (login_payload (JStr "u1") (JStr "") (JStr "Login successful")))).

(** A world in which the user [u1] is logged in. *)
Definition logged_in_world : world :=
  with_auth (fun _ => {| userId := JStr "u1"; token := JStr "t0k" |})
    (fresh_world (<["userId" := JSON_quote "u1"]> (<["token" := "t0k"]> ∅))).

(** ** The api client (hooks/api) *)

Module Api.

(** What the request interceptor sees of a request: its target and its
    headers object. *)
Record request_config : Type := {
  url : string;
  headers : list (string * jsval)
}.

(** The function registered with [api.interceptors.request.use]: it adds
    the bearer token found in localStorage, if any, to the headers. *)
Definition requestInterceptor (config : request_config) : M request_config :=
  token ← getItem "token";
  if truthy token then
    mret {| url := url config;
            headers := assoc_set "Authorization"
                         (JStr ("Bearer " +:+ to_String token))
                         (headers config) |}
  else mret config.

End Api.

(** ** Form state *)

(** [{ ...state, [name]: value }], the update every [handleChange]
    performs with the name and the value of the input that changed. *)
Definition with_field (state : jsval) (name value : string) : jsval :=
  JObj (assoc_set name (JStr value) (obj_spread state)).

(** A change event: the name of the input and its new value. *)
Definition change_event : Type := (string * string)%type.

Module LoginForm.

(** [useState({ username: '', password: '' })] *)
Definition initial : jsval :=
  JObj [("username", JStr ""); ("password", JStr "")].

Definition handleChange (loginData : jsval) (e : change_event) : jsval :=
  with_field loginData (fst e) (snd e).

End LoginForm.

Module SignUpForm.

(** The [useState] values of [newData] and [confirmPassword]. *)
Definition initial : jsval * string :=
  (JObj [("username", JStr ""); ("email", JStr ""); ("firstName", JStr "");
         ("lastName", JStr ""); ("password", JStr ""); ("role", JStr "user");
         ("phoneNumber", JStr "")],
   ""%string).

(** The confirmation input updates [confirmPassword]; every other input
    updates [newData]. *)
Definition handleChange (state : jsval * string) (e : change_event)
  : jsval * string :=
  if String.eqb (fst e) "confPassword" then (fst state, snd e)
  else (with_field (fst state) (fst e) (snd e), snd state).

End SignUpForm.

(** ** The NewTask component (components/newTask) *)

Module NewTask.

(** [useState({ title: '', description: '', dueDate: '', priority: 'medium' })] *)
Definition initial : jsval :=
  JObj [("title", JStr ""); ("description", JStr ""); ("dueDate", JStr "");
        ("priority", JStr "medium")].

Definition handleChange (prev : jsval) (e : change_event) : jsval :=
  with_field prev (fst e) (snd e).

(** The form's submit handler hands the draft to the [onSubmit] prop. *)
Definition handleSubmit (onSubmit : jsval -> M unit) (taskData : jsval)
  : M unit :=
  onSubmit taskData.

(** The Cancel button: [onSubmit(null)]. *)
Definition cancel (onSubmit : jsval -> M unit) : M unit :=
  onSubmit JNull.

End NewTask.

(** The value last given to the input [name] in a run of change events,
    [dflt] if the run has none for it. *)
Definition last_value (name : string) (events : list change_event)
    (dflt : string) : string :=
  fold_left (fun acc e => if String.eqb (fst e) name then snd e else acc)
    events dflt.

(** Whether a JSON value can begin with the character: a brace, a
    bracket, a quote, a minus sign, a digit, or the first letter of
    [null], [true] or [false]. *)
Definition starts_json_value (c : ascii) : bool :=
  Ascii.eqb c "n" || Ascii.eqb c "t" || Ascii.eqb c "f" || Ascii.eqb c dquote
  || Ascii.eqb c "[" || Ascii.eqb c "{" || Ascii.eqb c "-"
  || match digit_of_char c with Some _ => true | None => false end.

(** Text in which [JSON.parse] finds no value to begin with: it is empty
    or white space only, or its first character after the white space
    begins no JSON value. *)
Definition no_json_value (text : string) : bool :=
  match skip_ws text with
  | EmptyString => true
  | String c _ => negb (starts_json_value c)
  end.

(** Reloading the page: component state starts afresh, localStorage
    stays, and the mount effect of AuthProvider runs. *)
Definition reload (w : world) : world :=
  snd (AuthProvider.getData (fresh_world (localStorage w))).

(** A server that accepts every login with the given user id and token. *)
Definition accepting_api (userId token : jsval) : api_client :=
  api_always (Ok (response_of 200
    (login_payload userId token (JStr "Login successful")))).

(** A request about to be sent. *)
Definition tasks_request : Api.request_config :=
  {| Api.url := "/tasks"; Api.headers := [("Accept", JStr "application/json")] |}.


(** ** The routes (App) *)

Module App.

Inductive page : Type := DashboardPage | SignUpPage | LoginPage.

(** A [<Route>]: its path, its element if it has one, and its child
    routes. *)
#[warnings="-register-all"]
Inductive route : Type :=
  Route (path : string) (element : option page) (children : list route).

Definition routes : list route :=
  [Route "/" (Some DashboardPage) [];
   Route "/auth" None
     [Route "sign-up" (Some SignUpPage) [];
      Route "login" (Some LoginPage) []]].

(** The full path of a route: its parent's, a slash, and its own. *)
Definition join_path (parent path : string) : string :=
  if String.eqb parent "" then path else parent +:+ "/" +:+ path.

(** The routes that render an element, with their full paths. *)
Fixpoint branches (parent : string) (r : route) : list (string * page) :=
  match r with
  | Route path element children =>
      match element with
      | Some p => [(join_path parent path, p)]
      | None => []
      end
      ++ flat_map (branches (join_path parent path)) children
  end.

(** The page rendered at a location that is the full path of a route. *)
Definition page_at (location : string) : option page :=
  match find (fun b => String.eqb (fst b) location)
          (flat_map (branches "") routes) with
  | Some b => Some (snd b)
  | None => None
  end.

End App.

(** ** The header (components/header) *)

Module Header.

(** What [guard && (element)] hands to React: the element when the guard
    is truthy, the guard's own value otherwise. *)
Inductive block (A : Type) : Type :=
  | Element (a : A)
  | Guard (v : jsval).
Arguments Element {A} a.
Arguments Guard {A} v.

(** The picture, the block for visitors with the targets of its two
    links, and the block for users with its two lines. *)
Record view : Type := {
  img_src : jsval;
  guest : block (list string);
  identity : block (jsval * jsval)
}.

Definition Header (userId : jsval) (userData : user_data) : view :=
  {| img_src := profileImage userData;
     guest := if negb (truthy userId)
              then Element ["/auth/sign-up"; "/auth/login"]%string
              else Guard (JBool false);
     identity := if truthy userId
                 then Element (username userData, memberSince userData)
                 else Guard userId |}.

End Header.

(** The header as the dashboard renders it:
    [<Header userId={userId} userData={userData} />]. *)
Definition dashboard_header (w : world) : Header.view :=
  Header.Header (userId (auth w)) (userData (dash w)).
(** * Properties *)

(** Evaluate handlers: unfold them, the monad and the world updates, then
    compute the record accesses and the operators on JavaScript values
    wherever their arguments are known.  The storage map and the api
    client are left alone. *)
Ltac js_unfold :=
  cbv beta iota zeta delta
    [AuthProvider.getData AuthProvider.login AuthProvider.logout
     AuthProvider.setUserId AuthProvider.setToken AuthProvider.initial
     Login.handleSubmit Login.handleErrorSuccess Login.setResultText
     Login.setIsSuccess Login.setIsError Login.successTimeout
     Login.errorTimeout
     SignUp.handleSubmit SignUp.handleErrorSuccess SignUp.setResultText
     SignUp.setIsSuccess SignUp.setIsError SignUp.successTimeout
     SignUp.errorTimeout
     Dashboard.handleTaskSubmit Dashboard.loadData Dashboard.closeModal
     Dashboard.setIsOpen Dashboard.setMessage Dashboard.setUserData
     Dashboard.with_tasks Dashboard.placeholder Dashboard.submittedTimeout
     Dashboard.failedTimeout Dashboard.clearTasksOnUnload Dashboard.initial
     run_callback fresh_world logged_in_world
     mbind mret M_bind M_ret bind ret try_catch eval effect
     post get getItem setItem removeItem setTimeout navigate
     with_localStorage with_auth with_login_page with_signup_page with_dash
     with_timers with_requests with_navigations
     taskData_js loginData_js newData_js response_of login_payload
     api_always network_error TypeError SyntaxError].

Ltac js_compute :=
  cbn [localStorage auth login_page signup_page dash timers requests navigations
       userId token isError isSuccess resultText
       username memberSince profileImage tasks text msg_isError
       userData isOpen message render_error api_post api_get
       truthy js_or is_nullish strict_eq_num prop optprop obj_spread
       array_spread assoc assoc_set default from_option id
       String.eqb Ascii.eqb Bool.eqb negb orb andb fst snd Z.eqb Pos.eqb].

Ltac js_eval := repeat (progress (js_unfold; js_compute)).

Tactic Notation "js_eval" "in" hyp(H) := revert H; js_eval; intros H.

(** Case analysis on whatever a [match] or [if] in the goal inspects. *)
Ltac split_scrutinee :=
  match goal with
  | |- context [match ?x with _ => _ end] =>
      lazymatch x with
      | context [match _ with _ => _ end] => fail
      | _ => destruct x eqn:?
      end
  end.

(** ** Property reads *)

(** A property read fails only on [undefined] and [null], with a TypeError. *)
Lemma prop_throw v k e :
  prop v k = Throw e -> e = TypeError /\ is_nullish v = true.
Proof. destruct v; simpl; intros H; inversion H; split; reflexivity. Qed.

Lemma prop_nullish v k : is_nullish v = true -> prop v k = Throw TypeError.
Proof. destruct v; simpl; intros H; try discriminate; reflexivity. Qed.

(** Turn each failed property read in the context into the TypeError it is. *)
Ltac type_errors :=
  repeat match goal with
    | H : prop _ _ = Throw ?e |- _ =>
        let Hn := fresh "Hnullish" in
        apply prop_throw in H; destruct H as [-> Hn]
    end.

(** ** Blank fields *)

Lemma trim_end_nonspace c s :
  is_js_space c = false -> trim_end (String c s) <> EmptyString.
Proof.
  intros Hc. simpl. destruct (trim_end s); rewrite ?Hc; discriminate.
Qed.

Lemma trim_start_all_space s :
  all_space s = true -> trim_start s = EmptyString.
Proof.
  induction s as [|c s IH]; simpl; [reflexivity|].
  destruct (is_js_space c); simpl; [assumption | discriminate].
Qed.

Lemma trim_start_not_all_space s :
  all_space s = false ->
  exists c r, trim_start s = String c r /\ is_js_space c = false.
Proof.
  induction s as [|c s IH]; simpl; [discriminate|].
  destruct (is_js_space c) eqn:Hc; simpl.
  - assumption.
  - intros _. exists c, s. split; [reflexivity | assumption].
Qed.

(** The page's test [s.trim() === ""] holds exactly of the strings that
    contain nothing but white space. *)
Lemma blank_all_space s : blank s = all_space s.
Proof.
  unfold blank, trim. destruct (all_space s) eqn:Hs.
  - rewrite (trim_start_all_space s Hs). reflexivity.
  - destruct (trim_start_not_all_space s Hs) as (c & r & -> & Hc).
    apply String.eqb_neq. apply trim_end_nonspace. assumption.
Qed.

(** ** Local validation (C7) *)

(** C7. A login submission in which the username or the password is empty
    or white space only, and a sign-up submission in which the username,
    the email, the password or the confirmation is, issues no request and
    shows the error [All Inputs Are Required!]; a sign-up submission with
    all four filled in but a confirmation different from the password
    issues no request either and shows [Passwords Do Not Match!].  In
    every case the stored session is untouched and the message is an
    error, scheduled to be cleared after 5000 ms. *)
Theorem validation_failure_issues_no_request (api : api_client) (w : world) :
  (forall d : login_data,
      all_space (login_username d) = true \/ all_space (login_password d) = true ->
      let w' := snd (Login.handleSubmit api d w) in
      requests w' = requests w /\
      localStorage w' = localStorage w /\ auth w' = auth w /\
      resultText (login_page w') = JStr "All Inputs Are Required!" /\
      isError (login_page w') = true /\
      timers w' = timers w ++ [(5000, LoginErrorTimeout)]) /\
  (forall (d : signup_data) (confirmPassword : string),
      all_space (su_username d) = true \/ all_space (su_email d) = true \/
      all_space (su_password d) = true \/ all_space confirmPassword = true ->
      let w' := snd (SignUp.handleSubmit api d confirmPassword w) in
      requests w' = requests w /\
      resultText (signup_page w') = JStr "All Inputs Are Required!" /\
      isError (signup_page w') = true /\
      timers w' = timers w ++ [(5000, SignUpErrorTimeout)]) /\
  (forall (d : signup_data) (confirmPassword : string),
      all_space (su_username d) = false -> all_space (su_email d) = false ->
      all_space (su_password d) = false -> all_space confirmPassword = false ->
      su_password d <> confirmPassword ->
      let w' := snd (SignUp.handleSubmit api d confirmPassword w) in
      requests w' = requests w /\
      resultText (signup_page w') = JStr "Passwords Do Not Match!" /\
      isError (signup_page w') = true /\
      timers w' = timers w ++ [(5000, SignUpErrorTimeout)]).
Proof.
  split; [|split].
  - intros d H w'. subst w'. unfold Login.handleSubmit.
    rewrite !blank_all_space.
    assert (all_space (login_username d) || all_space (login_password d) = true)
      as -> by (destruct H as [-> | ->]; [reflexivity | apply orb_true_r]).
    repeat split.
  - intros d c H w'. subst w'. unfold SignUp.handleSubmit.
    rewrite !blank_all_space.
    assert (all_space (su_username d) || all_space (su_email d)
            || all_space (su_password d) || all_space c = true) as ->.
    { destruct H as [-> | [-> | [-> | ->]]];
        rewrite ?orb_true_r; reflexivity. }
    repeat split.
  - intros d c H1 H2 H3 H4 Hne w'. subst w'. unfold SignUp.handleSubmit.
    rewrite !blank_all_space, H1, H2, H3, H4. simpl.
    apply String.eqb_neq in Hne. rewrite Hne. simpl.
    repeat split.
Qed.

Lemma validation_failure_issues_no_request_witness :
  requests (snd (Login.handleSubmit (api_always (Throw network_error))
               {| login_username := "alice"; login_password := "   " |}
               (fresh_world ∅))) = []
  /\ resultText (signup_page (snd (SignUp.handleSubmit
               (api_always (Throw network_error)) bob "  " (fresh_world ∅))))
     = JStr "All Inputs Are Required!"
  /\ resultText (signup_page (snd (SignUp.handleSubmit
               (api_always (Throw network_error)) bob "pq" (fresh_world ∅))))
     = JStr "Passwords Do Not Match!".
Proof.
  destruct (validation_failure_issues_no_request
              (api_always (Throw network_error)) (fresh_world ∅))
    as (HL & HS & HM).
  split; [|split].
  - apply (HL {| login_username := "alice"; login_password := "   " |}).
    right. reflexivity.
  - apply (HS bob "  "%string). right. right. right. reflexivity.
  - apply (HM bob "pq"%string); try reflexivity. discriminate.
Defined.

(** ** Message timers (C9) *)

(** C9. Submitting a draft on the dashboard registers exactly one timer,
    of 3000 ms, whether the submission went through or was caught as a
    failure, and either timer resets the message.  On the login and
    sign-up pages a success shows its message and registers a 3000 ms
    timer, an error shows its message and registers a 5000 ms one; when
    the timer fires, the closure it runs clears that message: the text is
    empty again and the success flag, or the error flag, is off. *)
Theorem message_clear_delays (api : api_client) (w : world) :
  (forall (now : Z) (d : task_draft),
      exists cb,
        timers (snd (Dashboard.handleTaskSubmit api now (taskData_js d) w))
        = timers w ++ [(3000, cb)]
        /\ (cb = TaskSubmittedTimeout \/ cb = TaskFailedTimeout)) /\
  (forall (now : Z) (d : task_draft) (e : jsval),
      truthy (userId (auth w)) = true ->
      api_post api "/tasks"
        (JObj (assoc_set "userId" (userId (auth w)) (obj_spread (taskData_js d))))
      = Throw e ->
      timers (snd (Dashboard.handleTaskSubmit api now (taskData_js d) w))
      = timers w ++ [(3000, TaskFailedTimeout)]) /\
  message (dash (snd (run_callback TaskSubmittedTimeout w)))
  = {| text := ""; msg_isError := false |} /\
  message (dash (snd (run_callback TaskFailedTimeout w)))
  = {| text := ""; msg_isError := false |} /\
  (forall m : jsval,
      timers (snd (Login.handleErrorSuccess m false w))
      = timers w ++ [(3000, LoginSuccessTimeout)] /\
      timers (snd (Login.handleErrorSuccess m true w))
      = timers w ++ [(5000, LoginErrorTimeout)] /\
      timers (snd (SignUp.handleErrorSuccess m false w))
      = timers w ++ [(3000, SignUpSuccessTimeout)] /\
      timers (snd (SignUp.handleErrorSuccess m true w))
      = timers w ++ [(5000, SignUpErrorTimeout)]) /\
  (forall m : jsval,
      login_page (snd (Login.handleErrorSuccess m false w))
      = {| isError := isError (login_page w); isSuccess := true;
           resultText := m |} /\
      login_page (snd (run_callback LoginSuccessTimeout
                         (snd (Login.handleErrorSuccess m false w))))
      = {| isError := isError (login_page w); isSuccess := false;
           resultText := JStr "" |} /\
      login_page (snd (Login.handleErrorSuccess m true w))
      = {| isError := true; isSuccess := isSuccess (login_page w);
           resultText := m |} /\
      login_page (snd (run_callback LoginErrorTimeout
                         (snd (Login.handleErrorSuccess m true w))))
      = {| isError := false; isSuccess := isSuccess (login_page w);
           resultText := JStr "" |} /\
      signup_page (snd (SignUp.handleErrorSuccess m false w))
      = {| isError := isError (signup_page w); isSuccess := true;
           resultText := m |} /\
      signup_page (snd (run_callback SignUpSuccessTimeout
                          (snd (SignUp.handleErrorSuccess m false w))))
      = {| isError := isError (signup_page w); isSuccess := false;
           resultText := JStr "" |} /\
      signup_page (snd (SignUp.handleErrorSuccess m true w))
      = {| isError := true; isSuccess := isSuccess (signup_page w);
           resultText := m |} /\
      signup_page (snd (run_callback SignUpErrorTimeout
                          (snd (SignUp.handleErrorSuccess m true w))))
      = {| isError := false; isSuccess := isSuccess (signup_page w);
           resultText := JStr "" |}) /\
  resultText (login_page (snd (run_callback LoginSuccessTimeout w))) = JStr "" /\
  isSuccess (login_page (snd (run_callback LoginSuccessTimeout w))) = false /\
  resultText (login_page (snd (run_callback LoginErrorTimeout w))) = JStr "" /\
  isError (login_page (snd (run_callback LoginErrorTimeout w))) = false /\
  resultText (signup_page (snd (run_callback SignUpSuccessTimeout w)))
  = JStr "" /\
  isSuccess (signup_page (snd (run_callback SignUpSuccessTimeout w))) = false /\
  resultText (signup_page (snd (run_callback SignUpErrorTimeout w))) = JStr "" /\
  isError (signup_page (snd (run_callback SignUpErrorTimeout w))) = false.
Proof.
  split; [|split; [|repeat split]].
  - intros now d. js_eval.
    repeat (split_scrutinee; simplify_eq; js_eval); eauto.
  - intros now d e Hu He. js_eval in He. js_eval. rewrite Hu. js_eval.
    rewrite He. reflexivity.
Qed.

Lemma message_clear_delays_witness :
  timers (snd (Dashboard.handleTaskSubmit (api_always (Throw network_error))
                 1000 (taskData_js buy_milk) logged_in_world))
  = [(3000, TaskFailedTimeout)].
Proof.
  destruct (message_clear_delays (api_always (Throw network_error))
              logged_in_world) as (_ & H & _).
  apply (H 1000 buy_milk network_error); reflexivity.
Defined.

(** ** The profile loader (C8) *)

(** C8. When a session exists and the profile request is rejected, the
    profile shown afterwards is the placeholder (Unknown User, 9999, the
    default icon, no tasks) whatever was shown before; when no session
    exists the same placeholder is set and no request is issued. *)
Theorem profile_placeholder (api : api_client) (w : world) :
  (forall e : jsval,
      truthy (userId (auth w)) = true ->
      api_get api ("/users/me/" +:+ to_String (userId (auth w))) = Throw e ->
      userData (dash (snd (Dashboard.loadData api w)))
      = {| username := JStr "Unknown User"; memberSince := JStr "9999";
           profileImage := Dashboard.AppIcon; tasks := JArr [] |}) /\
  (truthy (userId (auth w)) = false ->
      userData (dash (snd (Dashboard.loadData api w)))
      = {| username := JStr "Unknown User"; memberSince := JStr "9999";
           profileImage := Dashboard.AppIcon; tasks := JArr [] |}
      /\ requests (snd (Dashboard.loadData api w)) = requests w).
Proof.
  split.
  - intros e Hu He. js_eval. rewrite Hu. js_eval. rewrite He. reflexivity.
  - intros Hu. js_eval. rewrite Hu. js_eval. split; reflexivity.
Qed.

Lemma profile_placeholder_witness :
  userData (dash (snd (Dashboard.loadData (api_always (Throw network_error))
                         logged_in_world)))
  = {| username := JStr "Unknown User"; memberSince := JStr "9999";
       profileImage := Dashboard.AppIcon; tasks := JArr [] |}
  /\ requests (snd (Dashboard.loadData (api_always (Throw network_error))
                      (fresh_world ∅))) = [].
Proof.
  split.
  - apply (proj1 (profile_placeholder (api_always (Throw network_error))
                    logged_in_world) network_error); reflexivity.
  - apply (proj2 (profile_placeholder (api_always (Throw network_error))
                    (fresh_world ∅))). reflexivity.
Defined.

(** A failed fetch above is a rejected request, which is how the api
    client reports transport errors and error statuses.  A request that
    resolves, but with a status other than 200, leaves the profile as it
    was. *)
Lemma profile_other_status_untouched (api : api_client) (w : world)
    (response status : jsval) :
  truthy (userId (auth w)) = true ->
  api_get api ("/users/me/" +:+ to_String (userId (auth w))) = Ok response ->
  prop response "status" = Ok status ->
  strict_eq_num status 200 = false ->
  dash (snd (Dashboard.loadData api w)) = dash w.
Proof.
  intros Hu Hr Hs Hne. js_eval. rewrite Hu. js_eval. rewrite Hr. js_eval.
  rewrite Hs. js_eval. rewrite Hne. reflexivity.
Qed.

(** ** Failed logins (C6) *)

(** Without credentials [login] answers 404 at once and touches nothing. *)
Lemma login_without_postData (api : api_client) (w : world) (postData : jsval) :
  truthy postData = false ->
  AuthProvider.login api postData w
  = (Ok (JObj [("status", JNum 404);
               ("message", JStr "ValueError: Invalid PostData Values")]), w).
Proof. intros Hp. js_eval. rewrite Hp. reflexivity. Qed.

Lemma truthy_not_nullish v : truthy v = true -> is_nullish v = false.
Proof. destruct v; simpl; congruence. Qed.

Lemma js_or_truthy a b : truthy b = true -> truthy (js_or a b) = true.
Proof. intros Hb. unfold js_or. destruct (truthy a) eqn:Ha; assumption. Qed.

(** The request resolved, but not with status 200. *)
Lemma login_resolved_not_200 (api : api_client) (w : world)
    (postData response : jsval) :
  truthy postData = true ->
  api_post api "/auth/login" postData = Ok response ->
  prop response "status" <> Ok (JNum 200) ->
  exists status message,
    AuthProvider.login api postData w
    = (Ok (JObj [("status", status); ("message", message)]),
       with_requests (fun rs => rs ++ [POST "/auth/login" postData]) w)
    /\ strict_eq_num status 200 = false /\ truthy message = true.
Proof.
  intros Hp Hr Hs. js_eval. rewrite Hp, (truthy_not_nullish _ Hp), Hr. js_eval.
  destruct (prop response "status") as [st|e] eqn:Hst; js_eval.
  - destruct (strict_eq_num st 200) eqn:H200.
    { destruct st; try discriminate. apply Z.eqb_eq in H200. congruence. }
    destruct (prop response "data") as [data|e] eqn:Hd; js_eval.
    + destruct (prop data "message") as [m|e] eqn:Hm; js_eval.
      * eexists _, _. split; [reflexivity|]. split; [exact H200|].
        apply js_or_truthy. reflexivity.
      * type_errors. js_eval. eexists _, _. repeat split.
    + type_errors. js_eval. eexists _, _. repeat split.
  - type_errors. js_eval. eexists _, _. repeat split.
Qed.




(** ** Successful logins *)

(** What a login does when the server answers 200 with a body. *)
Lemma login_success (api : api_client) (w : world)
    (postData response data u t m : jsval) :
  truthy postData = true ->
  api_post api "/auth/login" postData = Ok response ->
  prop response "status" = Ok (JNum 200) ->
  prop response "data" = Ok data ->
  prop data "userId" = Ok u ->
  prop data "token" = Ok t ->
  prop data "message" = Ok m ->
  AuthProvider.login api postData w
  = (Ok (JObj [("status", JNum 200); ("message", m)]),
     with_auth (fun _ => {| userId := u; token := t |})
       (with_localStorage
          (fun st => <["token" := to_String t]>
                       (<["userId" := to_String (JSON_stringify u)]> st))
          (with_requests (fun rs => rs ++ [POST "/auth/login" postData]) w))).
Proof.
  intros Hp Hr Hs Hd Hu Ht Hm. js_eval.
  rewrite Hp, (truthy_not_nullish _ Hp), Hr. js_eval.
  rewrite Hs. js_eval. rewrite Hd. js_eval. rewrite Hu. js_eval.
  rewrite Ht. js_eval. rewrite Hm. js_eval. reflexivity.
Qed.

(** Every read of a property of a value that is neither [undefined] nor
    [null] succeeds. *)
Lemma prop_defined v k : is_nullish v = false -> exists x, prop v k = Ok x.
Proof. destruct v; simpl; intros H; try discriminate; eauto. Qed.

(** ** The login page after a login (C1) *)

(** Whenever [login] resolved with status 200, the page reads
    [response.data.message] off the [{status, message}] object that [login]
    returns, which raises a TypeError; the page then reports an error and
    never schedules the redirect, although the session has been stored. *)
Lemma login_page_after_status_200 (api : api_client) (w : world)
    (d : login_data) (response data : jsval) :
  all_space (login_username d) = false ->
  all_space (login_password d) = false ->
  api_post api "/auth/login" (loginData_js d) = Ok response ->
  prop response "status" = Ok (JNum 200) ->
  prop response "data" = Ok data ->
  is_nullish data = false ->
  let w' := snd (Login.handleSubmit api d w) in
  login_page w'
  = {| isError := true; isSuccess := isSuccess (login_page w);
       resultText := JStr "An error occurred during signup" |}
  /\ timers w' = timers w ++ [(5000, LoginErrorTimeout)]
  /\ navigations (snd (run_callback LoginErrorTimeout w')) = navigations w
  /\ prop data "userId" = Ok (userId (auth w')).
Proof.
  intros Hu Hp Hr Hs Hd Hn w'. subst w'.
  destruct (prop_defined data "userId" Hn) as [u Hu'].
  destruct (prop_defined data "token" Hn) as [t Ht'].
  destruct (prop_defined data "message" Hn) as [m Hm'].
  unfold Login.handleSubmit. rewrite !blank_all_space, Hu, Hp.
  cbn [orb]. unfold try_catch, mbind, M_bind, bind.
  rewrite (login_success api w (loginData_js d) response data u t m
             eq_refl Hr Hs Hd Hu' Ht' Hm').
  js_eval. rewrite Hu'. repeat split.
Qed.

(** C1, at the input on which the code departs from it: alice logs in,
    the server answers 200 with a user id, a token and the message
    [Login successful].  The session is stored, but the page shows the
    error [An error occurred during signup] and registers the 5000 ms
    error timer; no 3000 ms timer, hence no redirect, is pending. *)
Theorem login_page_reports_error_on_status_200 :
  let api := api_always (Ok (response_of 200
                 (login_payload (JStr "u1") (JStr "t0k")
                    (JStr "Login successful")))) in
  let r := Login.handleSubmit api alice (fresh_world ∅) in
  fst r = Ok tt
  /\ auth (snd r) = {| userId := JStr "u1"; token := JStr "t0k" |}
  /\ login_page (snd r)
     = {| isError := true; isSuccess := false;
          resultText := JStr "An error occurred during signup" |}
  /\ timers (snd r) = [(5000, LoginErrorTimeout)]
  /\ navigations (snd (run_callback LoginErrorTimeout (snd r))) = [].
Proof. repeat split. Qed.

(** The other half of C1 holds: after a login that did not end with
    status 200 the page shows an error and registers the 5000 ms timer. *)
Lemma login_page_after_other_status (api : api_client) (w : world)
    (d : login_data) (status message : jsval) (w1 : world) :
  all_space (login_username d) = false ->
  all_space (login_password d) = false ->
  AuthProvider.login api (loginData_js d) w
  = (Ok (JObj [("status", status); ("message", message)]), w1) ->
  strict_eq_num status 200 = false ->
  let w' := snd (Login.handleSubmit api d w) in
  isError (login_page w') = true
  /\ timers w' = timers w1 ++ [(5000, LoginErrorTimeout)]
  /\ (strict_eq_num status 500 = true -> resultText (login_page w') = message).
Proof.
  intros Hu Hp Hl Hs w'. subst w'.
  unfold Login.handleSubmit. rewrite !blank_all_space, Hu, Hp.
  cbn [orb]. unfold try_catch, mbind, M_bind, bind. rewrite Hl.
  js_eval. rewrite Hs. destruct (strict_eq_num status 500); js_eval.
  - repeat split.
  - repeat split. discriminate.
Qed.

(** ** Authenticated task submission (C2) *)

(** A create request that is rejected puts the dashboard in the failure
    state and leaves the task list and the store alone. *)
Lemma task_submit_rejected (api : api_client) (w : world) (now : Z)
    (d : task_draft) (e : jsval) :
  truthy (userId (auth w)) = true ->
  api_post api "/tasks"
    (JObj (assoc_set "userId" (userId (auth w)) (obj_spread (taskData_js d))))
  = Throw e ->
  let w' := snd (Dashboard.handleTaskSubmit api now (taskData_js d) w) in
  message (dash w')
  = {| text := "Failed to create task. Please try again."; msg_isError := true |}
  /\ userData (dash w') = userData (dash w)
  /\ localStorage w' = localStorage w.
Proof.
  intros Hu He w'. subst w'. js_eval in He. js_eval. rewrite Hu. js_eval.
  rewrite He. js_eval. repeat split.
Qed.

(** A create request that resolves with a status other than 201 changes
    nothing on the dashboard: no message is set, only the timer that
    closes the dialog is registered. *)
Lemma task_submit_other_status (api : api_client) (w : world) (now : Z)
    (d : task_draft) (response status : jsval) :
  truthy (userId (auth w)) = true ->
  api_post api "/tasks"
    (JObj (assoc_set "userId" (userId (auth w)) (obj_spread (taskData_js d))))
  = Ok response ->
  prop response "status" = Ok status ->
  strict_eq_num status 201 = false ->
  let w' := snd (Dashboard.handleTaskSubmit api now (taskData_js d) w) in
  dash w' = dash w
  /\ localStorage w' = localStorage w
  /\ timers w' = timers w ++ [(3000, TaskSubmittedTimeout)].
Proof.
  intros Hu Hr Hs Hne w'. subst w'. js_eval in Hr. js_eval. rewrite Hu. js_eval.
  rewrite Hr. js_eval. rewrite Hs. js_eval. rewrite Hne. repeat split.
Qed.

(** C2, at the input on which the code departs from it: u1 is logged in
    and the create request resolves with status 200 instead of 201.  The
    task list is unchanged, as claimed, but no failure is reported: the
    message stays empty with [isError = false]. *)
Theorem task_submit_status_200_is_silent :
  let api := api_always (Ok (response_of 200
                 (JObj [("task", taskData_js buy_milk)]))) in
  let r := Dashboard.handleTaskSubmit api 1000 (taskData_js buy_milk)
             logged_in_world in
  fst r = Ok tt
  /\ truthy (userId (auth logged_in_world)) = true
  /\ requests (snd r)
     = [POST "/tasks"
          (JObj [("title", JStr "Buy milk"); ("description", JStr "");
                 ("dueDate", JStr ""); ("priority", JStr "medium");
                 ("userId", JStr "u1")])]
  /\ tasks (userData (dash (snd r))) = JArr []
  /\ message (dash (snd r)) = {| text := ""; msg_isError := false |}
  /\ timers (snd r) = [(3000, TaskSubmittedTimeout)].
Proof. repeat split. Qed.

(** ** Anonymous task submission: identifiers (C4) *)

(** C4, at the input on which the code departs from it: with no session,
    two drafts are submitted while [Date.now()] reads 1000.  The persisted
    list grows by one each time, as claimed, but both tasks carry the
    identifier 1000. *)
Theorem same_millisecond_same_identifier :
  let api := api_always (Throw network_error) in
  let w1 := snd (Dashboard.handleTaskSubmit api 1000 (taskData_js buy_milk)
                   (fresh_world ∅)) in
  let w2 := snd (Dashboard.handleTaskSubmit api 1000 (taskData_js buy_eggs) w1) in
  (JSON_parse <$> (localStorage w1 !! Dashboard.TEMP_TASKS_KEY))
  = Some (Ok (JArr [JObj [("title", JStr "Buy milk"); ("description", JStr "");
                          ("dueDate", JStr ""); ("priority", JStr "medium");
                          ("id", JNum 1000)]]))
  /\ (JSON_parse <$> (localStorage w2 !! Dashboard.TEMP_TASKS_KEY))
     = Some (Ok (JArr [JObj [("title", JStr "Buy milk"); ("description", JStr "");
                             ("dueDate", JStr ""); ("priority", JStr "medium");
                             ("id", JNum 1000)];
                       JObj [("title", JStr "Buy eggs");
                             ("description", JStr "a dozen");
                             ("dueDate", JStr "2024-01-01");
                             ("priority", JStr "low");
                             ("id", JNum 1000)]]))
  /\ requests w2 = [].
Proof. repeat split. Qed.

(** ** What JSON.stringify writes *)

Lemma length_append (s1 s2 : string) :
  String.length (s1 +:+ s2) = (String.length s1 + String.length s2)%nat.
Proof. induction s1 as [|c s1 IH]; simpl; [reflexivity | now rewrite IH]. Qed.

Lemma string_of_Z_nonempty z : string_of_Z z <> EmptyString.
Proof.
  unfold string_of_Z.
  destruct (Z.to_int z) as [u|u]; simpl; [|discriminate].
  destruct u; discriminate.
Qed.

(** [JSON.stringify] never returns the empty string. *)
Lemma stringify_nonempty v s : stringify v = Some s -> s <> EmptyString.
Proof.
  destruct v as [| |[]|z|t|l|ps]; simpl; intros H; inversion H; subst;
    try discriminate.
  apply string_of_Z_nonempty.
Qed.

(** Nor does the string that [setItem] stores for it. *)
Lemma stored_stringify_nonempty v : to_String (JSON_stringify v) <> EmptyString.
Proof.
  unfold JSON_stringify. destruct (stringify v) as [s|] eqn:Hs; simpl.
  - eapply stringify_nonempty; eassumption.
  - discriminate.
Qed.

Lemma escape_char_length c : (1 <= String.length (escape_char c))%nat.
Proof.
  unfold escape_char.
  repeat match goal with
         | |- context [if ?b then _ else _] => destruct b
         end; simpl; lia.
Qed.

Lemma escape_string_length s :
  (String.length s <= String.length (escape_string s))%nat.
Proof.
  induction s as [|c s IH]; simpl; [lia|].
  rewrite length_append. pose proof (escape_char_length c). lia.
Qed.

(** Quoting adds at least the two quotes. *)
Lemma JSON_quote_length s :
  (String.length s + 2 <= String.length (JSON_quote s))%nat.
Proof.
  unfold JSON_quote. simpl. rewrite length_append. simpl.
  pose proof (escape_string_length s). lia.
Qed.

Lemma JSON_stringify_string s : JSON_stringify (JStr s) = JStr (JSON_quote s).
Proof. reflexivity. Qed.

(** ** Rehydration (C3) *)

(** What the mount effect leaves in memory, given the two stored strings. *)
Lemma getData_stored (w : world) (su st : string) :
  localStorage w !! "userId" = Some su ->
  localStorage w !! "token" = Some st ->
  su <> EmptyString ->
  auth (snd (AuthProvider.getData w))
  = if negb (String.eqb st "")
    then {| userId := JStr (JSON_quote su); token := JStr st |}
    else auth w.
Proof.
  intros Hu Ht Hne. js_eval. rewrite Hu, Ht. js_eval.
  apply String.eqb_neq in Hne. rewrite Hne. js_eval.
  destruct (String.eqb st ""); reflexivity.
Qed.

(** C3. Let a login succeed with a user id [u] other than [null].  In
    memory the user id is [u] and localStorage holds [JSON.stringify(u)].
    When the page is loaded again and the session rehydrated from that
    store, the user id in memory is not [u]: if the stored token is not
    empty it is the stored string quoted once more, and otherwise it is
    still [null]. *)
Theorem rehydration_does_not_round_trip (api : api_client) (w : world)
    (postData response data u t m : jsval) :
  truthy postData = true ->
  api_post api "/auth/login" postData = Ok response ->
  prop response "status" = Ok (JNum 200) ->
  prop response "data" = Ok data ->
  prop data "userId" = Ok u ->
  prop data "token" = Ok t ->
  prop data "message" = Ok m ->
  u <> JNull ->
  let w1 := snd (AuthProvider.login api postData w) in
  let w2 := snd (AuthProvider.getData (fresh_world (localStorage w1))) in
  userId (auth w1) = u
  /\ localStorage w1 !! "userId" = Some (to_String (JSON_stringify u))
  /\ userId (auth w2) <> u
  /\ (to_String t <> EmptyString ->
      userId (auth w2)
      = JSON_stringify (JStr (to_String (JSON_stringify u)))).
Proof.
  intros Hp Hr Hs Hd Hu Ht Hm Hnull w1 w2.
  assert (Hst : localStorage w1 !! "userId" = Some (to_String (JSON_stringify u))
                /\ localStorage w1 !! "token" = Some (to_String t)
                /\ userId (auth w1) = u).
  { subst w1. rewrite (login_success api w postData response data u t m)
      by assumption.
    js_eval. rewrite lookup_insert_ne by discriminate.
    rewrite !lookup_insert_eq. repeat split. }
  destruct Hst as (Hsu & Hstk & Hmem).
  assert (Hauth : auth w2
                  = if negb (String.eqb (to_String t) "")
                    then {| userId := JStr (JSON_quote (to_String (JSON_stringify u)));
                            token := JStr (to_String t) |}
                    else AuthProvider.initial).
  { subst w2. apply (getData_stored (fresh_world (localStorage w1)));
      [exact Hsu | exact Hstk | apply stored_stringify_nonempty]. }
  split; [exact Hmem|]. split; [exact Hsu|]. rewrite Hauth. split.
  - destruct (negb (String.eqb (to_String t) "")); simpl.
    + intros Heq.
      remember (to_String (JSON_stringify u)) as X eqn:HX.
      rewrite <- Heq, JSON_stringify_string in HX. cbn [to_String] in HX.
      apply (f_equal String.length) in HX.
      pose proof (JSON_quote_length (JSON_quote X)).
      pose proof (JSON_quote_length X). lia.
    + congruence.
  - intros Hne. apply String.eqb_neq in Hne. rewrite Hne. reflexivity.
Qed.

Lemma rehydration_does_not_round_trip_witness :
  userId (auth (snd (AuthProvider.getData (fresh_world (localStorage (snd
    (AuthProvider.login
       (api_always (Ok (response_of 200
          (login_payload (JStr "u1") (JStr "t0k") (JStr "Login successful")))))
       (loginData_js alice) (fresh_world ∅))))))))
  <> JStr "u1".
Proof.
  apply (rehydration_does_not_round_trip
           (api_always (Ok (response_of 200
              (login_payload (JStr "u1") (JStr "t0k") (JStr "Login successful")))))
           (fresh_world ∅) (loginData_js alice)
           (response_of 200
              (login_payload (JStr "u1") (JStr "t0k") (JStr "Login successful")))
           (login_payload (JStr "u1") (JStr "t0k") (JStr "Login successful"))
           (JStr "u1") (JStr "t0k") (JStr "Login successful"));
    try reflexivity.
  discriminate.
Defined.

(** ** The session invariant (C5) *)

(** Either a login leaves the session and the store alone, or the server
    answered 200 with a body and both were overwritten from it. *)
Lemma login_cases (api : api_client) (w : world) (postData : jsval) :
  let w' := snd (AuthProvider.login api postData w) in
  (auth w' = auth w /\ localStorage w' = localStorage w)
  \/ (exists response data u t,
        api_post api "/auth/login" postData = Ok response
        /\ prop response "status" = Ok (JNum 200)
        /\ prop response "data" = Ok data
        /\ prop data "userId" = Ok u
        /\ prop data "token" = Ok t
        /\ auth w' = {| userId := u; token := t |}
        /\ localStorage w'
           = <["token" := to_String t]>
               (<["userId" := to_String (JSON_stringify u)]> (localStorage w))).
Proof.
  intros w'. subst w'.
  destruct (truthy postData) eqn:Hp;
    [|left; rewrite login_without_postData by assumption; split; reflexivity].
  destruct (api_post api "/auth/login" postData) as [response|err] eqn:Hr.
  - destruct (prop response "status") as [st|e] eqn:Hs.
    + destruct (strict_eq_num st 200) eqn:H200.
      * destruct st; try discriminate. apply Z.eqb_eq in H200. subst z.
        destruct (prop response "data") as [data|e] eqn:Hd.
        -- destruct (is_nullish data) eqn:Hn.
           ++ left. js_eval. rewrite Hp, (truthy_not_nullish _ Hp), Hr. js_eval.
              rewrite Hs. js_eval. rewrite Hd. js_eval.
              rewrite (prop_nullish data "userId" Hn). js_eval.
              split; reflexivity.
           ++ destruct (prop_defined data "userId" Hn) as [u Hu].
              destruct (prop_defined data "token" Hn) as [t Ht].
              destruct (prop_defined data "message" Hn) as [m Hm].
              right. exists response, data, u, t.
              rewrite (login_success api w postData response data u t m)
                by assumption.
              repeat split; assumption.
        -- left. type_errors. js_eval.
           rewrite Hp, (truthy_not_nullish _ Hp), Hr. js_eval.
           rewrite Hs. js_eval. rewrite (prop_nullish response "data" Hnullish).
           js_eval. split; reflexivity.
      * left.
        destruct (login_resolved_not_200 api w postData response Hp Hr)
          as (s & m & -> & _).
        { rewrite Hs. intros [= ->]. discriminate. }
        split; reflexivity.
    + left.
      destruct (login_resolved_not_200 api w postData response Hp Hr)
        as (s & m & -> & _).
      { rewrite Hs. discriminate. }
      split; reflexivity.
  - left. js_eval. rewrite Hp, (truthy_not_nullish _ Hp), Hr. js_eval.
    destruct (prop err "response"); split; reflexivity.
Qed.

Lemma stored_present_insert_eq st k v :
  stored_present (<[k := v]> st) k = negb (String.eqb v "").
Proof. unfold stored_present. rewrite lookup_insert_eq. reflexivity. Qed.

Lemma stored_present_insert_ne st k k' v :
  k <> k' -> stored_present (<[k := v]> st) k' = stored_present st k'.
Proof. intros H. unfold stored_present. rewrite lookup_insert_ne by exact H. reflexivity. Qed.

(** C5, as the code has it.  The invariant (user id and token both
    present or both absent) holds of the initial session; rehydration
    keeps it in memory and does not write to the store; logout
    re-establishes it in memory and in the store; and a login keeps it in
    both provided every 200 response of the server carries a body whose
    user id is present and whose token is a non-empty string.  A login
    that fails is covered by the last part: it changes neither. *)
Theorem session_invariant_preserved (api : api_client) (w : world) :
  session_inv AuthProvider.initial
  /\ (session_inv (auth w) ->
      session_inv (auth (snd (AuthProvider.getData w)))
      /\ localStorage (snd (AuthProvider.getData w)) = localStorage w)
  /\ (session_inv (auth (snd (AuthProvider.logout w)))
      /\ store_inv (localStorage (snd (AuthProvider.logout w))))
  /\ (forall postData : jsval,
        session_inv (auth w) -> store_inv (localStorage w) ->
        (forall response,
            api_post api "/auth/login" postData = Ok response ->
            prop response "status" = Ok (JNum 200) ->
            exists data, prop response "data" = Ok data
                         /\ well_formed_payload data = true) ->
        session_inv (auth (snd (AuthProvider.login api postData w)))
        /\ store_inv (localStorage (snd (AuthProvider.login api postData w)))).
Proof.
  split; [reflexivity|]. split; [|split].
  - intros Hinv. unfold session_inv in *. js_eval.
    destruct (localStorage w !! "userId") as [su|]; js_eval;
      [|split; [exact Hinv | reflexivity]].
    destruct (localStorage w !! "token") as [st|]; js_eval.
    + destruct (negb (String.eqb su "")) eqn:Hsu; js_eval;
        [|split; [exact Hinv | reflexivity]].
      destruct (negb (String.eqb st "")) eqn:Hst; js_eval;
        [|split; [exact Hinv | reflexivity]].
      split; [|reflexivity]. rewrite Hst. reflexivity.
    + destruct (negb (String.eqb su "")); js_eval;
        (split; [exact Hinv | reflexivity]).
  - unfold session_inv, store_inv, stored_present. js_eval.
    split; [reflexivity|].
    rewrite lookup_delete_eq, lookup_delete_ne by discriminate.
    rewrite lookup_delete_eq. reflexivity.
  - intros postData Hs Hst Hwf.
    destruct (login_cases api w postData)
      as [[-> ->] | (response & data & u & t & Hr & H200 & Hd & Hu & Ht & -> & ->)];
      [split; assumption|].
    destruct (Hwf response Hr H200) as (data' & Hd' & Hok).
    rewrite Hd in Hd'. injection Hd' as <-.
    unfold well_formed_payload in Hok. rewrite Hu, Ht in Hok.
    destruct t as [| | | |tk| |]; try discriminate.
    apply andb_true_iff in Hok as [Hut Htk].
    split.
    + unfold session_inv. cbn [userId token]. rewrite Hut. symmetry. exact Htk.
    + unfold store_inv. rewrite stored_present_insert_eq.
      rewrite stored_present_insert_ne by discriminate.
      rewrite stored_present_insert_eq. cbn [to_String]. rewrite Htk.
      apply negb_true_iff, String.eqb_neq, stored_stringify_nonempty.
Qed.

Lemma session_invariant_preserved_witness :
  session_inv (auth (snd (AuthProvider.getData logged_in_world)))
  /\ store_inv (localStorage (snd (AuthProvider.login
       (api_always (Ok (response_of 200
          (login_payload (JStr "u1") (JStr "t0k") (JStr "Login successful")))))
       (loginData_js alice) (fresh_world ∅)))).
Proof.
  split.
  - apply (proj1 (proj2 (session_invariant_preserved
                           (api_always (Throw network_error)) logged_in_world))).
    reflexivity.
  - apply (proj2 (proj2 (proj2 (session_invariant_preserved
       (api_always (Ok (response_of 200
          (login_payload (JStr "u1") (JStr "t0k") (JStr "Login successful")))))
       (fresh_world ∅)))) (loginData_js alice)).
    + reflexivity.
    + reflexivity.
    + intros response Hr _. injection Hr as <-.
      exists (login_payload (JStr "u1") (JStr "t0k") (JStr "Login successful")).
      split; reflexivity.
Defined.

(** C5 as stated fails: a login that the server answers with status 200,
    a user id and an empty token succeeds, and leaves a user id without a
    token both in memory and in the store. *)
Lemma login_with_empty_token_breaks_invariant :
  session_inv (auth (fresh_world ∅))
  /\ store_inv (localStorage (fresh_world ∅))
  /\ fst (AuthProvider.login empty_token_api (loginData_js alice) (fresh_world ∅))
     = Ok (JObj [("status", JNum 200); ("message", JStr "Login successful")])
  /\ auth (snd (AuthProvider.login empty_token_api (loginData_js alice)
                  (fresh_world ∅)))
     = {| userId := JStr "u1"; token := JStr "" |}
  /\ ~ session_inv (auth (snd (AuthProvider.login empty_token_api
                                 (loginData_js alice) (fresh_world ∅))))
  /\ ~ store_inv (localStorage (snd (AuthProvider.login empty_token_api
                                      (loginData_js alice) (fresh_world ∅)))).
Proof.
  repeat split; discriminate.
Qed.

(** ** JSON.parse after JSON.stringify *)

Lemma append_cons (x : ascii) (a b : string) :
  String x a +:+ b = String x (a +:+ b).
Proof. reflexivity. Qed.

Lemma append_nil_l (b : string) : "" +:+ b = b.
Proof. reflexivity. Qed.

Lemma append_assoc (a b c : string) : (a +:+ b) +:+ c = a +:+ (b +:+ c).
Proof.
  induction a as [|x a IH]; [reflexivity|].
  rewrite !append_cons, IH. reflexivity.
Qed.

Lemma append_nil_r (a : string) : a +:+ "" = a.
Proof.
  induction a as [|x a IH]; [reflexivity|].
  rewrite append_cons, IH. reflexivity.
Qed.

(** Reading back one escaped character. *)
Lemma parse_chars_escape_char (c : ascii) (tail : string) :
  parse_chars (escape_char c +:+ tail) = cons_char c (parse_chars tail).
Proof.
  destruct c as [[] [] [] [] [] [] [] []]; reflexivity.
Qed.

(** Reading back the body of a quoted string. *)
Lemma parse_chars_escape_string (s rest : string) :
  parse_chars (escape_string s +:+ String dquote rest) = Some (s, rest).
Proof.
  induction s as [|c s IH]; cbn [escape_string].
  - reflexivity.
  - rewrite append_assoc, parse_chars_escape_char, IH. reflexivity.
Qed.

Lemma parse_chars_quote (s rest : string) :
  exists body, JSON_quote s +:+ rest = String dquote body
               /\ parse_chars body = Some (s, rest).
Proof.
  exists (escape_string s +:+ String dquote rest). split.
  - unfold JSON_quote. rewrite append_cons, append_assoc. reflexivity.
  - apply parse_chars_escape_string.
Qed.

(** *** Numbers *)

Lemma delimited_no_fraction rest :
  delimited rest = true -> starts_fraction rest = false.
Proof.
  destruct rest as [|c r]; [reflexivity|]. unfold delimited.
  destruct (digit_of_char c); [discriminate|]. apply negb_true_iff.
Qed.

(** The digits written for a number are read back as they are, up to the
    delimiter. *)
Lemma parse_digits_string_of_uint (d : uint) (rest : string) :
  delimited rest = true ->
  parse_digits (NilEmpty.string_of_uint d +:+ rest) = (d, rest).
Proof.
  intros Hrest.
  induction d as [|d IH|d IH|d IH|d IH|d IH|d IH|d IH|d IH|d IH|d IH];
    cbn [NilEmpty.string_of_uint]; rewrite ?append_cons, ?append_nil_l;
    try (cbn [parse_digits digit_of_char]; rewrite IH; reflexivity).
  destruct rest as [|c r]; [reflexivity|]. cbn [parse_digits].
  unfold delimited in Hrest. destruct (digit_of_char c); [discriminate|reflexivity].
Qed.

Lemma unorm_D0 (x y : uint) : unorm x = D0 y -> y = Nil.
Proof.
  induction x; simpl; intros H; try discriminate; auto.
  injection H as <-. reflexivity.
Qed.

(** The digits of a positive number have no leading zero. *)
Lemma to_uint_int_part_ok (p : positive) : int_part_ok (Pos.to_uint p) = true.
Proof.
  assert (Hn : unorm (Pos.to_uint p) = Pos.to_uint p).
  { rewrite <- (DecimalPos.Unsigned.to_of (Pos.to_uint p)).
    rewrite DecimalPos.Unsigned.of_to. reflexivity. }
  pose proof (DecimalPos.Unsigned.to_uint_nonnil p) as Hnil.
  destruct (Pos.to_uint p) as [|d| | | | | | | | |]; try reflexivity.
  - congruence.
  - simpl in Hn. apply unorm_D0 in Hn. subst d. reflexivity.
Qed.

Lemma parse_number_unsigned (d : uint) (rest : string) :
  int_part_ok d = true -> delimited rest = true ->
  parse_number (NilEmpty.string_of_uint d +:+ rest)
  = Some (JNum (Z.of_int (Pos d)), rest).
Proof.
  intros Hd Hrest. unfold parse_number.
  assert (Hhead : match NilEmpty.string_of_uint d +:+ rest with
                  | String c s' =>
                      if Ascii.eqb c "-" then (true, s')
                      else (false, NilEmpty.string_of_uint d +:+ rest)
                  | EmptyString => (false, NilEmpty.string_of_uint d +:+ rest)
                  end = (false, NilEmpty.string_of_uint d +:+ rest)).
  { destruct d; try discriminate; reflexivity. }
  rewrite Hhead, (parse_digits_string_of_uint d rest Hrest), Hd.
  rewrite (delimited_no_fraction rest Hrest). reflexivity.
Qed.

Lemma parse_number_negative (d : uint) (rest : string) :
  int_part_ok d = true -> delimited rest = true ->
  parse_number (String "-" (NilEmpty.string_of_uint d +:+ rest))
  = Some (JNum (Z.of_int (Neg d)), rest).
Proof.
  intros Hd Hrest. unfold parse_number. cbn [Ascii.eqb Bool.eqb].
  rewrite (parse_digits_string_of_uint d rest Hrest), Hd.
  rewrite (delimited_no_fraction rest Hrest). reflexivity.
Qed.

(** The text written for an integer, in terms of its digits. *)
Lemma string_of_Z_cases (z : Z) :
  (exists d, int_part_ok d = true
             /\ string_of_Z z = NilEmpty.string_of_uint d
             /\ Z.of_int (Pos d) = z)
  \/ (exists d, int_part_ok d = true
                /\ string_of_Z z = String "-" (NilEmpty.string_of_uint d)
                /\ Z.of_int (Neg d) = z).
Proof.
  unfold string_of_Z. destruct z as [|p|p].
  - left. exists (D0 Nil). repeat split.
  - left. exists (Pos.to_uint p). split; [apply to_uint_int_part_ok|]. split.
    + cbn [Z.to_int NilZero.string_of_int]. unfold NilZero.string_of_uint.
      pose proof (DecimalPos.Unsigned.to_uint_nonnil p).
      destruct (Pos.to_uint p); congruence.
    + apply (DecimalZ.of_to (Zpos p)).
  - right. exists (Pos.to_uint p). split; [apply to_uint_int_part_ok|]. split.
    + cbn [Z.to_int NilZero.string_of_int]. unfold NilZero.string_of_uint.
      pose proof (DecimalPos.Unsigned.to_uint_nonnil p).
      destruct (Pos.to_uint p); congruence.
    + apply (DecimalZ.of_to (Zneg p)).
Qed.

Lemma parse_number_string_of_Z (z : Z) (rest : string) :
  delimited rest = true ->
  parse_number (string_of_Z z +:+ rest) = Some (JNum z, rest).
Proof.
  intros Hrest.
  destruct (string_of_Z_cases z) as [(d & Hd & -> & <-) | (d & Hd & -> & <-)].
  - apply parse_number_unsigned; assumption.
  - rewrite append_cons. apply parse_number_negative; assumption.
Qed.

(** *** Arrays and objects *)

Lemma join_cons (sep a : string) (l : list string) :
  l <> [] -> join sep (a :: l) = a +:+ sep +:+ join sep l.
Proof. destruct l; [congruence | reflexivity]. Qed.

Lemma skip_ws_nonws (c : ascii) (s : string) :
  is_json_ws c = false -> skip_ws (String c s) = String c s.
Proof. intros H. cbn [skip_ws]. rewrite H. reflexivity. Qed.

(** Step over a known character that is not white space and compare it
    with the characters the parser looks for. *)
Ltac lex :=
  rewrite ?skip_ws_nonws by reflexivity; cbn [Ascii.eqb Bool.eqb dquote].

(** The element loop reads back a comma-separated run of values, given
    that [pv] reads back each of them. *)
Lemma parse_elems_join (pv : string -> option (jsval * string))
    (l : list jsval) (x : jsval) (n : nat) (rest : string) :
  (length (x :: l) <= n)%nat ->
  (forall y r, In y (x :: l) -> delimited r = true ->
               pv (jstr y +:+ r) = Some (y, r)) ->
  parse_elems pv n (join "," (map jstr (x :: l)) +:+ String "]" rest)
  = Some (x :: l, rest).
Proof.
  revert x n. induction l as [|y l IH]; intros x n Hn Hpv.
  - destruct n as [|n]; [simpl in Hn; lia|].
    cbn [map join parse_elems].
    rewrite (Hpv x (String "]" rest)) by (try left; reflexivity).
    lex. reflexivity.
  - destruct n as [|n]; [simpl in Hn; lia|].
    change (map jstr (x :: y :: l)) with (jstr x :: map jstr (y :: l)).
    rewrite join_cons by discriminate.
    rewrite !append_assoc, append_cons, append_nil_l.
    cbn [parse_elems].
    rewrite (Hpv x) by (try left; reflexivity).
    lex. rewrite (IH y n).
    + reflexivity.
    + simpl in Hn |- *. lia.
    + intros z r Hz. apply Hpv. right. exact Hz.
Qed.

Lemma nodup_keys_NoDup (ks : list string) : nodup_keys ks = true <-> NoDup ks.
Proof.
  induction ks as [|k ks IH]; simpl.
  - split; [constructor | reflexivity].
  - rewrite andb_true_iff, negb_true_iff, IH, NoDup_cons.
    assert (existsb (String.eqb k) ks = false <-> k ∉ ks) as ->; [|reflexivity].
    rewrite <- not_true_iff_false, existsb_exists, list_elem_of_In.
    split; intros H1 H2; apply H1.
    + exists k. split; [exact H2 | apply String.eqb_refl].
    + destruct H2 as (k' & Hin & Heq). apply String.eqb_eq in Heq. congruence.
Qed.

(** Defining a property whose name is new appends it. *)
Lemma assoc_set_fresh (k : string) (v : jsval) (ps : list (string * jsval)) :
  k ∉ map fst ps -> assoc_set k v ps = ps ++ [(k, v)].
Proof.
  induction ps as [|[k' v'] ps IH]; intros Hk; [reflexivity|].
  cbn [assoc_set]. cbn [map fst] in Hk. apply not_elem_of_cons in Hk as [Hne Hk].
  apply String.eqb_neq in Hne. rewrite Hne, IH by exact Hk. reflexivity.
Qed.

(** The member loop reads back a comma-separated run of members. *)
Lemma parse_members_join (pv : string -> option (jsval * string))
    (ps : list (string * jsval)) (p : string * jsval) (n : nat)
    (acc : list (string * jsval)) (rest : string) :
  (length (p :: ps) <= n)%nat ->
  NoDup (map fst (acc ++ p :: ps)) ->
  (forall k x r, In (k, x) (p :: ps) -> delimited r = true ->
                 pv (jstr x +:+ r) = Some (x, r)) ->
  parse_members pv n acc
    (join "," (map member_str (p :: ps)) +:+ String "}" rest)
  = Some (acc ++ p :: ps, rest).
Proof.
  revert p n acc. induction ps as [|q ps IH]; intros [k x] n acc Hn Hnd Hpv.
  - destruct n as [|n]; [simpl in Hn; lia|].
    cbn [map join]. unfold member_str. cbn [fst snd].
    rewrite !append_assoc.
    destruct (parse_chars_quote k (":" +:+ jstr x +:+ String "}" rest))
      as (body & -> & Hbody).
    cbn [parse_members]. lex.
    rewrite Hbody. rewrite append_cons, append_nil_l.
    lex.
    rewrite (Hpv k x (String "}" rest)) by (try left; reflexivity).
    lex.
    rewrite assoc_set_fresh; [reflexivity|].
    rewrite map_app in Hnd. apply NoDup_app in Hnd as (_ & Hd & _).
    intros Hin. apply (Hd k Hin). left.
  - destruct n as [|n]; [simpl in Hn; lia|].
    change (map member_str ((k, x) :: q :: ps))
      with (member_str (k, x) :: map member_str (q :: ps)).
    rewrite join_cons by discriminate. unfold member_str at 1. cbn [fst snd].
    rewrite !append_assoc.
    destruct (parse_chars_quote k
                (":" +:+ jstr x +:+ "," +:+
                 join "," (map member_str (q :: ps)) +:+ String "}" rest))
      as (body & -> & Hbody).
    cbn [parse_members]. lex.
    rewrite Hbody. rewrite !append_cons, !append_nil_l.
    lex.
    rewrite (Hpv k x) by (try left; reflexivity).
    lex.
    assert (Hk : k ∉ map fst acc).
    { rewrite map_app in Hnd. apply NoDup_app in Hnd as (_ & Hd & _).
      intros Hin. apply (Hd k Hin). left. }
    rewrite (assoc_set_fresh k x acc Hk).
    rewrite (IH q n (acc ++ [(k, x)])).
    + rewrite <- app_assoc. reflexivity.
    + simpl in Hn |- *. lia.
    + rewrite <- app_assoc. exact Hnd.
    + intros k' x' r Hz. apply (Hpv k'). right. exact Hz.
Qed.

(** *** Values *)

Lemma stringify_clean (v : jsval) :
  json_clean v = true -> stringify v = Some (jstr v).
Proof. destruct v as [| |[]| | | |]; simpl; intros H; try discriminate; reflexivity. Qed.

Lemma jstr_array (l : list jsval) :
  jstr (JArr l) = "[" +:+ join "," (map jstr l) +:+ "]".
Proof. reflexivity. Qed.

Lemma jstr_object (ps : list (string * jsval)) :
  forallb (fun p => json_clean (snd p)) ps = true ->
  jstr (JObj ps) = "{" +:+ join "," (map member_str ps) +:+ "}".
Proof.
  intros Hc. unfold jstr. cbn [stringify default from_option id]. do 3 f_equal.
  induction ps as [|[k x] ps IH]; [reflexivity|].
  cbn [forallb snd] in Hc. apply andb_true_iff in Hc as [Hx Hps].
  cbn [omap list_omap map]. rewrite (stringify_clean x Hx).
  change (list_omap _ _ ?g ps) with (omap g ps). rewrite (IH Hps). reflexivity.
Qed.

Lemma jsize_pos (v : jsval) : (1 <= jsize v)%nat.
Proof. destruct v; simpl; lia. Qed.

Lemma list_sum_In (n : nat) (l : list nat) : In n l -> (n <= list_sum l)%nat.
Proof.
  induction l as [|m l IH]; simpl; [tauto|]. intros [-> | H]; [lia|].
  specialize (IH H). lia.
Qed.

Lemma length_le_sum_elems (l : list jsval) :
  (length l <= list_sum (map jsize l))%nat.
Proof.
  induction l as [|a l IH]; simpl; [lia|]. pose proof (jsize_pos a). lia.
Qed.

Lemma length_le_sum_members (ps : list (string * jsval)) :
  (length ps <= list_sum (map (fun p => jsize (snd p)) ps))%nat.
Proof.
  induction ps as [|a l IH]; simpl; [lia|]. pose proof (jsize_pos (snd a)). lia.
Qed.

(** The first character written for a value starts no white space and
    closes no array or object. *)
Lemma jstr_head (v : jsval) :
  json_clean v = true ->
  exists c s, jstr v = String c s /\ is_json_ws c = false
              /\ Ascii.eqb c "]" = false /\ Ascii.eqb c "}" = false.
Proof.
  destruct v as [| |[]|z|t|l|ps]; intros Hc; try discriminate;
    try (eexists _, _; split; [reflexivity | repeat split]).
  change (jstr (JNum z)) with (string_of_Z z).
  destruct (string_of_Z_cases z) as [(d & Hd & -> & _) | (d & Hd & -> & _)].
  - destruct d; try discriminate;
      eexists _, _; (split; [reflexivity | repeat split]).
  - eexists _, _; (split; [reflexivity | repeat split]).
Qed.

Lemma parse_value_number (f : nat) (z : Z) (rest : string) :
  parse_value (S f) (string_of_Z z +:+ rest)
  = parse_number (string_of_Z z +:+ rest).
Proof.
  destruct (string_of_Z_cases z) as [(d & Hd & -> & _) | (d & Hd & -> & _)].
  - destruct d; try discriminate; reflexivity.
  - reflexivity.
Qed.

(** After an opening bracket that is not closed at once come the elements. *)
Lemma parse_value_array (f : nat) (c : ascii) (s : string) :
  is_json_ws c = false -> Ascii.eqb c "]" = false ->
  parse_value (S f) (String "[" (String c s))
  = option_map (fun '(vs, r) => (JArr vs, r))
      (parse_elems (parse_value f) f (String c s)).
Proof.
  intros Hws Hc. cbn [parse_value]. lex. rewrite (skip_ws_nonws c s Hws), Hc.
  reflexivity.
Qed.

(** After an opening brace followed by a quote come the members. *)
Lemma parse_value_object (f : nat) (s : string) :
  parse_value (S f) (String "{" (String dquote s))
  = option_map (fun '(ps, r) => (JObj ps, r))
      (parse_members (parse_value f) f [] (String dquote s)).
Proof. cbn [parse_value]. lex. reflexivity. Qed.

(** Parsing the text written for a value gives the value back and stops
    right after it, whenever the fuel covers the size of the value. *)
Lemma parse_value_jstr (f : nat) :
  forall (v : jsval) (rest : string),
    (jsize v <= f)%nat -> json_clean v = true -> delimited rest = true ->
    parse_value f (jstr v +:+ rest) = Some (v, rest).
Proof.
  induction f as [|f IH]; intros v rest Hsize Hclean Hrest.
  { pose proof (jsize_pos v). lia. }
  destruct v as [| |[]|z|t|l|ps]; try discriminate; try reflexivity.
  - change (jstr (JNum z)) with (string_of_Z z).
    rewrite parse_value_number. apply parse_number_string_of_Z. exact Hrest.
  - change (jstr (JStr t)) with (JSON_quote t).
    destruct (parse_chars_quote t rest) as (body & -> & Hbody).
    cbn [parse_value]. lex. rewrite Hbody. reflexivity.
  - destruct l as [|x l]; [reflexivity|].
    cbn [json_clean] in Hclean. cbn [jsize] in Hsize.
    assert (Helems : forall y r, In y (x :: l) -> delimited r = true ->
                       parse_value f (jstr y +:+ r) = Some (y, r)).
    { intros y r Hy Hr. apply IH; [| |exact Hr].
      - pose proof (list_sum_In (jsize y) (map jsize (x :: l))
                      (in_map jsize _ _ Hy)). lia.
      - rewrite forallb_forall in Hclean. apply Hclean, Hy. }
    destruct (jstr_head x) as (c & s & Hx & Hws & Hc & _).
    { rewrite forallb_forall in Hclean. apply Hclean. left. reflexivity. }
    rewrite jstr_array, !append_assoc, append_cons, append_nil_l.
    assert (Hs1 : exists s', join "," (map jstr (x :: l)) +:+ "]" +:+ rest
                             = String c s').
    { destruct l as [|y l].
      - cbn [map join]. rewrite Hx. eexists. reflexivity.
      - change (map jstr (x :: y :: l)) with (jstr x :: map jstr (y :: l)).
        rewrite join_cons by discriminate. rewrite Hx. eexists. reflexivity. }
    destruct Hs1 as (s' & Hs1). rewrite Hs1.
    rewrite parse_value_array by assumption. rewrite <- Hs1.
    rewrite append_cons, append_nil_l.
    rewrite (parse_elems_join (parse_value f) l x f rest).
    + reflexivity.
    + pose proof (length_le_sum_elems (x :: l)). lia.
    + exact Helems.
  - destruct ps as [|[k x] ps]; [reflexivity|].
    cbn [json_clean] in Hclean. apply andb_true_iff in Hclean as [Hnd Hclean].
    cbn [jsize] in Hsize.
    assert (Hmembers : forall k' y r, In (k', y) ((k, x) :: ps) ->
                         delimited r = true ->
                         parse_value f (jstr y +:+ r) = Some (y, r)).
    { intros k' y r Hy Hr. apply IH; [| |exact Hr].
      - pose proof (list_sum_In (jsize y)
                      (map (fun p => jsize (snd p)) ((k, x) :: ps))
                      (in_map (fun p => jsize (snd p)) _ _ Hy)). lia.
      - rewrite forallb_forall in Hclean. apply (Hclean (k', y)), Hy. }
    rewrite (jstr_object _ Hclean), !append_assoc, append_cons, append_nil_l.
    assert (Hs1 : exists s', join "," (map member_str ((k, x) :: ps))
                             +:+ "}" +:+ rest = String dquote s').
    { destruct ps as [|q ps].
      - cbn [map join]. eexists. reflexivity.
      - change (map member_str ((k, x) :: q :: ps))
          with (member_str (k, x) :: map member_str (q :: ps)).
        rewrite join_cons by discriminate. eexists. reflexivity. }
    destruct Hs1 as (s' & Hs1). rewrite Hs1.
    rewrite parse_value_object. rewrite <- Hs1.
    rewrite append_cons, append_nil_l.
    rewrite (parse_members_join (parse_value f) ps (k, x) f [] rest).
    + reflexivity.
    + pose proof (length_le_sum_members ((k, x) :: ps)). lia.
    + apply nodup_keys_NoDup. exact Hnd.
    + exact Hmembers.
Qed.

Lemma list_sum_le_pointwise {A} (g h : A -> nat) (l : list A) :
  (forall a, In a l -> (g a <= h a)%nat) ->
  (list_sum (map g l) <= list_sum (map h l))%nat.
Proof.
  induction l as [|a l IH]; intros H; simpl; [lia|].
  pose proof (H a (or_introl eq_refl)).
  assert (list_sum (map g l) <= list_sum (map h l))%nat
    by (apply IH; intros b Hb; apply H; right; exact Hb).
  lia.
Qed.

Lemma join_length (sep : string) (l : list string) :
  (list_sum (map String.length l) <= String.length (join sep l))%nat.
Proof.
  induction l as [|a l IH]; [simpl; lia|].
  destruct l as [|b l]; [simpl; lia|].
  rewrite join_cons by discriminate. rewrite !length_append.
  cbn [map] in *. unfold list_sum in *. cbn [fold_right] in *. lia.
Qed.

(** The text written for a value has at least one character per node, so
    its length is fuel enough. *)
Lemma jsize_le_length (n : nat) :
  forall v : jsval,
    (jsize v <= n)%nat -> json_clean v = true ->
    (jsize v <= String.length (jstr v))%nat.
Proof.
  induction n as [|n IH]; intros v Hn Hclean.
  { pose proof (jsize_pos v). lia. }
  destruct v as [| |b|z|t|l|ps];
    try (destruct (jstr_head _ Hclean) as (c & s & -> & _); simpl; lia).
  - rewrite jstr_array, !length_append. cbn [jsize json_clean] in *.
    pose proof (join_length "," (map jstr l)) as Hj. rewrite map_map in Hj.
    pose proof (list_sum_le_pointwise jsize (fun x => String.length (jstr x)) l)
      as Hs.
    simpl String.length.
    assert (list_sum (map jsize l)
            <= list_sum (map (fun x => String.length (jstr x)) l))%nat; [|lia].
    apply Hs. intros x Hx. apply IH.
    + pose proof (list_sum_In (jsize x) (map jsize l) (in_map jsize _ _ Hx)). lia.
    + rewrite forallb_forall in Hclean. apply Hclean, Hx.
  - cbn [json_clean] in Hclean. apply andb_true_iff in Hclean as [_ Hclean].
    rewrite (jstr_object ps Hclean), !length_append. cbn [jsize] in *.
    pose proof (join_length "," (map member_str ps)) as Hj. rewrite map_map in Hj.
    simpl String.length.
    assert (list_sum (map (fun p => jsize (snd p)) ps)
            <= list_sum (map (fun p => String.length (member_str p)) ps))%nat;
      [|lia].
    apply list_sum_le_pointwise. intros [k x] Hx. unfold member_str.
    rewrite !length_append. cbn [fst snd].
    assert (jsize x <= String.length (jstr x))%nat; [|lia].
    apply IH.
    + pose proof (list_sum_In (jsize x) (map (fun p => jsize (snd p)) ps)
                    (in_map (fun p => jsize (snd p)) _ _ Hx)). lia.
    + rewrite forallb_forall in Hclean. apply (Hclean (k, x)), Hx.
Qed.

(** [JSON.parse(JSON.stringify(v))] is [v] for every value free of
    [undefined] and of repeated property names. *)
Lemma JSON_parse_jstr (v : jsval) :
  json_clean v = true -> JSON_parse (jstr v) = Ok v.
Proof.
  intros Hclean. unfold JSON_parse.
  pose proof (jsize_le_length (jsize v) v (le_n _) Hclean) as Hfuel.
  pose proof (parse_value_jstr (S (String.length (jstr v))) v "") as Hparse.
  rewrite append_nil_r in Hparse. rewrite Hparse; [reflexivity | lia | exact Hclean | reflexivity].
Qed.

(** *** What JSON.parse returns *)

Lemma assoc_set_keys (k : string) (v : jsval) (ps : list (string * jsval)) :
  map fst (assoc_set k v ps)
  = if existsb (String.eqb k) (map fst ps) then map fst ps
    else map fst ps ++ [k].
Proof.
  induction ps as [|[k' v'] ps IH]; [reflexivity|].
  cbn [assoc_set map fst existsb].
  destruct (String.eqb k k') eqn:Hk; cbn [orb map fst].
  - apply String.eqb_eq in Hk. subst k'. reflexivity.
  - rewrite IH. destruct (existsb (String.eqb k) (map fst ps)); reflexivity.
Qed.

Lemma existsb_eqb_elem_of (k : string) (ks : list string) :
  existsb (String.eqb k) ks = true <-> k ∈ ks.
Proof.
  rewrite existsb_exists, list_elem_of_In. split.
  - intros (k' & Hin & Heq). apply String.eqb_eq in Heq. congruence.
  - intros Hin. exists k. split; [exact Hin | apply String.eqb_refl].
Qed.

Lemma assoc_set_nodup (k : string) (v : jsval) (ps : list (string * jsval)) :
  nodup_keys (map fst ps) = true ->
  nodup_keys (map fst (assoc_set k v ps)) = true.
Proof.
  rewrite assoc_set_keys.
  destruct (existsb (String.eqb k) (map fst ps)) eqn:Hk; [trivial|].
  rewrite !nodup_keys_NoDup. intros Hnd.
  apply NoDup_app. split; [exact Hnd|]. split; [|apply NoDup_singleton].
  intros x Hx Hx'. apply list_elem_of_singleton in Hx'. subst x.
  apply existsb_eqb_elem_of in Hx. congruence.
Qed.

Lemma assoc_set_clean (k : string) (v : jsval) (ps : list (string * jsval)) :
  json_clean v = true ->
  forallb (fun p => json_clean (snd p)) ps = true ->
  forallb (fun p => json_clean (snd p)) (assoc_set k v ps) = true.
Proof.
  intros Hv. induction ps as [|[k' v'] ps IH]; cbn [assoc_set forallb snd].
  - rewrite Hv. trivial.
  - intros H. apply andb_true_iff in H as [H1 H2].
    destruct (String.eqb k k'); cbn [forallb snd].
    + rewrite Hv, H2. reflexivity.
    + rewrite H1, (IH H2). reflexivity.
Qed.

Lemma parse_number_clean (s : string) (v : jsval) (r : string) :
  parse_number s = Some (v, r) -> json_clean v = true.
Proof.
  unfold parse_number.
  destruct (match s with
            | String c s' => if Ascii.eqb c "-" then (true, s') else (false, s)
            | EmptyString => (false, s)
            end) as [neg s1].
  destruct (parse_digits s1) as [d rest].
  destruct (int_part_ok d && negb (starts_fraction rest)); [|discriminate].
  intros [= <- _]. reflexivity.
Qed.

Lemma parse_elems_clean (pv : string -> option (jsval * string)) :
  (forall s v r, pv s = Some (v, r) -> json_clean v = true) ->
  forall (n : nat) (s : string) (vs : list jsval) (r : string),
    parse_elems pv n s = Some (vs, r) -> forallb json_clean vs = true.
Proof.
  intros Hpv. induction n as [|n IH]; intros s vs r; [discriminate|].
  cbn [parse_elems]. destruct (pv s) as [[v rest]|] eqn:Hv; [|discriminate].
  apply Hpv in Hv. destruct (skip_ws rest) as [|c rest']; [discriminate|].
  destruct (Ascii.eqb c ",").
  - destruct (parse_elems pv n rest') as [[vs' r']|] eqn:Hvs; [|discriminate].
    intros [= <- _]. cbn [forallb]. rewrite Hv. apply (IH _ _ _ Hvs).
  - destruct (Ascii.eqb c "]"); [|discriminate].
    intros [= <- _]. cbn [forallb]. rewrite Hv. reflexivity.
Qed.

Lemma parse_members_clean (pv : string -> option (jsval * string)) :
  (forall s v r, pv s = Some (v, r) -> json_clean v = true) ->
  forall (n : nat) (acc : list (string * jsval)) (s : string)
         (ps : list (string * jsval)) (r : string),
    nodup_keys (map fst acc) = true ->
    forallb (fun p => json_clean (snd p)) acc = true ->
    parse_members pv n acc s = Some (ps, r) ->
    nodup_keys (map fst ps) = true
    /\ forallb (fun p => json_clean (snd p)) ps = true.
Proof.
  intros Hpv. induction n as [|n IH]; intros acc s ps r Hnd Hcl; [discriminate|].
  cbn [parse_members].
  destruct (skip_ws s) as [|q s1]; [discriminate|].
  destruct (Ascii.eqb q dquote); [|discriminate].
  destruct (parse_chars s1) as [[k s2]|]; [|discriminate].
  destruct (skip_ws s2) as [|c s3]; [discriminate|].
  destruct (Ascii.eqb c ":"); [|discriminate].
  destruct (pv s3) as [[v s4]|] eqn:Hv; [|discriminate].
  apply Hpv in Hv.
  destruct (skip_ws s4) as [|c' s5]; [discriminate|].
  destruct (Ascii.eqb c' ",").
  - apply IH; [apply assoc_set_nodup, Hnd | apply assoc_set_clean; assumption].
  - destruct (Ascii.eqb c' "}"); [|discriminate].
    intros [= <- _].
    split; [apply assoc_set_nodup, Hnd | apply assoc_set_clean; assumption].
Qed.

(** [JSON.parse] returns values free of [undefined] and of repeated
    property names. *)
Lemma parse_value_clean (f : nat) :
  forall (s : string) (v : jsval) (r : string),
    parse_value f s = Some (v, r) -> json_clean v = true.
Proof.
  induction f as [|f IH]; intros s v r; [discriminate|].
  cbn [parse_value]. destruct (skip_ws s) as [|c s1]; [discriminate|].
  destruct (Ascii.eqb c "n").
  { destruct (expect "ull" s1); [|discriminate]. intros [= <- _]. reflexivity. }
  destruct (Ascii.eqb c "t").
  { destruct (expect "rue" s1); [|discriminate]. intros [= <- _]. reflexivity. }
  destruct (Ascii.eqb c "f").
  { destruct (expect "alse" s1); [|discriminate]. intros [= <- _]. reflexivity. }
  destruct (Ascii.eqb c dquote).
  { destruct (parse_chars s1) as [[t r']|]; [|discriminate].
    intros [= <- _]. reflexivity. }
  destruct (Ascii.eqb c "[").
  { destruct (skip_ws s1) as [|c' s2]; [discriminate|].
    destruct (Ascii.eqb c' "]"); [intros [= <- _]; reflexivity|].
    destruct (parse_elems (parse_value f) f s1) as [[vs r']|] eqn:Hvs;
      [|discriminate].
    intros [= <- _]. cbn [json_clean].
    apply (parse_elems_clean (parse_value f) IH _ _ _ _ Hvs). }
  destruct (Ascii.eqb c "{").
  { destruct (skip_ws s1) as [|c' s2]; [discriminate|].
    destruct (Ascii.eqb c' "}"); [intros [= <- _]; reflexivity|].
    destruct (parse_members (parse_value f) f [] s1) as [[ps r']|] eqn:Hps;
      [|discriminate].
    intros [= <- _]. cbn [json_clean].
    destruct (parse_members_clean (parse_value f) IH f [] s1 ps r'
                eq_refl eq_refl Hps) as [H1 H2].
    rewrite H1, H2. reflexivity. }
  apply parse_number_clean.
Qed.

Lemma JSON_parse_clean (text : string) (v : jsval) :
  JSON_parse text = Ok v -> json_clean v = true.
Proof.
  unfold JSON_parse.
  destruct (parse_value (S (String.length text)) text) as [[v' r]|] eqn:Hp;
    [|discriminate].
  destruct (skip_ws r); [|discriminate].
  intros [= <-]. apply (parse_value_clean _ _ _ _ Hp).
Qed.

(** ** The ephemeral task store (C10) *)

Lemma persisted_tasks_clean (st : gmap string string) (v : jsval) :
  persisted_tasks st = Ok v -> json_clean v = true.
Proof.
  unfold persisted_tasks.
  destruct (JSON_parse _) as [p|e] eqn:Hp; [|discriminate].
  apply JSON_parse_clean in Hp. intros [= <-]. unfold js_or.
  destruct (truthy p); [exact Hp | reflexivity].
Qed.

Lemma array_spread_clean (v : jsval) (l : list jsval) :
  json_clean v = true -> array_spread v = Ok l -> forallb json_clean l = true.
Proof.
  destruct v as [| | | |s|l'|]; try discriminate; intros Hc [= <-].
  - apply forallb_forall. intros x Hx. apply in_map_iff in Hx as (c & <- & _).
    reflexivity.
  - exact Hc.
Qed.

Lemma JSON_stringify_array (l : list jsval) :
  to_String (JSON_stringify (JArr l)) = jstr (JArr l).
Proof. reflexivity. Qed.

Lemma persisted_tasks_insert (st : gmap string string) (v : jsval) :
  json_clean v = true -> truthy v = true ->
  persisted_tasks (<[Dashboard.TEMP_TASKS_KEY := jstr v]> st) = Ok v.
Proof.
  intros Hc Ht. unfold persisted_tasks. rewrite lookup_insert_eq.
  cbn [to_String]. rewrite (JSON_parse_jstr v Hc). unfold js_or. rewrite Ht.
  reflexivity.
Qed.

(** What an anonymous submission does when the stored list can be read:
    it stores the list with the new task appended, shows it, and issues
    no request. *)
Lemma anonymous_submit (api : api_client) (w : world) (now : Z)
    (d : task_draft) (v : jsval) (l : list jsval) :
  truthy (userId (auth w)) = false ->
  persisted_tasks (localStorage w) = Ok v ->
  array_spread v = Ok l ->
  Dashboard.handleTaskSubmit api now (taskData_js d) w
  = (Ok tt,
     with_timers (fun ts => ts ++ [(3000, TaskSubmittedTimeout)])
       (with_dash
          (fun ds =>
             {| userData :=
                  Dashboard.with_tasks (userData ds)
                    (JArr (l ++ [ephemeral_task now d]));
                isOpen := isOpen ds;
                message := {| text := "Task saved temporarily!";
                              msg_isError := false |};
                render_error := render_error ds |})
          (with_localStorage
             (fun st => <[Dashboard.TEMP_TASKS_KEY :=
                            jstr (JArr (l ++ [ephemeral_task now d]))]> st)
             w))).
Proof.
  intros Hu Hp Hl. unfold persisted_tasks in Hp.
  js_eval. rewrite Hu. js_eval.
  destruct (JSON_parse _) as [p|e]; [|discriminate].
  injection Hp as <-. js_eval. rewrite Hl. js_eval. reflexivity.
Qed.

Lemma ephemeral_task_clean (now : Z) (d : task_draft) :
  json_clean (ephemeral_task now d) = true.
Proof. reflexivity. Qed.

(** After such a submission the persisted list reads back as the old
    list followed by the new task. *)
Lemma anonymous_submit_reads_back (api : api_client) (w : world) (now : Z)
    (d : task_draft) (v : jsval) (l : list jsval) :
  truthy (userId (auth w)) = false ->
  persisted_tasks (localStorage w) = Ok v ->
  array_spread v = Ok l ->
  let w' := snd (Dashboard.handleTaskSubmit api now (taskData_js d) w) in
  persisted_tasks (localStorage w') = Ok (JArr (l ++ [ephemeral_task now d]))
  /\ auth w' = auth w /\ requests w' = requests w.
Proof.
  intros Hu Hp Hl w'. subst w'.
  rewrite (anonymous_submit api w now d v l Hu Hp Hl).
  split; [|split; reflexivity].
  cbn [snd with_timers with_dash with_localStorage localStorage].
  apply persisted_tasks_insert; [|reflexivity].
  cbn [json_clean]. rewrite forallb_app. cbn [forallb].
  rewrite (array_spread_clean v l (persisted_tasks_clean _ _ Hp) Hl).
  rewrite ephemeral_task_clean. reflexivity.
Qed.

(** When the stored text cannot be read as a list, nothing is stored and
    the dashboard reports the local failure. *)
Lemma anonymous_submit_unreadable (api : api_client) (w : world) (now : Z)
    (d : task_draft) :
  truthy (userId (auth w)) = false ->
  (forall v l, persisted_tasks (localStorage w) = Ok v ->
               array_spread v <> Ok l) ->
  let w' := snd (Dashboard.handleTaskSubmit api now (taskData_js d) w) in
  localStorage w' = localStorage w
  /\ message (dash w')
     = {| text := "Failed to save task locally"; msg_isError := true |}
  /\ timers w' = timers w ++ [(3000, TaskFailedTimeout)].
Proof.
  intros Hu Hbad w'. subst w'. unfold persisted_tasks in Hbad.
  js_eval. rewrite Hu. js_eval.
  destruct (JSON_parse _) as [p|e]; js_eval; [|repeat split].
  destruct (array_spread (js_or p (JArr []))) as [l|e] eqn:Hl; js_eval;
    [|repeat split].
  exfalso. apply (Hbad _ l eq_refl). exact Hl.
Qed.

(** C10. With no session, let the stored list read as [l] when a draft
    is submitted.  Reading the persisted list back right after the
    submission gives [l] followed by one more element, which has the
    draft's title, description, due date and priority and, besides them,
    only the identifier. *)
Theorem appended_task_reads_back (api : api_client) (w : world) (now : Z)
    (d : task_draft) (v : jsval) (l : list jsval) :
  truthy (userId (auth w)) = false ->
  persisted_tasks (localStorage w) = Ok v ->
  array_spread v = Ok l ->
  let w' := snd (Dashboard.handleTaskSubmit api now (taskData_js d) w) in
  persisted_tasks (localStorage w')
  = Ok (JArr (l ++ [JObj [("title", JStr (title d));
                          ("description", JStr (description d));
                          ("dueDate", JStr (dueDate d));
                          ("priority", JStr (priority d));
                          ("id", JNum now)]])).
Proof.
  intros Hu Hp Hl. apply (anonymous_submit_reads_back api w now d v l Hu Hp Hl).
Qed.

Lemma appended_task_reads_back_witness :
  persisted_tasks (localStorage (snd (Dashboard.handleTaskSubmit
     (api_always (Throw network_error)) 1000 (taskData_js buy_milk)
     (fresh_world ∅))))
  = Ok (JArr [JObj [("title", JStr "Buy milk"); ("description", JStr "");
                    ("dueDate", JStr ""); ("priority", JStr "medium");
                    ("id", JNum 1000)]]).
Proof.
  apply (appended_task_reads_back (api_always (Throw network_error))
           (fresh_world ∅) 1000 buy_milk (JArr []) []); reflexivity.
Defined.

(** *** Runs of anonymous submissions *)

(** Each submission of a run adds exactly its own task to the persisted
    list, in order. *)
Lemma anonymous_submissions_append (api : api_client)
    (subs : list (Z * task_draft)) :
  forall (w : world) (l : list jsval),
    truthy (userId (auth w)) = false ->
    persisted_tasks (localStorage w) = Ok (JArr l) ->
    persisted_tasks (localStorage (submit_all api subs w))
    = Ok (JArr (l ++ map (fun sub => ephemeral_task (fst sub) (snd sub)) subs))
    /\ requests (submit_all api subs w) = requests w.
Proof.
  induction subs as [|[now d] subs IH]; intros w l Hu Hp.
  - cbn [submit_all fold_left map]. rewrite app_nil_r. split; [exact Hp | reflexivity].
  - cbn [submit_all fold_left map fst snd].
    destruct (anonymous_submit_reads_back api w now d (JArr l) l Hu Hp eq_refl)
      as (Hp' & Ha & Hr).
    fold (submit_all api subs
            (snd (Dashboard.handleTaskSubmit api now (taskData_js d) w))).
    destruct (IH _ _ (eq_trans (f_equal (fun s => truthy (userId s)) Ha) Hu) Hp')
      as (Hq & Hreq).
    rewrite Hq, Hreq, Hr, <- app_assoc. split; reflexivity.
Qed.

(** The identifiers given out in a run are the clock readings, so they
    are pairwise distinct exactly when the readings are. *)
Lemma identifiers_are_clock_readings (subs : list (Z * task_draft)) :
  map (fun t => prop t "id")
      (map (fun sub => ephemeral_task (fst sub) (snd sub)) subs)
  = map (fun sub => Ok (JNum (fst sub))) subs.
Proof. rewrite map_map. reflexivity. Qed.

(** * Further properties of the handlers *)

(** [js_eval] extended to the api client and the form components. *)
Ltac js_eval_more :=
  repeat (progress
    (cbv beta iota zeta delta
       [Api.requestInterceptor NewTask.handleSubmit NewTask.cancel
        NewTask.handleChange LoginForm.handleChange SignUpForm.handleChange
        with_field accepting_api empty_token_api];
     cbn [Api.url Api.headers];
     js_unfold; js_compute)).

(** Read the fields of a world that is a stack of updates of another. *)
Ltac world_fields :=
  cbn [fst snd with_localStorage with_auth with_login_page with_signup_page
       with_dash with_timers with_requests with_navigations
       localStorage auth login_page signup_page dash timers requests
       navigations userId token fresh_world].

(** ** The session manager: equations *)

Lemma logout_eq (w : world) :
  AuthProvider.logout w
  = (Ok (JObj [("status", JNum 201);
               ("message", JStr "User Logged Out Successfully")]),
     with_auth (fun _ => AuthProvider.initial)
       (with_localStorage (fun st => delete "token" (delete "userId" st)) w)).
Proof. js_eval. reflexivity. Qed.

Lemma getData_eq (w : world) :
  AuthProvider.getData w
  = (Ok tt,
     if stored_present (localStorage w) "userId"
        && stored_present (localStorage w) "token"
     then with_auth
            (fun _ =>
               {| userId := JStr (JSON_quote
                                    (default ""%string (localStorage w !! "userId")));
                  token := JStr (default ""%string (localStorage w !! "token")) |})
            w
     else w).
Proof.
  unfold stored_present. js_eval.
  destruct (localStorage w !! "userId") as [su|];
    destruct (localStorage w !! "token") as [st|]; js_eval;
    repeat match goal with
      | |- context [String.eqb ?a ""] => destruct (String.eqb a "")
      end; js_eval; try reflexivity; destruct w; reflexivity.
Qed.

Lemma stored_present_delete_eq st k : stored_present (delete k st) k = false.
Proof. unfold stored_present. rewrite lookup_delete_eq. reflexivity. Qed.

Lemma stored_present_delete_ne st k k' :
  k <> k' -> stored_present (delete k st) k' = stored_present st k'.
Proof.
  intros H. unfold stored_present. rewrite lookup_delete_ne by exact H.
  reflexivity.
Qed.

(** ** Logout *)

(** X1. Logging out answers with status 201 without issuing a request,
    removes the two session keys from localStorage and nothing else,
    and resets the session in memory; a reload afterwards finds no
    session, and logging out again changes nothing more. *)
Theorem logout_then_reload_is_signed_out (w : world) :
  fst (AuthProvider.logout w)
  = Ok (JObj [("status", JNum 201);
              ("message", JStr "User Logged Out Successfully")])
  /\ auth (snd (AuthProvider.logout w)) = AuthProvider.initial
  /\ localStorage (snd (AuthProvider.logout w))
     = delete "token" (delete "userId" (localStorage w))
  /\ requests (snd (AuthProvider.logout w)) = requests w
  /\ auth (reload (snd (AuthProvider.logout w))) = AuthProvider.initial
  /\ localStorage (snd (AuthProvider.logout (snd (AuthProvider.logout w))))
     = localStorage (snd (AuthProvider.logout w)).
Proof.
  unfold reload. rewrite !logout_eq, getData_eq. world_fields.
  rewrite stored_present_delete_ne, stored_present_delete_eq by discriminate.
  cbn [andb]. world_fields.
  repeat (split; [reflexivity|]).
  rewrite (delete_delete _ "userId" "token"), !delete_delete_eq.
  reflexivity.
Qed.

(** ** Rehydration *)

(** X2. The mount effect restores a session only when both keys are
    stored and neither is empty: otherwise it changes nothing at all.
    When it does restore one, the token in memory is the stored string
    and the user id the stored string in JSON quotes.  It never writes
    to localStorage and never issues a request. *)
Theorem rehydration_needs_both_keys (w : world) :
  (stored_present (localStorage w) "userId"
   && stored_present (localStorage w) "token" = false ->
   AuthProvider.getData w = (Ok tt, w))
  /\ (forall su st : string,
        localStorage w !! "userId" = Some su ->
        localStorage w !! "token" = Some st ->
        su <> EmptyString -> st <> EmptyString ->
        auth (snd (AuthProvider.getData w))
        = {| userId := JStr (JSON_quote su); token := JStr st |})
  /\ localStorage (snd (AuthProvider.getData w)) = localStorage w
  /\ requests (snd (AuthProvider.getData w)) = requests w.
Proof.
  rewrite getData_eq. split; [|split].
  - intros ->. reflexivity.
  - intros su st Hu Ht Hsu Hst. unfold stored_present. rewrite Hu, Ht.
    apply String.eqb_neq in Hsu, Hst. rewrite Hsu, Hst. reflexivity.
  - destruct (stored_present (localStorage w) "userId"
              && stored_present (localStorage w) "token");
      split; reflexivity.
Qed.

Lemma rehydration_needs_both_keys_witness :
  AuthProvider.getData (fresh_world (<["userId" := "7"]> ∅))
  = (Ok tt, fresh_world (<["userId" := "7"]> ∅))
  /\ auth (snd (AuthProvider.getData
                  (fresh_world (<["token" := "t0k"]> (<["userId" := "7"]> ∅)))))
     = {| userId := JStr (JSON_quote "7"); token := JStr "t0k" |}.
Proof.
  split.
  - apply (proj1 (rehydration_needs_both_keys
                    (fresh_world (<["userId" := "7"]> ∅)))).
    reflexivity.
  - apply (proj1 (proj2 (rehydration_needs_both_keys
             (fresh_world (<["token" := "t0k"]> (<["userId" := "7"]> ∅)))))
             "7"%string "t0k"%string); try reflexivity; discriminate.
Defined.

(** ** Login, then reload *)

(** X3. After a successful login whose token is a non-empty string, a
    reload restores a session: the token in memory is again that token,
    and a user id is present. *)
Theorem token_survives_reload (api : api_client) (w : world)
    (postData response data u m : jsval) (tk : string) :
  truthy postData = true ->
  api_post api "/auth/login" postData = Ok response ->
  prop response "status" = Ok (JNum 200) ->
  prop response "data" = Ok data ->
  prop data "userId" = Ok u ->
  prop data "token" = Ok (JStr tk) ->
  prop data "message" = Ok m ->
  tk <> EmptyString ->
  token (auth (reload (snd (AuthProvider.login api postData w)))) = JStr tk
  /\ truthy (userId (auth (reload (snd (AuthProvider.login api postData w)))))
     = true.
Proof.
  intros Hp Hr Hs Hd Hu Ht Hm Htk. unfold reload.
  rewrite (login_success api w postData response data u (JStr tk) m)
    by assumption.
  rewrite getData_eq. world_fields. unfold stored_present.
  rewrite lookup_insert_ne by discriminate. rewrite !lookup_insert_eq.
  pose proof (stored_stringify_nonempty u) as Hne.
  apply String.eqb_neq in Hne, Htk. cbn [to_String]. rewrite Hne, Htk.
  cbn [negb andb]. world_fields. split; reflexivity.
Qed.

Lemma token_survives_reload_witness :
  token (auth (reload (snd (AuthProvider.login
    (accepting_api (JNum 7) (JStr "t0k")) (loginData_js alice)
    (fresh_world ∅)))))
  = JStr "t0k".
Proof.
  apply (token_survives_reload (accepting_api (JNum 7) (JStr "t0k"))
           (fresh_world ∅) (loginData_js alice)
           (response_of 200
              (login_payload (JNum 7) (JStr "t0k") (JStr "Login successful")))
           (login_payload (JNum 7) (JStr "t0k") (JStr "Login successful"))
           (JNum 7) (JStr "Login successful") "t0k"%string);
    try reflexivity.
  discriminate.
Defined.

(** ** Login: responses the server should not send, and rejections *)

(** X4. A response with status 200 but without a body (its data is
    [undefined] or [null]) is not a login: nothing is stored, the session
    is untouched, and the result is status 500 with the generic message. *)
Theorem login_200_without_body_fails (api : api_client) (w : world)
    (postData response data : jsval) :
  truthy postData = true ->
  api_post api "/auth/login" postData = Ok response ->
  prop response "status" = Ok (JNum 200) ->
  prop response "data" = Ok data ->
  is_nullish data = true ->
  AuthProvider.login api postData w
  = (Ok (JObj [("status", JNum 500);
               ("message", JStr "An error occurred during login")]),
     with_requests (fun rs => rs ++ [POST "/auth/login" postData]) w).
Proof.
  intros Hp Hr Hs Hd Hn. js_eval.
  rewrite Hp, (truthy_not_nullish _ Hp), Hr. js_eval. rewrite Hs. js_eval.
  rewrite Hd. js_eval. rewrite (prop_nullish data "userId" Hn). js_eval.
  reflexivity.
Qed.

Lemma login_200_without_body_fails_witness :
  AuthProvider.login (api_always (Ok (response_of 200 JNull)))
    (loginData_js alice) (fresh_world ∅)
  = (Ok (JObj [("status", JNum 500);
               ("message", JStr "An error occurred during login")]),
     with_requests (fun rs => rs ++ [POST "/auth/login" (loginData_js alice)])
       (fresh_world ∅)).
Proof.
  apply (login_200_without_body_fails (api_always (Ok (response_of 200 JNull)))
           (fresh_world ∅) (loginData_js alice) (response_of 200 JNull) JNull);
    reflexivity.
Defined.

(** X5. When the login request is rejected, the result carries the
    status and the message of the error's response where it has them,
    and status 500 with the generic message where the error has no
    response (the request never reached the server). *)
Theorem login_rejection_result (api : api_client) (w : world)
    (postData err : jsval) :
  truthy postData = true ->
  api_post api "/auth/login" postData = Throw err ->
  (forall (r d : jsval) (s : Z) (m : string),
      prop err "response" = Ok r ->
      optprop r "status" = JNum s -> s <> 0 ->
      optprop r "data" = d -> optprop d "message" = JStr m ->
      m <> EmptyString ->
      fst (AuthProvider.login api postData w)
      = Ok (JObj [("status", JNum s); ("message", JStr m)]))
  /\ (forall r : jsval,
        prop err "response" = Ok r -> is_nullish r = true ->
        fst (AuthProvider.login api postData w)
        = Ok (JObj [("status", JNum 500);
                    ("message", JStr "An error occurred during login")])).
Proof.
  intros Hp He. split.
  - intros r d s m Hr Hs Hs0 Hd Hm Hm0. js_eval.
    rewrite Hp, (truthy_not_nullish _ Hp), He. js_eval. rewrite Hr. js_eval.
    rewrite Hs, Hd, Hm. unfold js_or. cbn [truthy].
    apply Z.eqb_neq in Hs0. apply String.eqb_neq in Hm0. rewrite Hs0, Hm0.
    reflexivity.
  - intros r Hr Hn. js_eval.
    rewrite Hp, (truthy_not_nullish _ Hp), He. js_eval. rewrite Hr. js_eval.
    destruct r; try discriminate; reflexivity.
Qed.

Lemma login_rejection_result_witness :
  fst (AuthProvider.login
         (api_always (Throw (JObj [("response",
            response_of 401 (JObj [("message", JStr "Bad password")]))])))
         (loginData_js alice) (fresh_world ∅))
  = Ok (JObj [("status", JNum 401); ("message", JStr "Bad password")])
  /\ fst (AuthProvider.login (api_always (Throw network_error))
            (loginData_js alice) (fresh_world ∅))
     = Ok (JObj [("status", JNum 500);
                 ("message", JStr "An error occurred during login")]).
Proof.
  split.
  - apply (proj1 (login_rejection_result
             (api_always (Throw (JObj [("response",
                response_of 401 (JObj [("message", JStr "Bad password")]))])))
             (fresh_world ∅) (loginData_js alice) _ eq_refl eq_refl)
             (response_of 401 (JObj [("message", JStr "Bad password")]))
             (JObj [("message", JStr "Bad password")]) 401 "Bad password"%string);
      try reflexivity; discriminate.
  - apply (proj2 (login_rejection_result (api_always (Throw network_error))
             (fresh_world ∅) (loginData_js alice) _ eq_refl eq_refl)
             JUndefined); reflexivity.
Defined.

(** ** The request interceptor *)

Lemma assoc_set_eq (k : string) (v : jsval) (ps : list (string * jsval)) :
  assoc k (assoc_set k v ps) = Some v.
Proof.
  induction ps as [|[k' v'] ps IH]; cbn [assoc_set assoc].
  - rewrite String.eqb_refl. reflexivity.
  - destruct (String.eqb k k') eqn:Hk; cbn [assoc].
    + rewrite String.eqb_refl. reflexivity.
    + rewrite Hk. exact IH.
Qed.

Lemma assoc_set_ne (k k' : string) (v : jsval) (ps : list (string * jsval)) :
  k' <> k -> assoc k' (assoc_set k v ps) = assoc k' ps.
Proof.
  intros Hne. induction ps as [|[k0 v0] ps IH]; cbn [assoc_set assoc].
  - apply String.eqb_neq in Hne. rewrite Hne. reflexivity.
  - destruct (String.eqb k k0) eqn:Hk; cbn [assoc].
    + apply String.eqb_eq in Hk. subst k0.
      apply String.eqb_neq in Hne. rewrite Hne. reflexivity.
    + rewrite IH. reflexivity.
Qed.

Lemma requestInterceptor_eq (config : Api.request_config) (w : world) :
  Api.requestInterceptor config w
  = (Ok (if stored_present (localStorage w) "token"
         then {| Api.url := Api.url config;
                 Api.headers :=
                   assoc_set "Authorization"
                     (JStr ("Bearer " +:+ default ""%string
                                            (localStorage w !! "token")))
                     (Api.headers config) |}
         else config),
     w).
Proof.
  unfold stored_present. js_eval_more.
  destruct (localStorage w !! "token") as [st|]; js_eval_more; [|reflexivity].
  destruct (String.eqb st ""); reflexivity.
Qed.

(** X6. The interceptor never changes the world and never fails.  With
    no token stored (or an empty one) it passes the request on as it is;
    with a token stored it sets the Authorization header to the bearer
    token and leaves the target and every other header alone. *)
Theorem interceptor_attaches_stored_token (config : Api.request_config)
    (w : world) :
  snd (Api.requestInterceptor config w) = w
  /\ (stored_present (localStorage w) "token" = false ->
      fst (Api.requestInterceptor config w) = Ok config)
  /\ (forall tk : string,
        localStorage w !! "token" = Some tk -> tk <> EmptyString ->
        exists config',
          fst (Api.requestInterceptor config w) = Ok config'
          /\ Api.url config' = Api.url config
          /\ assoc "Authorization" (Api.headers config')
             = Some (JStr ("Bearer " +:+ tk))
          /\ forall k, k <> "Authorization" ->
               assoc k (Api.headers config') = assoc k (Api.headers config)).
Proof.
  rewrite requestInterceptor_eq. split; [reflexivity|]. split.
  - intros ->. reflexivity.
  - intros tk Ht Hne. unfold stored_present. rewrite Ht.
    apply String.eqb_neq in Hne. rewrite Hne. cbn [negb fst default from_option id].
    eexists. split; [reflexivity|]. cbn [Api.url Api.headers].
    split; [reflexivity|]. split; [apply assoc_set_eq|].
    intros k Hk. apply assoc_set_ne. exact Hk.
Qed.

Lemma interceptor_attaches_stored_token_witness :
  fst (Api.requestInterceptor tasks_request (fresh_world ∅)) = Ok tasks_request
  /\ exists config',
       fst (Api.requestInterceptor tasks_request logged_in_world) = Ok config'
       /\ assoc "Authorization" (Api.headers config')
          = Some (JStr "Bearer t0k").
Proof.
  split.
  - apply (proj1 (proj2 (interceptor_attaches_stored_token tasks_request
                           (fresh_world ∅)))).
    reflexivity.
  - destruct (proj2 (proj2 (interceptor_attaches_stored_token tasks_request
                              logged_in_world)) "t0k"%string eq_refl)
      as (config' & H1 & _ & H2 & _); [discriminate|].
    exists config'. split; assumption.
Defined.

(** X7. The bearer token follows the session in the store.  After a
    successful login every request carries [Bearer] followed by the text
    of the token the server sent, and still does after a reload; after a
    logout requests carry no header of the interceptor's. *)
Theorem bearer_follows_login_and_logout (api : api_client) (w : world)
    (postData response data u t m : jsval) (config : Api.request_config) :
  truthy postData = true ->
  api_post api "/auth/login" postData = Ok response ->
  prop response "status" = Ok (JNum 200) ->
  prop response "data" = Ok data ->
  prop data "userId" = Ok u ->
  prop data "token" = Ok t ->
  prop data "message" = Ok m ->
  to_String t <> EmptyString ->
  let w1 := snd (AuthProvider.login api postData w) in
  let authorized :=
    {| Api.url := Api.url config;
       Api.headers := assoc_set "Authorization"
                        (JStr ("Bearer " +:+ to_String t))
                        (Api.headers config) |} in
  fst (Api.requestInterceptor config w1) = Ok authorized
  /\ fst (Api.requestInterceptor config (reload w1)) = Ok authorized
  /\ fst (Api.requestInterceptor config (snd (AuthProvider.logout w1)))
     = Ok config.
Proof.
  intros Hp Hr Hs Hd Hu Ht Hm Hne w1 authorized. subst w1 authorized.
  rewrite (login_success api w postData response data u t m) by assumption.
  unfold reload. rewrite !requestInterceptor_eq, logout_eq, getData_eq.
  world_fields. unfold stored_present. 
  rewrite (lookup_insert_ne _ "token" "userId") by discriminate. 
  rewrite !lookup_insert_eq. rewrite lookup_delete_eq. 
  pose proof (stored_stringify_nonempty u) as Hsu.
  apply String.eqb_neq in Hne, Hsu. rewrite Hne, Hsu.
  cbn [negb andb fst default from_option id]. world_fields.
  rewrite lookup_insert_eq, Hne. cbv beta iota delta [negb default from_option id].
  split; [reflexivity|]. split; reflexivity.
Qed.

Lemma bearer_follows_login_and_logout_witness :
  fst (Api.requestInterceptor tasks_request
         (snd (AuthProvider.login (accepting_api (JNum 7) (JStr "t0k"))
                 (loginData_js alice) (fresh_world ∅))))
  = Ok {| Api.url := Api.url tasks_request;
          Api.headers := assoc_set "Authorization"
                           (JStr ("Bearer " +:+ to_String (JStr "t0k")))
                           (Api.headers tasks_request) |}.
Proof.
  refine (proj1 (bearer_follows_login_and_logout
           (accepting_api (JNum 7) (JStr "t0k"))
           (fresh_world ∅) (loginData_js alice)
           (response_of 200
              (login_payload (JNum 7) (JStr "t0k") (JStr "Login successful")))
           (login_payload (JNum 7) (JStr "t0k") (JStr "Login successful"))
           (JNum 7) (JStr "t0k") (JStr "Login successful") tasks_request
           eq_refl eq_refl eq_refl eq_refl eq_refl eq_refl eq_refl _)).
  discriminate.
Defined.

(** ** The login page: what is sent and what is shown *)

(** A login with credentials issues exactly one request. *)
Lemma login_requests (api : api_client) (w : world) (postData : jsval) :
  truthy postData = true ->
  requests (snd (AuthProvider.login api postData w))
  = requests w ++ [POST "/auth/login" postData].
Proof.
  intros Hp.
  destruct (api_post api "/auth/login" postData) as [response|err] eqn:Hr.
  - destruct (prop response "status") as [st|e] eqn:Hs.
    + destruct (strict_eq_num st 200) eqn:H200.
      * destruct st; try discriminate. apply Z.eqb_eq in H200. subst z.
        destruct (prop response "data") as [data|e] eqn:Hd.
        -- destruct (is_nullish data) eqn:Hn.
           ++ js_eval. rewrite Hp, (truthy_not_nullish _ Hp), Hr. js_eval.
              rewrite Hs. js_eval. rewrite Hd. js_eval.
              rewrite (prop_nullish data "userId" Hn). js_eval. reflexivity.
           ++ destruct (prop_defined data "userId" Hn) as [u Hu].
              destruct (prop_defined data "token" Hn) as [t Ht].
              destruct (prop_defined data "message" Hn) as [m Hm].
              rewrite (login_success api w postData response data u t m)
                by assumption.
              reflexivity.
        -- type_errors. js_eval.
           rewrite Hp, (truthy_not_nullish _ Hp), Hr. js_eval.
           rewrite Hs. js_eval. rewrite (prop_nullish response "data" Hnullish).
           js_eval. reflexivity.
      * destruct (login_resolved_not_200 api w postData response Hp Hr)
          as (s & m & -> & _); [|reflexivity].
        rewrite Hs. intros [= ->]. discriminate.
    + destruct (login_resolved_not_200 api w postData response Hp Hr)
        as (s & m & -> & _); [|reflexivity].
      rewrite Hs. discriminate.
  - js_eval. rewrite Hp, (truthy_not_nullish _ Hp), Hr. js_eval.
    destruct (prop err "response"); reflexivity.
Qed.

(** X8. A login submission with both fields filled in issues exactly
    one request, whatever the server answers, and that request carries
    the user name and the password exactly as typed: the form trims them
    to validate, not to send. *)
Theorem login_submit_sends_credentials_as_typed (api : api_client)
    (w : world) (d : login_data) :
  all_space (login_username d) = false ->
  all_space (login_password d) = false ->
  requests (snd (Login.handleSubmit api d w))
  = requests w
    ++ [POST "/auth/login"
          (JObj [("username", JStr (login_username d));
                 ("password", JStr (login_password d))])].
Proof.
  intros Hu Hp. unfold Login.handleSubmit. rewrite !blank_all_space, Hu, Hp.
  cbn [orb]. unfold try_catch, mbind, M_bind, bind.
  pose proof (login_requests api w (loginData_js d) eq_refl) as Hreq.
  change (JObj [("username", JStr (login_username d));
                ("password", JStr (login_password d))])
    with (loginData_js d).
  destruct (AuthProvider.login api (loginData_js d) w) as [[r|e] w1].
  - cbn [snd] in Hreq. rewrite <- Hreq. js_eval.
    repeat (split_scrutinee; js_eval); reflexivity.
  - cbn [snd] in Hreq. rewrite <- Hreq. js_eval.
    repeat (split_scrutinee; js_eval); reflexivity.
Qed.

Lemma login_submit_sends_credentials_as_typed_witness :
  requests (snd (Login.handleSubmit (api_always (Throw network_error))
                   {| login_username := " alice "; login_password := "pw " |}
                   (fresh_world ∅)))
  = [] ++ [POST "/auth/login"
             (JObj [("username", JStr " alice "); ("password", JStr "pw ")])].
Proof.
  apply (login_submit_sends_credentials_as_typed
           (api_always (Throw network_error)) (fresh_world ∅)
           {| login_username := " alice "; login_password := "pw " |});
    reflexivity.
Defined.

(** What the page shows for each result of [login] that is an object
    with a status other than 200 and a message. *)
Lemma login_page_text (api : api_client) (w : world) (d : login_data)
    (status message : jsval) (w1 : world) :
  all_space (login_username d) = false ->
  all_space (login_password d) = false ->
  AuthProvider.login api (loginData_js d) w
  = (Ok (JObj [("status", status); ("message", message)]), w1) ->
  strict_eq_num status 200 = false ->
  login_page (snd (Login.handleSubmit api d w))
  = {| isError := true; isSuccess := isSuccess (login_page w1);
       resultText := if strict_eq_num status 500 then message
                     else JStr "An error occurred during signup" |}.
Proof.
  intros Hu Hp Hl Hs.
  unfold Login.handleSubmit. rewrite !blank_all_space, Hu, Hp.
  cbn [orb]. unfold try_catch, mbind, M_bind, bind. rewrite Hl.
  js_eval. rewrite Hs. destruct (strict_eq_num status 500); js_eval; reflexivity.
Qed.

Lemma login_rejected_eq (api : api_client) (w : world)
    (postData err r : jsval) :
  truthy postData = true ->
  api_post api "/auth/login" postData = Throw err ->
  prop err "response" = Ok r ->
  AuthProvider.login api postData w
  = (Ok (JObj [("status", js_or (optprop r "status") (JNum 500));
               ("message",
                 js_or (optprop (optprop r "data") "message")
                   (JStr "An error occurred during login"))]),
     with_requests (fun rs => rs ++ [POST "/auth/login" postData]) w).
Proof.
  intros Hp He Hr. js_eval. rewrite Hp, (truthy_not_nullish _ Hp), He. js_eval.
  rewrite Hr. js_unfold. reflexivity.
Qed.

(** X9. What the login page shows when the request is rejected.  If the
    error has no response, the page shows the message of [login],
    [An error occurred during login].  If the error carries a response
    with a status other than 200 and 500, the page shows the fixed text
    [An error occurred during signup], whatever message the server sent.
    Either way it is shown as an error and nothing is stored. *)
Theorem login_page_text_on_rejection (api : api_client) (w : world)
    (d : login_data) (err r : jsval) :
  all_space (login_username d) = false ->
  all_space (login_password d) = false ->
  api_post api "/auth/login" (loginData_js d) = Throw err ->
  prop err "response" = Ok r ->
  (is_nullish r = true ->
   login_page (snd (Login.handleSubmit api d w))
   = {| isError := true; isSuccess := isSuccess (login_page w);
        resultText := JStr "An error occurred during login" |})
  /\ (forall s : Z,
        optprop r "status" = JNum s -> s <> 0 -> s <> 200 -> s <> 500 ->
        login_page (snd (Login.handleSubmit api d w))
        = {| isError := true; isSuccess := isSuccess (login_page w);
             resultText := JStr "An error occurred during signup" |})
  /\ localStorage (snd (Login.handleSubmit api d w)) = localStorage w
  /\ auth (snd (Login.handleSubmit api d w)) = auth w.
Proof.
  intros Hu Hp He Hr.
  pose proof (login_rejected_eq api w (loginData_js d) err r eq_refl He Hr) as Hl.
  split; [|split].
  - intros Hn.
    rewrite (login_page_text api w d _ _ _ Hu Hp Hl).
    + destruct r; try discriminate; reflexivity.
    + destruct r; try discriminate; reflexivity.
  - intros s Hs H0 H200 H500.
    rewrite (login_page_text api w d _ _ _ Hu Hp Hl); rewrite Hs;
      unfold js_or; cbn [truthy strict_eq_num];
      apply Z.eqb_neq in H0, H200, H500; rewrite H0; cbn [negb strict_eq_num];
      rewrite ?H200, ?H500; reflexivity.
  - unfold Login.handleSubmit. rewrite !blank_all_space, Hu, Hp.
    cbn [orb]. unfold try_catch, mbind, M_bind, bind. rewrite Hl.
    js_eval. repeat (split_scrutinee; js_eval); split; reflexivity.
Qed.

Lemma login_page_text_on_rejection_witness :
  login_page (snd (Login.handleSubmit (api_always (Throw network_error)) alice
                     (fresh_world ∅)))
  = {| isError := true; isSuccess := isSuccess (login_page (fresh_world ∅));
       resultText := JStr "An error occurred during login" |}
  /\ login_page (snd (Login.handleSubmit
       (api_always (Throw (JObj [("response",
          response_of 401 (JObj [("message", JStr "Bad password")]))])))
       alice (fresh_world ∅)))
     = {| isError := true; isSuccess := isSuccess (login_page (fresh_world ∅));
          resultText := JStr "An error occurred during signup" |}.
Proof.
  split.
  - refine (proj1 (login_page_text_on_rejection
             (api_always (Throw network_error)) (fresh_world ∅) alice
             network_error JUndefined eq_refl eq_refl eq_refl eq_refl) eq_refl).
  - refine (proj1 (proj2 (login_page_text_on_rejection
             (api_always (Throw (JObj [("response",
                response_of 401 (JObj [("message", JStr "Bad password")]))])))
             (fresh_world ∅) alice _
             (response_of 401 (JObj [("message", JStr "Bad password")]))
             eq_refl eq_refl eq_refl eq_refl)) 401 eq_refl _ _ _);
      discriminate.
Defined.

(** ** The sign-up page *)

Lemma signup_valid (d : signup_data) (c : string) :
  all_space (su_username d) = false -> all_space (su_email d) = false ->
  all_space (su_password d) = false -> all_space c = false ->
  blank (su_username d) || blank (su_email d)
  || blank (su_password d) || blank c = false.
Proof. intros H1 H2 H3 H4. rewrite !blank_all_space, H1, H2, H3, H4. reflexivity. Qed.

Lemma signup_success_eq (api : api_client) (w : world)
    (d : signup_data) (response data m : jsval) :
  all_space (su_username d) = false -> all_space (su_email d) = false ->
  all_space (su_password d) = false ->
  api_post api "/auth/sign-up" (newData_js d) = Ok response ->
  prop response "status" = Ok (JNum 200) ->
  prop response "data" = Ok data ->
  prop data "message" = Ok m ->
  SignUp.handleSubmit api d (su_password d) w
  = (Ok tt,
     with_timers (fun ts => ts ++ [(3000, SignUpSuccessTimeout)])
       (with_signup_page
          (fun p => {| isError := isError p; isSuccess := true;
                       resultText := m |})
          (with_requests
             (fun rs => rs ++ [POST "/auth/sign-up" (newData_js d)]) w))).
Proof.
  intros H1 H2 H3 Hr Hs Hd Hm.
  unfold SignUp.handleSubmit.
  rewrite (signup_valid d (su_password d) H1 H2 H3 H3), String.eqb_refl.
  cbn [negb]. unfold try_catch, mbind, M_bind, bind, post. rewrite Hr.
  unfold eval. rewrite Hs. cbn [strict_eq_num Z.eqb Pos.eqb].
  rewrite Hd, Hm. reflexivity.
Qed.

(** X10. A valid sign-up that the server answers with status 200 sends
    the seven fields of the form data (not the confirmation) in one
    request, shows the server's message as a success and registers the
    3000 ms timer; it stores nothing and opens no session.  When the
    timer fires the message is cleared and the page moves to the login
    route. *)
Theorem signup_success_redirects_to_login (api : api_client) (w : world)
    (d : signup_data) (response data m : jsval) :
  all_space (su_username d) = false -> all_space (su_email d) = false ->
  all_space (su_password d) = false ->
  api_post api "/auth/sign-up" (newData_js d) = Ok response ->
  prop response "status" = Ok (JNum 200) ->
  prop response "data" = Ok data ->
  prop data "message" = Ok m ->
  let w' := snd (SignUp.handleSubmit api d (su_password d) w) in
  requests w' = requests w ++ [POST "/auth/sign-up" (newData_js d)]
  /\ signup_page w'
     = {| isError := isError (signup_page w); isSuccess := true;
          resultText := m |}
  /\ timers w' = timers w ++ [(3000, SignUpSuccessTimeout)]
  /\ localStorage w' = localStorage w /\ auth w' = auth w
  /\ navigations w' = navigations w
  /\ navigations (snd (run_callback SignUpSuccessTimeout w'))
     = navigations w ++ ["/auth/login"%string]
  /\ signup_page (snd (run_callback SignUpSuccessTimeout w'))
     = {| isError := isError (signup_page w); isSuccess := false;
          resultText := JStr "" |}.
Proof.
  intros H1 H2 H3 Hr Hs Hd Hm w'. subst w'.
  rewrite (signup_success_eq api w d response data m) by assumption.
  cbn [snd]. repeat split.
Qed.

Lemma signup_success_redirects_to_login_witness :
  navigations (snd (run_callback SignUpSuccessTimeout
    (snd (SignUp.handleSubmit
            (api_always (Ok (response_of 200
               (JObj [("message", JStr "Account created")]))))
            bob (su_password bob) (fresh_world ∅)))))
  = navigations (fresh_world ∅) ++ ["/auth/login"%string].
Proof.
  refine (proj1 (proj2 (proj2 (proj2 (proj2 (proj2 (proj2
    (signup_success_redirects_to_login
       (api_always (Ok (response_of 200
          (JObj [("message", JStr "Account created")]))))
       (fresh_world ∅) bob
       (response_of 200 (JObj [("message", JStr "Account created")]))
       (JObj [("message", JStr "Account created")])
       (JStr "Account created")
       eq_refl eq_refl eq_refl eq_refl eq_refl eq_refl eq_refl)))))))).
Defined.

Lemma signup_rejection_eq (api : api_client) (w : world)
    (d : signup_data) (err r : jsval) :
  all_space (su_username d) = false -> all_space (su_email d) = false ->
  all_space (su_password d) = false ->
  api_post api "/auth/sign-up" (newData_js d) = Throw err ->
  prop err "response" = Ok r ->
  SignUp.handleSubmit api d (su_password d) w
  = (Ok tt,
     with_timers (fun ts => ts ++ [(5000, SignUpErrorTimeout)])
       (with_signup_page
          (fun p => {| isError := true; isSuccess := isSuccess p;
                       resultText :=
                         js_or (optprop (optprop r "data") "message")
                           (JStr "An error occurred during signup") |})
          (with_requests
             (fun rs => rs ++ [POST "/auth/sign-up" (newData_js d)]) w))).
Proof.
  intros H1 H2 H3 He Hr.
  unfold SignUp.handleSubmit.
  rewrite (signup_valid d (su_password d) H1 H2 H3 H3), String.eqb_refl.
  cbn [negb]. unfold try_catch, mbind, M_bind, bind, post. rewrite He.
  unfold eval. rewrite Hr. reflexivity.
Qed.

(** X11. A valid sign-up whose request is rejected shows an error: the
    message of the error's response if it has one, the fixed text
    [An error occurred during signup] otherwise.  It registers the
    5000 ms timer, which clears the error without leaving the page. *)
Theorem signup_rejection_shows_error (api : api_client) (w : world)
    (d : signup_data) (err r : jsval) :
  all_space (su_username d) = false -> all_space (su_email d) = false ->
  all_space (su_password d) = false ->
  api_post api "/auth/sign-up" (newData_js d) = Throw err ->
  prop err "response" = Ok r ->
  let w' := snd (SignUp.handleSubmit api d (su_password d) w) in
  isError (signup_page w') = true
  /\ isSuccess (signup_page w') = isSuccess (signup_page w)
  /\ (forall m : string,
        optprop (optprop r "data") "message" = JStr m -> m <> EmptyString ->
        resultText (signup_page w') = JStr m)
  /\ (is_nullish r = true ->
      resultText (signup_page w') = JStr "An error occurred during signup")
  /\ timers w' = timers w ++ [(5000, SignUpErrorTimeout)]
  /\ navigations (snd (run_callback SignUpErrorTimeout w')) = navigations w
  /\ isError (signup_page (snd (run_callback SignUpErrorTimeout w'))) = false.
Proof.
  intros H1 H2 H3 He Hr w'. subst w'.
  rewrite (signup_rejection_eq api w d err r) by assumption.
  cbn [snd]. split; [reflexivity|]. split; [reflexivity|]. split; [|split].
  - intros m Hm Hne. world_fields. cbn [resultText]. rewrite Hm.
    unfold js_or. cbn [truthy].
    apply String.eqb_neq in Hne. rewrite Hne. reflexivity.
  - intros Hn. destruct r; try discriminate; reflexivity.
  - repeat split.
Qed.

Lemma signup_rejection_shows_error_witness :
  resultText (signup_page (snd (SignUp.handleSubmit
    (api_always (Throw (JObj [("response",
       response_of 409 (JObj [("message", JStr "Username taken")]))])))
    bob (su_password bob) (fresh_world ∅))))
  = JStr "Username taken"
  /\ resultText (signup_page (snd (SignUp.handleSubmit
       (api_always (Throw network_error)) bob (su_password bob)
       (fresh_world ∅))))
     = JStr "An error occurred during signup".
Proof.
  split.
  - refine (proj1 (proj2 (proj2 (signup_rejection_shows_error
      (api_always (Throw (JObj [("response",
         response_of 409 (JObj [("message", JStr "Username taken")]))])))
      (fresh_world ∅) bob _
      (response_of 409 (JObj [("message", JStr "Username taken")]))
      eq_refl eq_refl eq_refl eq_refl eq_refl)))
      "Username taken"%string eq_refl _).
    discriminate.
  - refine (proj1 (proj2 (proj2 (proj2 (signup_rejection_shows_error
      (api_always (Throw network_error)) (fresh_world ∅) bob network_error
      JUndefined eq_refl eq_refl eq_refl eq_refl eq_refl)))) eq_refl).
Defined.

(** ** Form state *)

Lemma last_value_cons (name : string) (e : change_event)
    (events : list change_event) (dflt : string) :
  last_value name (e :: events) dflt
  = last_value name events (if String.eqb (fst e) name then snd e else dflt).
Proof. reflexivity. Qed.

Lemma login_form_changes (events : list change_event) :
  forall d : login_data,
    Forall (fun e => In (fst e) ["username"; "password"]%string) events ->
    fold_left LoginForm.handleChange events (loginData_js d)
    = loginData_js
        {| login_username := last_value "username" events (login_username d);
           login_password := last_value "password" events (login_password d) |}.
Proof.
  induction events as [|[n v] events IH]; intros d Hall.
  - destruct d; reflexivity.
  - apply Forall_cons in Hall as [Hn Hall]. cbn [fold_left].
    rewrite !last_value_cons. cbn [fst snd] in *.
    destruct Hn as [<- | [<- | []]].
    + exact (IH {| login_username := v; login_password := login_password d |}
               Hall).
    + exact (IH {| login_username := login_username d; login_password := v |}
               Hall).
Qed.

(** X12. However the user types into the two inputs of the login form,
    the form data stays an object with exactly the properties username
    and password, in that order, each holding the value last typed into
    its input (the empty string if none was). *)
Theorem login_form_holds_last_values (events : list change_event) :
  Forall (fun e => In (fst e) ["username"; "password"]%string) events ->
  fold_left LoginForm.handleChange events LoginForm.initial
  = JObj [("username", JStr (last_value "username" events ""));
          ("password", JStr (last_value "password" events ""))].
Proof.
  intros Hall.
  apply (login_form_changes events
           {| login_username := ""; login_password := "" |} Hall).
Qed.

Lemma login_form_holds_last_values_witness :
  fold_left LoginForm.handleChange
    [("username", "a"); ("password", "pw"); ("username", "alice")]%string
    LoginForm.initial
  = JObj [("username", JStr (last_value "username"
             [("username", "a"); ("password", "pw"); ("username", "alice")]%string
             ""));
          ("password", JStr (last_value "password"
             [("username", "a"); ("password", "pw"); ("username", "alice")]%string
             ""))].
Proof.
  apply login_form_holds_last_values.
  repeat constructor; cbn; tauto.
Defined.

Lemma task_form_changes (events : list change_event) :
  forall d : task_draft,
    Forall (fun e => In (fst e)
                       ["title"; "description"; "dueDate"; "priority"]%string)
      events ->
    fold_left NewTask.handleChange events (taskData_js d)
    = taskData_js
        {| title := last_value "title" events (title d);
           description := last_value "description" events (description d);
           dueDate := last_value "dueDate" events (dueDate d);
           priority := last_value "priority" events (priority d) |}.
Proof.
  induction events as [|[n v] events IH]; intros d Hall.
  - destruct d; reflexivity.
  - apply Forall_cons in Hall as [Hn Hall]. cbn [fold_left].
    rewrite !last_value_cons. cbn [fst snd] in *.
    destruct Hn as [<- | [<- | [<- | [<- | []]]]].
    + exact (IH {| title := v; description := description d;
                   dueDate := dueDate d; priority := priority d |} Hall).
    + exact (IH {| title := title d; description := v;
                   dueDate := dueDate d; priority := priority d |} Hall).
    + exact (IH {| title := title d; description := description d;
                   dueDate := v; priority := priority d |} Hall).
    + exact (IH {| title := title d; description := description d;
                   dueDate := dueDate d; priority := v |} Hall).
Qed.

(** X13. However the user fills in the NewTask form, the draft it
    submits is an object with exactly the properties title, description,
    dueDate and priority, each holding the value last given to its input;
    an input never touched keeps its initial value, the empty string, or
    [medium] for the priority. *)
Theorem task_form_holds_last_values (events : list change_event) :
  Forall (fun e => In (fst e)
                     ["title"; "description"; "dueDate"; "priority"]%string)
    events ->
  fold_left NewTask.handleChange events NewTask.initial
  = JObj [("title", JStr (last_value "title" events ""));
          ("description", JStr (last_value "description" events ""));
          ("dueDate", JStr (last_value "dueDate" events ""));
          ("priority", JStr (last_value "priority" events "medium"))].
Proof.
  intros Hall.
  apply (task_form_changes events
           {| title := ""; description := ""; dueDate := "";
              priority := "medium" |} Hall).
Qed.

Lemma task_form_holds_last_values_witness :
  fold_left NewTask.handleChange
    [("title", "Buy milk"); ("dueDate", "2024-01-01")]%string NewTask.initial
  = JObj [("title", JStr (last_value "title"
             [("title", "Buy milk"); ("dueDate", "2024-01-01")]%string ""));
          ("description", JStr (last_value "description"
             [("title", "Buy milk"); ("dueDate", "2024-01-01")]%string ""));
          ("dueDate", JStr (last_value "dueDate"
             [("title", "Buy milk"); ("dueDate", "2024-01-01")]%string ""));
          ("priority", JStr (last_value "priority"
             [("title", "Buy milk"); ("dueDate", "2024-01-01")]%string
             "medium"))].
Proof.
  apply task_form_holds_last_values.
  repeat constructor; cbn; tauto.
Defined.

Lemma signup_form_changes (events : list change_event) :
  forall (d : signup_data) (c : string),
    Forall (fun e => In (fst e)
                       ["username"; "email"; "password"; "confPassword"]%string)
      events ->
    fold_left SignUpForm.handleChange events (newData_js d, c)
    = (newData_js
         {| su_username := last_value "username" events (su_username d);
            su_email := last_value "email" events (su_email d);
            su_firstName := su_firstName d;
            su_lastName := su_lastName d;
            su_password := last_value "password" events (su_password d);
            su_role := su_role d;
            su_phoneNumber := su_phoneNumber d |},
       last_value "confPassword" events c).
Proof.
  induction events as [|[n v] events IH]; intros d c Hall.
  - destruct d; reflexivity.
  - apply Forall_cons in Hall as [Hn Hall]. cbn [fold_left].
    rewrite !last_value_cons. cbn [fst snd] in *.
    destruct Hn as [<- | [<- | [<- | [<- | []]]]].
    + exact (IH {| su_username := v; su_email := su_email d;
                   su_firstName := su_firstName d; su_lastName := su_lastName d;
                   su_password := su_password d; su_role := su_role d;
                   su_phoneNumber := su_phoneNumber d |} c Hall).
    + exact (IH {| su_username := su_username d; su_email := v;
                   su_firstName := su_firstName d; su_lastName := su_lastName d;
                   su_password := su_password d; su_role := su_role d;
                   su_phoneNumber := su_phoneNumber d |} c Hall).
    + exact (IH {| su_username := su_username d; su_email := su_email d;
                   su_firstName := su_firstName d; su_lastName := su_lastName d;
                   su_password := v; su_role := su_role d;
                   su_phoneNumber := su_phoneNumber d |} c Hall).
    + exact (IH d v Hall).
Qed.

(** X14. However the user fills in the four inputs of the sign-up form,
    the confirmation is kept apart from the form data: the data stays an
    object with the seven registration properties, its user name, email
    and password holding the values last typed, the role still [user]
    and the names and the phone number still empty, and it never gains a
    property for the confirmation. *)
Theorem signup_form_keeps_confirmation_apart (events : list change_event) :
  Forall (fun e => In (fst e)
                     ["username"; "email"; "password"; "confPassword"]%string)
    events ->
  fold_left SignUpForm.handleChange events SignUpForm.initial
  = (JObj [("username", JStr (last_value "username" events ""));
           ("email", JStr (last_value "email" events ""));
           ("firstName", JStr "");
           ("lastName", JStr "");
           ("password", JStr (last_value "password" events ""));
           ("role", JStr "user");
           ("phoneNumber", JStr "")],
     last_value "confPassword" events "").
Proof.
  intros Hall.
  apply (signup_form_changes events
           {| su_username := ""; su_email := ""; su_firstName := "";
              su_lastName := ""; su_password := ""; su_role := "user";
              su_phoneNumber := "" |} ""%string Hall).
Qed.

Lemma signup_form_keeps_confirmation_apart_witness :
  fold_left SignUpForm.handleChange
    [("username", "bob"); ("confPassword", "pw")]%string SignUpForm.initial
  = (JObj [("username", JStr (last_value "username"
              [("username", "bob"); ("confPassword", "pw")]%string ""));
           ("email", JStr (last_value "email"
              [("username", "bob"); ("confPassword", "pw")]%string ""));
           ("firstName", JStr "");
           ("lastName", JStr "");
           ("password", JStr (last_value "password"
              [("username", "bob"); ("confPassword", "pw")]%string ""));
           ("role", JStr "user");
           ("phoneNumber", JStr "")],
     last_value "confPassword"
       [("username", "bob"); ("confPassword", "pw")]%string "").
Proof.
  apply signup_form_keeps_confirmation_apart.
  repeat constructor; cbn; tauto.
Defined.

(** ** The ephemeral task store *)

Lemma persisted_tasks_unset (st : gmap string string) :
  st !! Dashboard.TEMP_TASKS_KEY = None -> persisted_tasks st = Ok (JArr []).
Proof. intros H. unfold persisted_tasks. rewrite H. reflexivity. Qed.

(** X15. The unload listener empties the ephemeral store: the list then
    reads as empty.  It removes that key only (the session keys stay),
    leaves the session and the displayed dashboard as they are, issues no
    request, and running it again changes nothing. *)
Theorem unload_empties_ephemeral_store (w : world) :
  persisted_tasks (localStorage (snd (Dashboard.clearTasksOnUnload w)))
  = Ok (JArr [])
  /\ localStorage (snd (Dashboard.clearTasksOnUnload w)) !! "userId"
     = localStorage w !! "userId"
  /\ localStorage (snd (Dashboard.clearTasksOnUnload w)) !! "token"
     = localStorage w !! "token"
  /\ auth (snd (Dashboard.clearTasksOnUnload w)) = auth w
  /\ dash (snd (Dashboard.clearTasksOnUnload w)) = dash w
  /\ requests (snd (Dashboard.clearTasksOnUnload w)) = requests w
  /\ localStorage (snd (Dashboard.clearTasksOnUnload
                          (snd (Dashboard.clearTasksOnUnload w))))
     = localStorage (snd (Dashboard.clearTasksOnUnload w)).
Proof.
  unfold Dashboard.clearTasksOnUnload, removeItem, effect. world_fields.
  split; [apply persisted_tasks_unset, lookup_delete_eq|].
  split; [apply lookup_delete_ne; discriminate|].
  split; [apply lookup_delete_ne; discriminate|].
  repeat (split; [reflexivity|]). apply delete_delete_eq.
Qed.

(** The task list an anonymous submission shows is the list it stored. *)
Lemma anonymous_submit_shows (api : api_client) (w : world) (now : Z)
    (d : task_draft) (v : jsval) (l : list jsval) :
  truthy (userId (auth w)) = false ->
  persisted_tasks (localStorage w) = Ok v ->
  array_spread v = Ok l ->
  tasks (userData (dash (snd (Dashboard.handleTaskSubmit api now
                                (taskData_js d) w))))
  = JArr (l ++ [ephemeral_task now d]).
Proof.
  intros Hu Hp Hl. rewrite (anonymous_submit api w now d v l Hu Hp Hl).
  reflexivity.
Qed.

Lemma anonymous_run (api : api_client) (subs : list (Z * task_draft)) :
  forall (w : world) (l : list jsval),
    truthy (userId (auth w)) = false ->
    persisted_tasks (localStorage w) = Ok (JArr l) ->
    persisted_tasks (localStorage (submit_all api subs w))
    = Ok (JArr (l ++ map (fun sub => ephemeral_task (fst sub) (snd sub)) subs))
    /\ requests (submit_all api subs w) = requests w
    /\ (subs <> [] ->
        tasks (userData (dash (submit_all api subs w)))
        = JArr (l ++ map (fun sub => ephemeral_task (fst sub) (snd sub)) subs)).
Proof.
  induction subs as [|[now d] subs IH]; intros w l Hu Hp.
  - cbn [submit_all fold_left map]. rewrite app_nil_r.
    split; [exact Hp|]. split; [reflexivity | congruence].
  - cbn [submit_all fold_left map fst snd].
    destruct (anonymous_submit_reads_back api w now d (JArr l) l Hu Hp eq_refl)
      as (Hp' & Ha & Hr).
    pose proof (anonymous_submit_shows api w now d (JArr l) l Hu Hp eq_refl)
      as Hshow.
    fold (submit_all api subs
            (snd (Dashboard.handleTaskSubmit api now (taskData_js d) w))).
    destruct (IH _ _ (eq_trans (f_equal (fun s => truthy (userId s)) Ha) Hu) Hp')
      as (Hq & Hreq & Hdisp).
    rewrite Hq, Hreq, Hr, <- app_assoc. split; [reflexivity|].
    split; [reflexivity|]. intros _.
    destruct subs as [|sub subs].
    + cbn [submit_all fold_left map]. exact Hshow.
    + rewrite Hdisp by discriminate. rewrite <- app_assoc. reflexivity.
Qed.

(** X16. With no session and a stored list that reads as [l], a run of
    submissions persists [l] followed by one task per submission, in
    order, each made of its draft and of the clock reading of its
    submission; the dashboard shows that same list, and no request is
    issued. *)
Theorem anonymous_run_persists_every_task (api : api_client)
    (subs : list (Z * task_draft)) (w : world) (l : list jsval) :
  truthy (userId (auth w)) = false ->
  persisted_tasks (localStorage w) = Ok (JArr l) ->
  persisted_tasks (localStorage (submit_all api subs w))
  = Ok (JArr (l ++ map (fun sub => ephemeral_task (fst sub) (snd sub)) subs))
  /\ requests (submit_all api subs w) = requests w
  /\ (subs <> [] ->
      tasks (userData (dash (submit_all api subs w)))
      = JArr (l ++ map (fun sub => ephemeral_task (fst sub) (snd sub)) subs)).
Proof. apply anonymous_run. Qed.

Lemma anonymous_run_persists_every_task_witness :
  persisted_tasks (localStorage (submit_all (api_always (Throw network_error))
                                   [(1000, buy_milk); (1001, buy_eggs)]
                                   (fresh_world ∅)))
  = Ok (JArr ([] ++ map (fun sub => ephemeral_task (fst sub) (snd sub))
                      [(1000, buy_milk); (1001, buy_eggs)])).
Proof.
  refine (proj1 (anonymous_run_persists_every_task
                   (api_always (Throw network_error))
                   [(1000, buy_milk); (1001, buy_eggs)] (fresh_world ∅) []
                   eq_refl eq_refl)).
Defined.

(** X17. In such a run the identifiers of the new tasks are the clock
    readings of their submissions, so they are pairwise distinct exactly
    when those readings are. *)
Theorem identifiers_distinct_iff_readings_distinct (api : api_client)
    (subs : list (Z * task_draft)) (w : world) (l : list jsval) :
  truthy (userId (auth w)) = false ->
  persisted_tasks (localStorage w) = Ok (JArr l) ->
  exists new : list jsval,
    persisted_tasks (localStorage (submit_all api subs w)) = Ok (JArr (l ++ new))
    /\ map (fun t => prop t "id") new
       = map (fun sub => Ok (JNum (fst sub))) subs
    /\ (NoDup (map (fun t => prop t "id") new) <-> NoDup (map fst subs)).
Proof.
  intros Hu Hp.
  exists (map (fun sub => ephemeral_task (fst sub) (snd sub)) subs).
  split; [apply (anonymous_run api subs w l Hu Hp)|].
  assert (Hids : map (fun t => prop t "id")
                   (map (fun sub => ephemeral_task (fst sub) (snd sub)) subs)
                 = map (fun z => Ok (JNum z)) (map fst subs)).
  { rewrite !map_map. reflexivity. }
  split; [rewrite Hids, map_map; reflexivity|].
  rewrite Hids.
  assert (Hinj : Inj (=) (=) (fun z : Z => @Ok jsval (JNum z))).
  { intros x y [= ->]. reflexivity. }
  apply (NoDup_fmap (fun z : Z => @Ok jsval (JNum z)) _).
Qed.

Lemma identifiers_distinct_iff_readings_distinct_witness :
  exists new : list jsval,
    persisted_tasks (localStorage (submit_all (api_always (Throw network_error))
                                     [(1000, buy_milk); (1001, buy_eggs)]
                                     (fresh_world ∅)))
    = Ok (JArr ([] ++ new))
    /\ map (fun t => prop t "id") new
       = map (fun sub => Ok (JNum (fst sub)))
           [(1000, buy_milk); (1001, buy_eggs)]
    /\ (NoDup (map (fun t => prop t "id") new)
        <-> NoDup (map fst [(1000, buy_milk); (1001, buy_eggs)])).
Proof.
  exact (identifiers_distinct_iff_readings_distinct
           (api_always (Throw network_error))
           [(1000, buy_milk); (1001, buy_eggs)] (fresh_world ∅) []
           eq_refl eq_refl).
Defined.

Lemma no_json_value_throws (text : string) :
  no_json_value text = true -> JSON_parse text = Throw SyntaxError.
Proof.
  unfold no_json_value, JSON_parse. cbn [parse_value].
  destruct (skip_ws text) as [|c s1]; [reflexivity|].
  unfold starts_json_value. intros H. apply negb_true_iff in H.
  repeat (apply orb_false_iff in H; destruct H as [H ?]).
  unfold parse_number.
  repeat match goal with
         | Heq : Ascii.eqb _ _ = false |- _ => rewrite Heq; clear Heq
         end.
  cbn [parse_digits]. destruct (digit_of_char c); [discriminate|].
  reflexivity.
Qed.

Lemma anonymous_submit_failed_eq (api : api_client) (w : world) (now : Z)
    (d : task_draft) (s : string) :
  truthy (userId (auth w)) = false ->
  localStorage w !! Dashboard.TEMP_TASKS_KEY = Some s ->
  (no_json_value s = true
   \/ exists v e, JSON_parse s = Ok v
                  /\ array_spread (js_or v (JArr [])) = Throw e) ->
  Dashboard.handleTaskSubmit api now (taskData_js d) w
  = (Ok tt,
     with_timers (fun ts => ts ++ [(3000, TaskFailedTimeout)])
       (with_dash
          (fun ds =>
             {| userData := userData ds; isOpen := isOpen ds;
                message := {| text := "Failed to save task locally";
                              msg_isError := true |};
                render_error := render_error ds |})
          w)).
Proof.
  intros Hu Hs Hbad. js_eval. rewrite Hu. js_eval. rewrite Hs.
  cbn [to_String].
  destruct Hbad as [Hno | (v & e & Hv & Hspread)].
  - rewrite (no_json_value_throws s Hno). reflexivity.
  - rewrite Hv. js_eval. rewrite Hspread. reflexivity.
Qed.

(** X18. With no session, a submission is reported as the local failure
    when the stored text holds no JSON value to begin with (it is empty
    or white space only, or begins with a character that begins no JSON
    value), and when it parses to a value that is neither falsy nor a
    list nor a string: a number other than zero, [true], or an object.
    The submission then changes nothing else: the store, the displayed
    tasks and the dialog stay as they were, no request is issued, and the
    3000 ms timer that is registered only clears the message. *)
Theorem unreadable_store_fails_locally (api : api_client) (w : world)
    (now : Z) (d : task_draft) (s : string) :
  truthy (userId (auth w)) = false ->
  localStorage w !! Dashboard.TEMP_TASKS_KEY = Some s ->
  (no_json_value s = true
   \/ exists v e, JSON_parse s = Ok v
                  /\ array_spread (js_or v (JArr [])) = Throw e) ->
  let w' := snd (Dashboard.handleTaskSubmit api now (taskData_js d) w) in
  message (dash w')
  = {| text := "Failed to save task locally"; msg_isError := true |}
  /\ localStorage w' = localStorage w
  /\ userData (dash w') = userData (dash w)
  /\ isOpen (dash w') = isOpen (dash w)
  /\ requests w' = requests w
  /\ timers w' = timers w ++ [(3000, TaskFailedTimeout)]
  /\ isOpen (dash (snd (run_callback TaskFailedTimeout w'))) = isOpen (dash w)
  /\ message (dash (snd (run_callback TaskFailedTimeout w')))
     = {| text := ""; msg_isError := false |}.
Proof.
  intros Hu Hs Hbad w'. subst w'.
  rewrite (anonymous_submit_failed_eq api w now d s Hu Hs Hbad).
  cbn [snd]. repeat split.
Qed.

Lemma unreadable_store_fails_locally_witness :
  message (dash (snd (Dashboard.handleTaskSubmit
    (api_always (Throw network_error)) 1000 (taskData_js buy_milk)
    (fresh_world (<[Dashboard.TEMP_TASKS_KEY := "oops"]> ∅)))))
  = {| text := "Failed to save task locally"; msg_isError := true |}
  /\ message (dash (snd (Dashboard.handleTaskSubmit
       (api_always (Throw network_error)) 1000 (taskData_js buy_milk)
       (fresh_world (<[Dashboard.TEMP_TASKS_KEY := "{}"]> ∅)))))
     = {| text := "Failed to save task locally"; msg_isError := true |}.
Proof.
  split.
  - refine (proj1 (unreadable_store_fails_locally
                     (api_always (Throw network_error))
                     (fresh_world (<[Dashboard.TEMP_TASKS_KEY := "oops"]> ∅))
                     1000 buy_milk "oops" eq_refl eq_refl _)).
    left. reflexivity.
  - refine (proj1 (unreadable_store_fails_locally
                     (api_always (Throw network_error))
                     (fresh_world (<[Dashboard.TEMP_TASKS_KEY := "{}"]> ∅))
                     1000 buy_milk "{}" eq_refl eq_refl _)).
    right. exists (JObj []), TypeError. split; reflexivity.
Defined.

(** ** Submissions of a signed-in user *)

Lemma create_success_eq (api : api_client) (w : world) (now : Z)
    (d : task_draft) (response data task : jsval) (old : list jsval) :
  truthy (userId (auth w)) = true ->
  api_post api "/tasks"
    (JObj (assoc_set "userId" (userId (auth w)) (obj_spread (taskData_js d))))
  = Ok response ->
  prop response "status" = Ok (JNum 201) ->
  prop response "data" = Ok data ->
  prop data "task" = Ok task ->
  array_spread (tasks (userData (dash w))) = Ok old ->
  Dashboard.handleTaskSubmit api now (taskData_js d) w
  = (Ok tt,
     with_timers (fun ts => ts ++ [(3000, TaskSubmittedTimeout)])
       (with_dash
          (fun ds =>
             {| userData := Dashboard.with_tasks (userData (dash w))
                              (JArr (old ++ [task]));
                isOpen := isOpen ds;
                message := {| text := "Task created successfully!";
                              msg_isError := false |};
                render_error := render_error ds |})
          (with_requests
             (fun rs => rs ++ [POST "/tasks"
                (JObj (assoc_set "userId" (userId (auth w))
                         (obj_spread (taskData_js d))))])
             w))).
Proof.
  intros Hu Hr Hs Hd Ht Ho. js_eval in Hr. js_eval in Ho. js_eval.
  rewrite Hu. js_eval. rewrite Hr. js_eval. rewrite Hs. js_eval.
  rewrite Ho, Hd. js_eval. rewrite Ht. reflexivity.
Qed.

(** X20. A signed-in user's draft is sent once, with the user id added;
    when the server answers 201 the task appended to the displayed list
    is the one the server returned, not the draft, the success message is
    shown, nothing is written to localStorage, and the 3000 ms timer that
    is registered closes the dialog. *)
Theorem created_task_is_appended (api : api_client) (w : world) (now : Z)
    (d : task_draft) (response data task : jsval) (old : list jsval) :
  truthy (userId (auth w)) = true ->
  api_post api "/tasks"
    (JObj (assoc_set "userId" (userId (auth w)) (obj_spread (taskData_js d))))
  = Ok response ->
  prop response "status" = Ok (JNum 201) ->
  prop response "data" = Ok data ->
  prop data "task" = Ok task ->
  array_spread (tasks (userData (dash w))) = Ok old ->
  let w' := snd (Dashboard.handleTaskSubmit api now (taskData_js d) w) in
  tasks (userData (dash w')) = JArr (old ++ [task])
  /\ message (dash w')
     = {| text := "Task created successfully!"; msg_isError := false |}
  /\ requests w'
     = requests w
       ++ [POST "/tasks"
             (JObj [("title", JStr (title d));
                    ("description", JStr (description d));
                    ("dueDate", JStr (dueDate d));
                    ("priority", JStr (priority d));
                    ("userId", userId (auth w))])]
  /\ localStorage w' = localStorage w
  /\ timers w' = timers w ++ [(3000, TaskSubmittedTimeout)]
  /\ isOpen (dash (snd (run_callback TaskSubmittedTimeout w'))) = false.
Proof.
  intros Hu Hr Hs Hd Ht Ho w'. subst w'.
  rewrite (create_success_eq api w now d response data task old Hu Hr Hs Hd Ht Ho).
  cbn [snd]. repeat split.
Qed.

Lemma created_task_is_appended_witness :
  tasks (userData (dash (snd (Dashboard.handleTaskSubmit
    (api_always (Ok (response_of 201 (JObj [("task", ephemeral_task 42 buy_milk)]))))
    1000 (taskData_js buy_milk) logged_in_world))))
  = JArr ([] ++ [ephemeral_task 42 buy_milk]).
Proof.
  refine (proj1 (created_task_is_appended
    (api_always (Ok (response_of 201 (JObj [("task", ephemeral_task 42 buy_milk)]))))
    logged_in_world 1000 buy_milk
    (response_of 201 (JObj [("task", ephemeral_task 42 buy_milk)]))
    (JObj [("task", ephemeral_task 42 buy_milk)])
    (ephemeral_task 42 buy_milk) [] eq_refl eq_refl eq_refl eq_refl eq_refl
    eq_refl)).
Defined.

Lemma create_rejected_eq (api : api_client) (w : world) (now : Z)
    (d : task_draft) (e : jsval) :
  truthy (userId (auth w)) = true ->
  api_post api "/tasks"
    (JObj (assoc_set "userId" (userId (auth w)) (obj_spread (taskData_js d))))
  = Throw e ->
  Dashboard.handleTaskSubmit api now (taskData_js d) w
  = (Ok tt,
     with_timers (fun ts => ts ++ [(3000, TaskFailedTimeout)])
       (with_dash
          (fun ds =>
             {| userData := userData ds; isOpen := isOpen ds;
                message := {| text := "Failed to create task. Please try again.";
                              msg_isError := true |};
                render_error := render_error ds |})
          (with_requests
             (fun rs => rs ++ [POST "/tasks"
                (JObj (assoc_set "userId" (userId (auth w))
                         (obj_spread (taskData_js d))))])
             w))).
Proof.
  intros Hu He. js_eval in He. js_eval. rewrite Hu. js_eval. rewrite He.
  reflexivity.
Qed.

(** X21. When the create request of a signed-in user is rejected, the
    draft was sent once and is not retried, the dialog is left as it is,
    and it still is after the 3000 ms timer has cleared the failure
    message: only a submission that went through closes the dialog. *)
Theorem rejected_create_keeps_dialog_open (api : api_client) (w : world)
    (now : Z) (d : task_draft) (e : jsval) :
  truthy (userId (auth w)) = true ->
  api_post api "/tasks"
    (JObj (assoc_set "userId" (userId (auth w)) (obj_spread (taskData_js d))))
  = Throw e ->
  let w' := snd (Dashboard.handleTaskSubmit api now (taskData_js d) w) in
  isOpen (dash w') = isOpen (dash w)
  /\ length (requests w') = S (length (requests w))
  /\ timers w' = timers w ++ [(3000, TaskFailedTimeout)]
  /\ isOpen (dash (snd (run_callback TaskFailedTimeout w'))) = isOpen (dash w)
  /\ userData (dash (snd (run_callback TaskFailedTimeout w')))
     = userData (dash w)
  /\ message (dash (snd (run_callback TaskFailedTimeout w')))
     = {| text := ""; msg_isError := false |}.
Proof.
  intros Hu He w'. subst w'. rewrite (create_rejected_eq api w now d e Hu He).
  cbn [snd]. split; [reflexivity|]. split.
  - world_fields. rewrite length_app. cbn [length]. lia.
  - repeat split.
Qed.

Lemma rejected_create_keeps_dialog_open_witness :
  isOpen (dash (snd (Dashboard.handleTaskSubmit
    (api_always (Throw network_error)) 1000 (taskData_js buy_milk)
    logged_in_world)))
  = isOpen (dash logged_in_world).
Proof.
  refine (proj1 (rejected_create_keeps_dialog_open
    (api_always (Throw network_error)) logged_in_world 1000 buy_milk
    network_error eq_refl eq_refl)).
Defined.

(** X22. The two backends of a submission exclude each other, whatever
    is submitted and however the submission ends: with a session nothing
    is written to localStorage, without one no request is issued.  In
    both cases the session and the navigation history are left alone. *)
Theorem submission_backends_are_exclusive (api : api_client) (now : Z)
    (taskData : jsval) (w : world) :
  (truthy (userId (auth w)) = true ->
   localStorage (snd (Dashboard.handleTaskSubmit api now taskData w))
   = localStorage w)
  /\ (truthy (userId (auth w)) = false ->
      requests (snd (Dashboard.handleTaskSubmit api now taskData w))
      = requests w)
  /\ auth (snd (Dashboard.handleTaskSubmit api now taskData w)) = auth w
  /\ navigations (snd (Dashboard.handleTaskSubmit api now taskData w))
     = navigations w.
Proof.
  split; [|split; [|split]].
  - intros Hu. js_eval. destruct (truthy taskData); js_eval; [|reflexivity].
    rewrite Hu. js_eval.
    repeat (split_scrutinee; js_eval); reflexivity.
  - intros Hu. js_eval. destruct (truthy taskData); js_eval; [|reflexivity].
    rewrite Hu. js_eval.
    repeat (split_scrutinee; js_eval); reflexivity.
  - js_eval. destruct (truthy taskData); js_eval; [|reflexivity].
    repeat (split_scrutinee; js_eval); reflexivity.
  - js_eval. destruct (truthy taskData); js_eval; [|reflexivity].
    repeat (split_scrutinee; js_eval); reflexivity.
Qed.

Lemma submission_backends_are_exclusive_witness :
  localStorage (snd (Dashboard.handleTaskSubmit
    (api_always (Throw network_error)) 1000 (taskData_js buy_milk)
    logged_in_world))
  = localStorage logged_in_world
  /\ requests (snd (Dashboard.handleTaskSubmit
       (api_always (Throw network_error)) 1000 (taskData_js buy_milk)
       (fresh_world ∅)))
     = requests (fresh_world ∅).
Proof.
  split.
  - refine (proj1 (submission_backends_are_exclusive
      (api_always (Throw network_error)) 1000 (taskData_js buy_milk)
      logged_in_world) eq_refl).
  - refine (proj1 (proj2 (submission_backends_are_exclusive
      (api_always (Throw network_error)) 1000 (taskData_js buy_milk)
      (fresh_world ∅))) eq_refl).
Defined.

(** ** The profile loader *)

Lemma loadData_anonymous_eq (api : api_client) (w : world) :
  truthy (userId (auth w)) = false ->
  Dashboard.loadData api w
  = (Ok tt,
     with_dash
       (fun ds => {| userData := Dashboard.placeholder (userData ds);
                     isOpen := isOpen ds; message := message ds;
                     render_error := render_error ds |})
       w).
Proof. intros Hu. js_eval. rewrite Hu. reflexivity. Qed.

Lemma loadData_requests (api : api_client) (w : world) :
  truthy (userId (auth w)) = true ->
  requests (snd (Dashboard.loadData api w))
  = requests w ++ [GET ("/users/me/" +:+ to_String (userId (auth w)))].
Proof.
  intros Hu. js_eval. rewrite Hu. js_eval.
  repeat (split_scrutinee; js_eval); reflexivity.
Qed.

(** X23. With a session, a profile response of status 200 replaces the
    whole profile by the user's record: nothing of the previous profile
    is kept, the picture is the record's profileIcon, and the task list
    is the record's savedTasks, or the empty list when it has none.  The
    loader writes nothing to localStorage and sets no message. *)
Theorem profile_response_replaces_profile (api : api_client) (w : world)
    (response data user un ms icon saved : jsval) :
  truthy (userId (auth w)) = true ->
  api_get api ("/users/me/" +:+ to_String (userId (auth w))) = Ok response ->
  prop response "status" = Ok (JNum 200) ->
  prop response "data" = Ok data ->
  prop data "user" = Ok user ->
  prop user "username" = Ok un ->
  prop user "memberSince" = Ok ms ->
  prop user "profileIcon" = Ok icon ->
  prop user "savedTasks" = Ok saved ->
  let w' := snd (Dashboard.loadData api w) in
  userData (dash w')
  = {| username := un; memberSince := ms; profileImage := icon;
       tasks := js_or saved (JArr []) |}
  /\ (truthy saved = false -> tasks (userData (dash w')) = JArr [])
  /\ message (dash w') = message (dash w)
  /\ isOpen (dash w') = isOpen (dash w)
  /\ localStorage w' = localStorage w
  /\ auth w' = auth w.
Proof.
  intros Hu Hr Hs Hd Hus Hun Hms Hic Hsv w'. subst w'.
  js_eval. rewrite Hu. js_eval. rewrite Hr. js_eval. rewrite Hs. js_eval.
  rewrite Hd. js_eval. rewrite Hus. js_eval. rewrite Hun. js_eval.
  rewrite Hms. js_eval. rewrite Hic. js_eval. rewrite Hsv. js_eval.
  split; [reflexivity|]. split; [|repeat split].
  intros Hf. unfold js_or. rewrite Hf. reflexivity.
Qed.

Lemma profile_response_replaces_profile_witness :
  userData (dash (snd (Dashboard.loadData
    (api_always (Ok (response_of 200
       (JObj [("user", JObj [("username", JStr "alice");
                             ("memberSince", JStr "2024")])]))))
    logged_in_world)))
  = {| username := JStr "alice"; memberSince := JStr "2024";
       profileImage := JUndefined; tasks := js_or JUndefined (JArr []) |}.
Proof.
  refine (proj1 (profile_response_replaces_profile
    (api_always (Ok (response_of 200
       (JObj [("user", JObj [("username", JStr "alice");
                             ("memberSince", JStr "2024")])]))))
    logged_in_world
    (response_of 200
       (JObj [("user", JObj [("username", JStr "alice");
                             ("memberSince", JStr "2024")])]))
    (JObj [("user", JObj [("username", JStr "alice");
                          ("memberSince", JStr "2024")])])
    (JObj [("username", JStr "alice"); ("memberSince", JStr "2024")])
    (JStr "alice") (JStr "2024") JUndefined JUndefined
    eq_refl eq_refl eq_refl eq_refl eq_refl eq_refl eq_refl eq_refl eq_refl)).
Defined.

(** X24. With a session, a profile response of status 200 that carries
    no user (its data, or the user in it, is [undefined] or [null]) ends
    like a rejected request: the placeholder profile is shown. *)
Theorem profile_response_without_user_shows_placeholder (api : api_client)
    (w : world) (response data : jsval) :
  truthy (userId (auth w)) = true ->
  api_get api ("/users/me/" +:+ to_String (userId (auth w))) = Ok response ->
  prop response "status" = Ok (JNum 200) ->
  prop response "data" = Ok data ->
  (is_nullish data = true
   \/ exists user, prop data "user" = Ok user /\ is_nullish user = true) ->
  userData (dash (snd (Dashboard.loadData api w)))
  = {| username := JStr "Unknown User"; memberSince := JStr "9999";
       profileImage := Dashboard.AppIcon; tasks := JArr [] |}.
Proof.
  intros Hu Hr Hs Hd Hno.
  js_eval. rewrite Hu. js_eval. rewrite Hr. js_eval. rewrite Hs. js_eval.
  rewrite Hd. js_eval. destruct Hno as [Hn | (user & Hus & Hn)].
  - rewrite (prop_nullish data "user" Hn). reflexivity.
  - rewrite Hus. js_eval. rewrite (prop_nullish user "username" Hn).
    reflexivity.
Qed.

Lemma profile_response_without_user_shows_placeholder_witness :
  userData (dash (snd (Dashboard.loadData
    (api_always (Ok (response_of 200 (JObj [])))) logged_in_world)))
  = {| username := JStr "Unknown User"; memberSince := JStr "9999";
       profileImage := Dashboard.AppIcon; tasks := JArr [] |}.
Proof.
  refine (profile_response_without_user_shows_placeholder
    (api_always (Ok (response_of 200 (JObj [])))) logged_in_world
    (response_of 200 (JObj [])) (JObj []) eq_refl eq_refl eq_refl eq_refl _).
  right. exists JUndefined. split; reflexivity.
Defined.

(** ** The session manager and the dashboard together *)

(** X25. After a login that returned the user id [uid] and a token, both
    non-empty strings, the dashboard asks for the profile of [uid]; once
    the page has been loaded again it asks for another address, that of
    [uid] quoted twice. *)
Theorem reload_changes_profile_address (api : api_client) (w : world)
    (postData response data m : jsval) (uid tk : string) :
  truthy postData = true ->
  api_post api "/auth/login" postData = Ok response ->
  prop response "status" = Ok (JNum 200) ->
  prop response "data" = Ok data ->
  prop data "userId" = Ok (JStr uid) ->
  prop data "token" = Ok (JStr tk) ->
  prop data "message" = Ok m ->
  uid <> EmptyString ->
  tk <> EmptyString ->
  requests (snd (Dashboard.loadData api
                   (snd (AuthProvider.login api postData w))))
  = requests w ++ [POST "/auth/login" postData; GET ("/users/me/" +:+ uid)]
  /\ requests (snd (Dashboard.loadData api
                      (reload (snd (AuthProvider.login api postData w)))))
     = [GET ("/users/me/" +:+ JSON_quote (JSON_quote uid))]
  /\ JSON_quote (JSON_quote uid) <> uid.
Proof.
  intros Hp Hr Hs Hd Hu Ht Hm Huid Htk.
  pose proof (login_success api w postData response data (JStr uid) (JStr tk) m
                Hp Hr Hs Hd Hu Ht Hm) as Hlogin.
  assert (Hreload : auth (reload (snd (AuthProvider.login api postData w)))
                    = {| userId := JStr (JSON_quote (JSON_quote uid));
                         token := JStr tk |}
                    /\ requests (reload (snd (AuthProvider.login api postData w)))
                       = []).
  { unfold reload. rewrite Hlogin, getData_eq. world_fields.
    unfold stored_present. rewrite lookup_insert_ne by discriminate.
    rewrite !lookup_insert_eq.
    pose proof (stored_stringify_nonempty (JStr uid)) as Hne.
    apply String.eqb_neq in Hne, Htk. cbn [to_String] in *.
    rewrite Hne, Htk. cbn [negb andb]. world_fields.
    rewrite JSON_stringify_string. cbn [from_option id default to_String].
    split; reflexivity. }
  destruct Hreload as (Hauth & Hreq).
  assert (Hq : forall s : string, s <> EmptyString -> truthy (JStr s) = true).
  { intros s Hs0. cbn [truthy]. apply String.eqb_neq in Hs0. rewrite Hs0.
    reflexivity. }
  split; [|split].
  - rewrite loadData_requests; rewrite Hlogin; world_fields.
    + rewrite <- app_assoc. reflexivity.
    + apply Hq, Huid.
  - rewrite loadData_requests; rewrite Hauth; world_fields.
    + rewrite Hreq. reflexivity.
    + apply Hq. intros Hempty.
      pose proof (JSON_quote_length (JSON_quote uid)) as Hlen.
      rewrite Hempty in Hlen. cbn [String.length] in Hlen. lia.
  - intros Heq. pose proof (JSON_quote_length (JSON_quote uid)) as H1.
    pose proof (JSON_quote_length uid) as H2. rewrite Heq in H1. lia.
Qed.

Lemma reload_changes_profile_address_witness :
  requests (snd (Dashboard.loadData (accepting_api (JStr "u1") (JStr "t0k"))
                   (snd (AuthProvider.login
                           (accepting_api (JStr "u1") (JStr "t0k"))
                           (loginData_js alice) (fresh_world ∅)))))
  = requests (fresh_world ∅)
    ++ [POST "/auth/login" (loginData_js alice); GET ("/users/me/" +:+ "u1")].
Proof.
  refine (proj1 (reload_changes_profile_address
    (accepting_api (JStr "u1") (JStr "t0k")) (fresh_world ∅)
    (loginData_js alice)
    (response_of 200
       (login_payload (JStr "u1") (JStr "t0k") (JStr "Login successful")))
    (login_payload (JStr "u1") (JStr "t0k") (JStr "Login successful"))
    (JStr "Login successful") "u1" "t0k"
    eq_refl eq_refl eq_refl eq_refl eq_refl eq_refl eq_refl _ _));
    discriminate.
Defined.

(** X26. Opening the dashboard without a session neither shows nor
    removes the tasks still stored: the list displayed is empty and the
    store is as it was.  The first submission made afterwards shows them
    all again, followed by the new task. *)
Theorem stored_tasks_resurface_on_submission (api : api_client) (w : world)
    (now : Z) (d : task_draft) (l : list jsval) :
  truthy (userId (auth w)) = false ->
  persisted_tasks (localStorage w) = Ok (JArr l) ->
  let w0 := snd (Dashboard.loadData api w) in
  tasks (userData (dash w0)) = JArr []
  /\ localStorage w0 = localStorage w
  /\ tasks (userData (dash (snd (Dashboard.handleTaskSubmit api now
                                   (taskData_js d) w0))))
     = JArr (l ++ [ephemeral_task now d]).
Proof.
  intros Hu Hp w0. subst w0. rewrite (loadData_anonymous_eq api w Hu).
  cbn [snd]. split; [reflexivity|]. split; [reflexivity|].
  apply (anonymous_submit_shows api _ now d (JArr l) l); [exact Hu | exact Hp |].
  reflexivity.
Qed.

Lemma stored_tasks_resurface_on_submission_witness :
  tasks (userData (dash (snd (Dashboard.loadData
    (api_always (Throw network_error))
    (fresh_world (<[Dashboard.TEMP_TASKS_KEY := "[7]"]> ∅))))))
  = JArr [].
Proof.
  refine (proj1 (stored_tasks_resurface_on_submission
    (api_always (Throw network_error))
    (fresh_world (<[Dashboard.TEMP_TASKS_KEY := "[7]"]> ∅))
    1000 buy_milk [JNum 7] eq_refl _)).
  vm_compute. reflexivity.
Defined.

(** ** The dialog *)

Lemma form_state_is_object (events : list change_event) :
  forall fields : list (string * jsval),
    exists fields',
      fold_left NewTask.handleChange events (JObj fields) = JObj fields'.
Proof.
  induction events as [|e events IH]; intros fields.
  - exists fields. reflexivity.
  - cbn [fold_left]. unfold NewTask.handleChange at 2, with_field. apply IH.
Qed.

Lemma object_submission_sets_timer (api : api_client) (now : Z)
    (fields : list (string * jsval)) (w : world) :
  exists cb,
    timers (snd (Dashboard.handleTaskSubmit api now (JObj fields) w))
    = timers w ++ [(3000, cb)].
Proof.
  js_eval. repeat (split_scrutinee; simplify_eq; js_eval); eauto.
Qed.

(** X19. Whatever is handed over that is falsy only closes the dialog:
    no message is set, no timer registered, no request issued, nothing
    stored.  The Cancel button of the NewTask form does exactly that,
    whereas the form's submit button never does, however the form was
    filled in: what it hands over is an object, and a 3000 ms timer is
    registered. *)
Theorem cancel_only_closes_dialog (api : api_client) (now : Z) (w : world) :
  (forall taskData : jsval,
      truthy taskData = false ->
      Dashboard.handleTaskSubmit api now taskData w
      = (Ok tt,
         with_dash
           (fun ds => {| userData := userData ds; isOpen := false;
                         message := message ds;
                         render_error := render_error ds |})
           w))
  /\ NewTask.cancel (Dashboard.handleTaskSubmit api now) w
     = (Ok tt,
        with_dash
          (fun ds => {| userData := userData ds; isOpen := false;
                        message := message ds;
                        render_error := render_error ds |})
          w)
  /\ (forall events : list change_event,
        exists cb,
          timers (snd (NewTask.handleSubmit (Dashboard.handleTaskSubmit api now)
                         (fold_left NewTask.handleChange events NewTask.initial)
                         w))
          = timers w ++ [(3000, cb)]).
Proof.
  split; [|split].
  - intros taskData Hf. unfold Dashboard.handleTaskSubmit. rewrite Hf.
    reflexivity.
  - reflexivity.
  - intros events. unfold NewTask.handleSubmit, NewTask.initial.
    destruct (form_state_is_object events
                [("title", JStr ""); ("description", JStr "");
                 ("dueDate", JStr ""); ("priority", JStr "medium")])
      as (fields' & ->).
    apply object_submission_sets_timer.
Qed.

Lemma cancel_only_closes_dialog_witness :
  Dashboard.handleTaskSubmit (api_always (Throw network_error)) 1000
    (JStr "") logged_in_world
  = (Ok tt,
     with_dash
       (fun ds => {| userData := userData ds; isOpen := false;
                     message := message ds;
                     render_error := render_error ds |})
       logged_in_world).
Proof.
  refine (proj1 (cancel_only_closes_dialog (api_always (Throw network_error))
                   1000 logged_in_world) (JStr "") eq_refl).
Defined.

(** X27. From the form to the store.  With no session and a stored list
    that reads as [l], submitting the NewTask form persists [l] followed
    by one task holding the values last given to the four inputs (the
    priority [medium] if it was never changed) and the clock reading as
    its identifier. *)
Theorem typed_task_is_persisted (api : api_client) (w : world) (now : Z)
    (events : list change_event) (l : list jsval) :
  Forall (fun e => In (fst e)
                     ["title"; "description"; "dueDate"; "priority"]%string)
    events ->
  truthy (userId (auth w)) = false ->
  persisted_tasks (localStorage w) = Ok (JArr l) ->
  persisted_tasks
    (localStorage
       (snd (NewTask.handleSubmit (Dashboard.handleTaskSubmit api now)
               (fold_left NewTask.handleChange events NewTask.initial) w)))
  = Ok (JArr (l ++ [JObj [("title", JStr (last_value "title" events ""));
                          ("description",
                           JStr (last_value "description" events ""));
                          ("dueDate", JStr (last_value "dueDate" events ""));
                          ("priority",
                           JStr (last_value "priority" events "medium"));
                          ("id", JNum now)]])).
Proof.
  intros Hall Hu Hp. unfold NewTask.handleSubmit.
  change NewTask.initial
    with (taskData_js {| title := ""; description := ""; dueDate := "";
                         priority := "medium" |}).
  rewrite (task_form_changes events _ Hall). cbn [title description dueDate priority].
  exact (proj1 (anonymous_submit_reads_back api w now _ (JArr l) l Hu Hp
                  eq_refl)).
Qed.

Lemma typed_task_is_persisted_witness :
  persisted_tasks
    (localStorage
       (snd (NewTask.handleSubmit
               (Dashboard.handleTaskSubmit (api_always (Throw network_error)) 1000)
               (fold_left NewTask.handleChange
                  [("title", "Buy milk"); ("title", "Buy oat milk")]%string
                  NewTask.initial)
               (fresh_world ∅))))
  = Ok (JArr ([] ++ [JObj [("title", JStr (last_value "title"
                              [("title", "Buy milk"); ("title", "Buy oat milk")]%string ""));
                          ("description",
                           JStr (last_value "description"
                              [("title", "Buy milk"); ("title", "Buy oat milk")]%string ""));
                          ("dueDate", JStr (last_value "dueDate"
                              [("title", "Buy milk"); ("title", "Buy oat milk")]%string ""));
                          ("priority",
                           JStr (last_value "priority"
                              [("title", "Buy milk"); ("title", "Buy oat milk")]%string "medium"));
                          ("id", JNum 1000)]])).
Proof.
  refine (typed_task_is_persisted (api_always (Throw network_error))
            (fresh_world ∅) 1000
            [("title", "Buy milk"); ("title", "Buy oat milk")]%string []
            _ eq_refl eq_refl).
  repeat constructor.
Defined.

(** ** What the sign-up page never does *)

(** X28. A sign-up submission, however it is filled in and whatever the
    server does, never writes to localStorage, never changes the session
    and never navigates by itself; it issues no request, or the one
    request carrying the form data. *)
Theorem signup_never_opens_session (api : api_client) (d : signup_data)
    (confirmPassword : string) (w : world) :
  localStorage (snd (SignUp.handleSubmit api d confirmPassword w))
  = localStorage w
  /\ auth (snd (SignUp.handleSubmit api d confirmPassword w)) = auth w
  /\ navigations (snd (SignUp.handleSubmit api d confirmPassword w))
     = navigations w
  /\ (requests (snd (SignUp.handleSubmit api d confirmPassword w))
      = requests w
      \/ requests (snd (SignUp.handleSubmit api d confirmPassword w))
         = requests w ++ [POST "/auth/sign-up" (newData_js d)]).
Proof.
  unfold SignUp.handleSubmit.
  destruct (blank (su_username d) || blank (su_email d)
            || blank (su_password d) || blank confirmPassword);
    [repeat split; left; reflexivity|].
  destruct (negb (String.eqb (su_password d) confirmPassword));
    [repeat split; left; reflexivity|].
  js_eval.
  repeat (split_scrutinee; js_eval);
    (split; [reflexivity|]; split; [reflexivity|]; split; [reflexivity|];
     right; reflexivity).
Qed.

(** ** Timers and routes *)

(** X29. A timer callback only touches what is on screen: it never
    writes to localStorage, never changes the session, issues no request
    and registers no timer.  The only callbacks that navigate are the
    success callbacks of the two auth pages, and both go to a routed
    page: after a login to the dashboard, after a sign-up to the login
    page. *)
Theorem timer_callbacks_stay_on_screen (cb : callback) (w : world) :
  localStorage (snd (run_callback cb w)) = localStorage w
  /\ auth (snd (run_callback cb w)) = auth w
  /\ requests (snd (run_callback cb w)) = requests w
  /\ timers (snd (run_callback cb w)) = timers w
  /\ match cb with
     | LoginSuccessTimeout =>
         navigations (snd (run_callback cb w)) = navigations w ++ ["/"%string]
         /\ App.page_at "/" = Some App.DashboardPage
     | SignUpSuccessTimeout =>
         navigations (snd (run_callback cb w))
         = navigations w ++ ["/auth/login"%string]
         /\ App.page_at "/auth/login" = Some App.LoginPage
     | _ => navigations (snd (run_callback cb w)) = navigations w
     end.
Proof. destruct cb; repeat split. Qed.

(** ** The header *)

(** X30. The dashboard header after a logout and a fresh load of the
    profile: the visitor's block is rendered, with links to the sign-up
    and the login page, both routed; the user's block is not; and the
    picture is the default icon.  No request was issued on the way. *)
Theorem header_after_logout_offers_routed_links (api : api_client)
    (w : world) :
  let w' := snd (Dashboard.loadData api (snd (AuthProvider.logout w))) in
  Header.guest (dashboard_header w')
  = Header.Element ["/auth/sign-up"; "/auth/login"]%string
  /\ App.page_at "/auth/sign-up" = Some App.SignUpPage
  /\ App.page_at "/auth/login" = Some App.LoginPage
  /\ Header.identity (dashboard_header w') = Header.Guard JNull
  /\ Header.img_src (dashboard_header w') = Dashboard.AppIcon
  /\ requests w' = requests w.
Proof.
  intros w'. subst w'. rewrite logout_eq. cbn [snd].
  rewrite loadData_anonymous_eq by reflexivity. repeat split.
Qed.
